(** * tax-evader: verification sessions and the $TAX points engine

    A shallow embedding of the bot's services and models:
    - [models/User.ts] (schema defaults, [awardPoints], [incrementMessages],
      [updateStreak]),
    - [models/TaxConfig.ts] and [services/TaxConfigService.ts] (versioned
      configuration),
    - [services/TaxPointsService.ts] (the configurable points engine),
    - [services/VerificationService.ts] (the join challenge).

    Conventions of the embedding.
    - A JavaScript [number] that holds an amount of points or a configured
      parameter is a rational [Q]; counters that the code only ever sets to
      an integer or increments by one ([messagesCount], [dailyStreak],
      [version]) are integers [Z].  [NaN] and the infinities do not occur.
    - A string is the sequence of its code units, and [String.length] its
      [length].
    - A [Date] is its [getTime()] value, an integer number of milliseconds;
      an optional field is an [option].  Every [new Date()] and [Date.now()]
      of one call reads the same instant [now].
    - The engine reads the local clock as UTC shifted by a fixed offset
      [tz] (milliseconds); the container image of the repository sets no
      time zone, so [tz = 0] there.  [updateStreak], which measures the
      distance between two local midnights, is modelled over a [Zone] whose
      offset may change during the year; the engine calls it in the zone
      of its fixed offset.
    - A Mongo collection with a unique key is a [gmap] from the key to the
      rest of the document; [save] writes the in-memory document back.
      Store operations succeed, and events are handled one at a time.
    - Of the Telegram API only the outcome matters here: a flag tells
      whether the calls of a handler went through or threw. *)

From Stdlib Require Import ZArith QArith Qround Qminmax Lqa Lia String Ascii Bool.
From stdpp Require Import gmap list.

Open Scope Z_scope.

(** ** Numbers *)

Definition Qltb (x y : Q) : bool := negb (Qle_bool y x).
Definition Qgeb (x y : Q) : bool := Qle_bool y x.
Definition Qgtb (x y : Q) : bool := Qltb y x.

(** [Math.round]: the nearest integer, ties towards plus infinity. *)
Definition Math_round (x : Q) : Z := Qfloor (x + (1 # 2)).

(** JavaScript truthiness of a number that is present. *)
Definition truthy (n : Z) : bool := negb (n =? 0).

(** ** Local time *)

Definition msPerHour : Z := 60 * 60 * 1000.
Definition msPerDay : Z := 1000 * 60 * 60 * 24.

Section LocalTime.
Variable tz : Z.

(** Number of the local calendar day that contains instant [t]. *)
Definition dayNumber (t : Z) : Z := (t + tz) `div` msPerDay.

(** [new Date(d.getFullYear(), d.getMonth(), d.getDate())]: local midnight
    of the day of [t]. *)
Definition startOfDay (t : Z) : Z := dayNumber t * msPerDay - tz.

(** [getHours()] and [getDay()] (0 is Sunday; day 0 of the epoch was a
    Thursday). *)
Definition getHours (t : Z) : Z := ((t + tz) `div` msPerHour) `mod` 24.
Definition getDay (t : Z) : Z := (dayNumber t + 4) `mod` 7.
End LocalTime.

(** A time zone whose clock may be put forward or back: [offsetAt] is the
    offset from UTC (milliseconds) in force at an instant, [offsetOfLocal]
    the offset by which the runtime turns a reading of the local clock
    into an instant, as [new Date(y, m, d)] does. *)
Record Zone := mkZone {
  offsetAt : Z -> Z;
  offsetOfLocal : Z -> Z
}.

(** The zone whose offset never changes. *)
Definition fixedZone (tz : Z) : Zone := mkZone (λ _, tz) (λ _, tz).

(** Number of the local calendar day that contains instant [t]
    ([getFullYear()], [getMonth()] and [getDate()] taken together). *)
Definition localDay (zone : Zone) (t : Z) : Z :=
  (t + offsetAt zone t) `div` msPerDay.

(** [new Date(d.getFullYear(), d.getMonth(), d.getDate())]: the instant at
    which the local clock reads midnight of the day of [t]. *)
Definition localMidnight (zone : Zone) (t : Z) : Z :=
  let reading := localDay zone t * msPerDay in
  reading - offsetOfLocal zone reading.

(** ** models/User.ts *)

Module GroupActivity.
Record t := mk {
  groupId : Z;
  messagesCount : Z;
  pointsEarned : Q;
  lastMessageDate : option Z;
  dailyPoints : Q;
  lastDailyReset : option Z
}.

Definition set_messagesCount (v : Z) (g : t) : t :=
  mk (groupId g) v (pointsEarned g) (lastMessageDate g) (dailyPoints g)
     (lastDailyReset g).
Definition set_pointsEarned (v : Q) (g : t) : t :=
  mk (groupId g) (messagesCount g) v (lastMessageDate g) (dailyPoints g)
     (lastDailyReset g).
Definition set_lastMessageDate (v : option Z) (g : t) : t :=
  mk (groupId g) (messagesCount g) (pointsEarned g) v (dailyPoints g)
     (lastDailyReset g).
Definition set_dailyPoints (v : Q) (g : t) : t :=
  mk (groupId g) (messagesCount g) (pointsEarned g) (lastMessageDate g) v
     (lastDailyReset g).
Definition set_lastDailyReset (v : option Z) (g : t) : t :=
  mk (groupId g) (messagesCount g) (pointsEarned g) (lastMessageDate g)
     (dailyPoints g) v.
End GroupActivity.

Module User.
(** The document without its unique key [userId], which indexes the
    collection. *)
Record t := mk {
  username : option string;
  firstName : string;
  lastName : option string;
  isVerified : bool;
  verificationDate : option Z;
  joinDate : Z;
  groups : list Z;
  taxPoints : Q;
  totalPointsEarned : Q;
  lastActivityDate : option Z;
  messagesCount : Z;
  dailyStreak : Z;
  lastStreakDate : option Z;
  lastPointAward : option Z;
  groupActivity : list GroupActivity.t
}.

Definition set_isVerified (v : bool) (u : t) : t :=
  mk (username u) (firstName u) (lastName u) v (verificationDate u)
     (joinDate u) (groups u) (taxPoints u) (totalPointsEarned u)
     (lastActivityDate u) (messagesCount u) (dailyStreak u)
     (lastStreakDate u) (lastPointAward u) (groupActivity u).
Definition set_verificationDate (v : option Z) (u : t) : t :=
  mk (username u) (firstName u) (lastName u) (isVerified u) v
     (joinDate u) (groups u) (taxPoints u) (totalPointsEarned u)
     (lastActivityDate u) (messagesCount u) (dailyStreak u)
     (lastStreakDate u) (lastPointAward u) (groupActivity u).
Definition set_taxPoints (v : Q) (u : t) : t :=
  mk (username u) (firstName u) (lastName u) (isVerified u)
     (verificationDate u) (joinDate u) (groups u) v (totalPointsEarned u)
     (lastActivityDate u) (messagesCount u) (dailyStreak u)
     (lastStreakDate u) (lastPointAward u) (groupActivity u).
Definition set_totalPointsEarned (v : Q) (u : t) : t :=
  mk (username u) (firstName u) (lastName u) (isVerified u)
     (verificationDate u) (joinDate u) (groups u) (taxPoints u) v
     (lastActivityDate u) (messagesCount u) (dailyStreak u)
     (lastStreakDate u) (lastPointAward u) (groupActivity u).
Definition set_lastActivityDate (v : option Z) (u : t) : t :=
  mk (username u) (firstName u) (lastName u) (isVerified u)
     (verificationDate u) (joinDate u) (groups u) (taxPoints u)
     (totalPointsEarned u) v (messagesCount u) (dailyStreak u)
     (lastStreakDate u) (lastPointAward u) (groupActivity u).
Definition set_messagesCount (v : Z) (u : t) : t :=
  mk (username u) (firstName u) (lastName u) (isVerified u)
     (verificationDate u) (joinDate u) (groups u) (taxPoints u)
     (totalPointsEarned u) (lastActivityDate u) v (dailyStreak u)
     (lastStreakDate u) (lastPointAward u) (groupActivity u).
Definition set_dailyStreak (v : Z) (u : t) : t :=
  mk (username u) (firstName u) (lastName u) (isVerified u)
     (verificationDate u) (joinDate u) (groups u) (taxPoints u)
     (totalPointsEarned u) (lastActivityDate u) (messagesCount u) v
     (lastStreakDate u) (lastPointAward u) (groupActivity u).
Definition set_lastStreakDate (v : option Z) (u : t) : t :=
  mk (username u) (firstName u) (lastName u) (isVerified u)
     (verificationDate u) (joinDate u) (groups u) (taxPoints u)
     (totalPointsEarned u) (lastActivityDate u) (messagesCount u)
     (dailyStreak u) v (lastPointAward u) (groupActivity u).
Definition set_lastPointAward (v : option Z) (u : t) : t :=
  mk (username u) (firstName u) (lastName u) (isVerified u)
     (verificationDate u) (joinDate u) (groups u) (taxPoints u)
     (totalPointsEarned u) (lastActivityDate u) (messagesCount u)
     (dailyStreak u) (lastStreakDate u) v (groupActivity u).
Definition set_groupActivity (v : list GroupActivity.t) (u : t) : t :=
  mk (username u) (firstName u) (lastName u) (isVerified u)
     (verificationDate u) (joinDate u) (groups u) (taxPoints u)
     (totalPointsEarned u) (lastActivityDate u) (messagesCount u)
     (dailyStreak u) (lastStreakDate u) (lastPointAward u) v.

(** The profile fields and the joined groups written together. *)
Definition set_profile (uname : option string) (first : string)
    (last : option string) (gs : list Z) (u : t) : t :=
  mk uname first last (isVerified u) (verificationDate u) (joinDate u) gs
     (taxPoints u) (totalPointsEarned u) (lastActivityDate u)
     (messagesCount u) (dailyStreak u) (lastStreakDate u) (lastPointAward u)
     (groupActivity u).

(** A document created from the schema defaults (the upsert of
    [handleNewUser] on a user seen for the first time). *)
Definition create (now : Z) (uname : option string) (first : string)
    (last : option string) (group : Z) : t :=
  mk uname first last false None now [group] 0%Q 0%Q None 0 0 None None [].
End User.

(** [this.groupActivity.find(g => g.groupId === groupId)]: the first entry
    of the group, with its position (the entry is then updated in place). *)
Definition findActivity (gid : Z) (l : list GroupActivity.t)
    : option (nat * GroupActivity.t) :=
  list_find (λ g, GroupActivity.groupId g = gid) l.

Definition awardPoints (now : Z) (points : Q) (groupId : option Z)
    (u : User.t) : User.t :=
  let u := User.set_taxPoints (User.taxPoints u + points)%Q u in
  let u := User.set_totalPointsEarned (User.totalPointsEarned u + points)%Q u in
  let u := User.set_lastActivityDate (Some now) u in
  let u := User.set_lastPointAward (Some now) u in
  match groupId with
  | Some gid =>
      if truthy gid then
        match findActivity gid (User.groupActivity u) with
        | Some (i, g) =>
            let g := GroupActivity.set_pointsEarned
                       (GroupActivity.pointsEarned g + points)%Q g in
            let g := GroupActivity.set_lastMessageDate (Some now) g in
            User.set_groupActivity (<[i := g]> (User.groupActivity u)) u
        | None =>
            User.set_groupActivity
              (User.groupActivity u ++
                 [GroupActivity.mk gid 0 points (Some now) 0%Q None]) u
        end
      else u
  | None => u
  end.

Definition incrementMessages (now : Z) (groupId : option Z) (u : User.t)
    : User.t :=
  let u := User.set_messagesCount (User.messagesCount u + 1) u in
  match groupId with
  | Some gid =>
      if truthy gid then
        match findActivity gid (User.groupActivity u) with
        | Some (i, g) =>
            let g := GroupActivity.set_messagesCount
                       (GroupActivity.messagesCount g + 1) g in
            let g := GroupActivity.set_lastMessageDate (Some now) g in
            User.set_groupActivity (<[i := g]> (User.groupActivity u)) u
        | None =>
            User.set_groupActivity
              (User.groupActivity u ++
                 [GroupActivity.mk gid 1 0%Q (Some now) 0%Q None]) u
        end
      else u
  | None => u
  end.

Definition updateStreak (zone : Zone) (now : Z) (u : User.t) : User.t :=
  let today := localMidnight zone now in
  let u :=
    match User.lastStreakDate u with
    | None => User.set_dailyStreak 1 u
    | Some last =>
        let lastStreakDay := localMidnight zone last in
        let daysDiff := (today - lastStreakDay) `div` (1000 * 60 * 60 * 24) in
        if daysDiff =? 1 then User.set_dailyStreak (User.dailyStreak u + 1) u
        else if 1 <? daysDiff then User.set_dailyStreak 1 u
        else u
    end in
  User.set_lastStreakDate (Some now) u.

(** ** models/TaxConfig.ts *)

Module StreakThreshold.
Record t := mk { days : Q; multiplier : Q }.
End StreakThreshold.

Module Milestone.
Record t := mk { points : Q; bonus : Q }.
End Milestone.

Module NightOwl.
Record t := mk { startHour : Q; endHour : Q; bonus : Q }.
End NightOwl.

(** [Schema.Types.Mixed]: the patch of a group override, a bag of fields
    by name.  The operations modelled here store it and never look inside. *)
Definition Mixed : Type := list (string * Q).

Module GroupOverride.
Record t := mk { groupId : Z; overrides : Mixed }.
End GroupOverride.

Module TaxConfig.
Record t := mk {
  version : Z;
  lastUpdated : Z;
  updatedBy : option Z;
  isActive : bool;
  welcomeBonus : Q;
  baseMessagePoints : Q;
  dailyFirstMessageBonus : Q;
  minMessageLength : Q;
  qualityMessageLength : Q;
  qualityMultiplier : Q;
  replyBonus : Q;
  streakMultipliers : list StreakThreshold.t;
  maxStreakMultiplier : Q;
  cooldownSeconds : Q;
  maxPointsPerHour : Q;
  maxPointsPerDay : Q;
  diminishingReturnsThreshold : Q;
  diminishingReturnsFactor : Q;
  milestoneRewards : list Milestone.t;
  weekendMultiplier : Q;
  nightOwlBonus : NightOwl.t;
  enableWelcomeBonus : bool;
  enableDailyBonus : bool;
  enableStreakMultiplier : bool;
  enableQualityMultiplier : bool;
  enableTimeMultiplier : bool;
  enableMilestoneRewards : bool;
  enablePointNotifications : bool;
  notificationThreshold : Q;
  enableRankNotifications : bool;
  enableStreakNotifications : bool;
  groupOverrides : list GroupOverride.t
}.

(** [taxConfigSchema.statics.getDefaultConfig]. *)
Definition getDefaultConfig (now : Z) : t :=
  mk 1 now None true
     500 2 50
     5 30 1.5 3
     [StreakThreshold.mk 3 1.2; StreakThreshold.mk 7 1.5;
      StreakThreshold.mk 14 1.8; StreakThreshold.mk 30 2.0]
     2.5
     30 100 500 20 0.7
     [Milestone.mk 1000 100; Milestone.mk 5000 250;
      Milestone.mk 10000 500; Milestone.mk 25000 1000]
     1.3 (NightOwl.mk 22 6 1.2)
     true true true true true true false
     10 false true
     [].
End TaxConfig.

(** ** services/TaxPointsService.ts *)

(** What the engine reads of the Telegraf context: [ctx.from.id],
    [ctx.chat.id], and whether [ctx.message] carries a
    [reply_to_message]. *)
Record Context := mkContext {
  from : option Z;
  chat : option Z;
  reply_to_message : bool
}.

Definition getQualityMultiplier (messageText : string) (config : TaxConfig.t)
    : Q :=
  let len := inject_Z (Z.of_nat (String.length messageText)) in
  if Qltb len (TaxConfig.minMessageLength config) then 0
  else if Qgeb len (TaxConfig.qualityMessageLength config)
       then TaxConfig.qualityMultiplier config
       else 1.

(** The loop of [getStreakMultiplier]: walk the table while the streak
    reaches the threshold, keep the last multiplier seen, stop at the first
    threshold that is not reached. *)
Fixpoint streakLoop (streak : Q) (table : list StreakThreshold.t)
    (multiplier : Q) : Q :=
  match table with
  | [] => multiplier
  | threshold :: rest =>
      if Qgeb streak (StreakThreshold.days threshold)
      then streakLoop streak rest (StreakThreshold.multiplier threshold)
      else multiplier
  end.

Definition getStreakMultiplier (streak : Z) (config : TaxConfig.t) : Q :=
  Qmin (streakLoop (inject_Z streak) (TaxConfig.streakMultipliers config) 1)
       (TaxConfig.maxStreakMultiplier config).

Definition isWeekend (tz now : Z) : bool :=
  (getDay tz now =? 0) || (getDay tz now =? 6).

Definition inNightOwlWindow (hour : Z) (nightOwl : NightOwl.t) : bool :=
  Qgeb (inject_Z hour) (NightOwl.startHour nightOwl)
  || Qle_bool (inject_Z hour) (NightOwl.endHour nightOwl).

Definition getTimeMultiplier (tz now : Z) (config : TaxConfig.t) : Q :=
  let hour := getHours tz now in
  let multiplier := 1%Q in
  let multiplier :=
    if isWeekend tz now
    then (multiplier * TaxConfig.weekendMultiplier config)%Q
    else multiplier in
  let nightOwl := TaxConfig.nightOwlBonus config in
  if inNightOwlWindow hour nightOwl
  then (multiplier * NightOwl.bonus nightOwl)%Q
  else multiplier.

Definition canAwardPoints (now : Z) (user : User.t) (config : TaxConfig.t)
    : bool :=
  match User.lastPointAward user with
  | None => true
  | Some last =>
      let cooldownMs := (TaxConfig.cooldownSeconds config * 1000)%Q in
      let timeSinceLastAward := inject_Z (now - last) in
      Qgeb timeSinceLastAward cooldownMs
  end.

(** [canAwardDailyPoints] answers and may reset the entry it was handed (the
    entry is the one stored in the in-memory user, so the caller puts the
    returned entry back in its place). *)
Definition canAwardDailyPoints (tz now : Z) (groupActivity : GroupActivity.t)
    (config : TaxConfig.t) : bool * GroupActivity.t :=
  let todayStart := startOfDay tz now in
  let stale :=
    match GroupActivity.lastDailyReset groupActivity with
    | None => true
    | Some reset => reset <? todayStart
    end in
  if stale then
    (true,
     GroupActivity.set_lastDailyReset (Some now)
       (GroupActivity.set_dailyPoints 0%Q groupActivity))
  else
    (Qltb (GroupActivity.dailyPoints groupActivity)
          (TaxConfig.maxPointsPerDay config),
     groupActivity).

Definition isFirstMessageToday (tz now : Z) (user : User.t) (groupId : Z)
    : bool :=
  match findActivity groupId (User.groupActivity user) with
  | Some (_, g) =>
      match GroupActivity.lastMessageDate g with
      | Some last => last <? startOfDay tz now
      | None => true
      end
  | None => true
  end.

Definition getHourlyMessageCount (now : Z) (user : User.t) (groupId : Z)
    : Z :=
  match findActivity groupId (User.groupActivity user) with
  | Some (_, g) =>
      match GroupActivity.lastMessageDate g with
      | Some last =>
          let oneHourAgo := now - 60 * 60 * 1000 in
          if oneHourAgo <? last
          then Z.min (GroupActivity.messagesCount g) 50
          else 0
      | None => 0
      end
  | None => 0
  end.

Fixpoint checkMilestoneLoop (oldPoints newPoints : Q)
    (table : list Milestone.t) : Q :=
  match table with
  | [] => 0
  | milestone :: rest =>
      if Qltb oldPoints (Milestone.points milestone)
         && Qgeb newPoints (Milestone.points milestone)
      then Milestone.bonus milestone
      else checkMilestoneLoop oldPoints newPoints rest
  end.

Definition checkMilestone (oldPoints newPoints : Q) (config : TaxConfig.t)
    : Q :=
  checkMilestoneLoop oldPoints newPoints (TaxConfig.milestoneRewards config).

(** The user collection, and the write-back of a loaded document. *)
Abbreviation Users := (gmap Z User.t).

Definition save (userId : Z) (user : User.t) (db : Users) : Users :=
  <[userId := user]> db.

(** [calculateMessagePoints] returns the points together with the in-memory
    user and the collection, both of which [updateStreak] (and its [save])
    may have changed. *)
Definition calculateMessagePoints (tz now : Z) (userId : Z) (user : User.t)
    (messageText : string) (ctx : Context) (chatId : Z)
    (config : TaxConfig.t) (db : Users) : Z * User.t * Users :=
  let points := TaxConfig.baseMessagePoints config in
  let points :=
    if TaxConfig.enableQualityMultiplier config
    then (points * getQualityMultiplier messageText config)%Q
    else points in
  let points :=
    if reply_to_message ctx
    then (points + TaxConfig.replyBonus config)%Q
    else points in
  let isFirst := isFirstMessageToday tz now user chatId in
  let '(points, user, db) :=
    if isFirst && TaxConfig.enableDailyBonus config
    then
      let user := updateStreak (fixedZone tz) now user in
      ((points + TaxConfig.dailyFirstMessageBonus config)%Q, user,
       save userId user db)
    else (points, user, db) in
  let points :=
    if TaxConfig.enableStreakMultiplier config
    then (points * getStreakMultiplier (User.dailyStreak user) config)%Q
    else points in
  let points :=
    if TaxConfig.enableTimeMultiplier config
    then (points * getTimeMultiplier tz now config)%Q
    else points in
  let hourlyMessages := getHourlyMessageCount now user chatId in
  let points :=
    if Qgtb (inject_Z hourlyMessages)
            (TaxConfig.diminishingReturnsThreshold config)
    then (points * TaxConfig.diminishingReturnsFactor config)%Q
    else points in
  (Z.max 1 (Math_round points), user, db).

(** [processMessagePoints]: the points returned to the caller and the
    collection afterwards.  [config] is what
    [configService.getConfig(ctx.chat.id)] resolved to. *)
Definition processMessagePoints (tz now : Z) (config : TaxConfig.t)
    (ctx : Context) (messageText : string) (db : Users) : Z * Users :=
  match from ctx, chat ctx with
  | Some userId, Some chatId =>
      match db !! userId with
      | None => (0, db)
      | Some user =>
          if negb (User.isVerified user) then (0, db)
          else if negb (canAwardPoints now user config) then (0, db)
          else
            let '(allowed, user) :=
              match findActivity chatId (User.groupActivity user) with
              | Some (i, g) =>
                  let '(ok, g) := canAwardDailyPoints tz now g config in
                  (ok, User.set_groupActivity
                         (<[i := g]> (User.groupActivity user)) user)
              | None => (true, user)
              end in
            if negb allowed then (0, db)
            else
              let '(points, user, db) :=
                calculateMessagePoints tz now userId user messageText ctx
                  chatId config db in
              if points <=? 0 then (0, db)
              else
                let user := awardPoints now (inject_Z points) (Some chatId)
                              user in
                let db := save userId user db in
                let user := incrementMessages now (Some chatId) user in
                let db := save userId user db in
                if TaxConfig.enableMilestoneRewards config then
                  let milestoneBonus :=
                    checkMilestone
                      (User.taxPoints user - inject_Z points)%Q
                      (User.taxPoints user) config in
                  if Qgtb milestoneBonus 0 then
                    let user := awardPoints now milestoneBonus None user in
                    (points, save userId user db)
                  else (points, db)
                else (points, db)
      end
  | _, _ => (0, db)
  end.

(** The daily-limit step of [processMessagePoints] on its own: the entry
    handed to [canAwardDailyPoints], put back in its slot. *)
Definition dailyCheck (tz now : Z) (config : TaxConfig.t) (chatId : Z)
    (user : User.t) : bool * User.t :=
  match findActivity chatId (User.groupActivity user) with
  | Some (i, g) =>
      let '(ok, g) := canAwardDailyPoints tz now g config in
      (ok, User.set_groupActivity (<[i := g]> (User.groupActivity user)) user)
  | None => (true, user)
  end.

(** The milestone step of [processMessagePoints] on its own, applied to the
    user as the award of [points] left it. *)
Definition milestoneTopUp (now : Z) (config : TaxConfig.t) (points : Z)
    (user : User.t) : User.t :=
  if TaxConfig.enableMilestoneRewards config then
    let milestoneBonus :=
      checkMilestone (User.taxPoints user - inject_Z points)%Q
        (User.taxPoints user) config in
    if Qgtb milestoneBonus 0
    then awardPoints now milestoneBonus None user
    else user
  else user.

(** [awardWelcomeBonus]. *)
Definition awardWelcomeBonus (now : Z) (config : TaxConfig.t) (userId : Z)
    (db : Users) : Q * Users :=
  match db !! userId with
  | None => (0%Q, db)
  | Some user =>
      if negb (TaxConfig.enableWelcomeBonus config) then (0%Q, db)
      else
        let points := TaxConfig.welcomeBonus config in
        (points, save userId (awardPoints now points None user) db)
  end.

(** ** services/TaxConfigService.ts *)

(** The outcome of an operation that may [throw]. *)
Inductive result (A : Type) : Type :=
  | Ok (value : A)
  | Err (message : string).
Arguments Ok {A} value.
Arguments Err {A} message.

(** [Partial<ITaxConfig>]: the fields of an update, each optional. *)
Module ConfigUpdates.
Record t := mk {
  version : option Z;
  lastUpdated : option Z;
  updatedBy : option Z;
  isActive : option bool;
  welcomeBonus : option Q;
  baseMessagePoints : option Q;
  dailyFirstMessageBonus : option Q;
  minMessageLength : option Q;
  qualityMessageLength : option Q;
  qualityMultiplier : option Q;
  replyBonus : option Q;
  streakMultipliers : option (list StreakThreshold.t);
  maxStreakMultiplier : option Q;
  cooldownSeconds : option Q;
  maxPointsPerHour : option Q;
  maxPointsPerDay : option Q;
  diminishingReturnsThreshold : option Q;
  diminishingReturnsFactor : option Q;
  milestoneRewards : option (list Milestone.t);
  weekendMultiplier : option Q;
  nightOwlBonus : option NightOwl.t;
  enableWelcomeBonus : option bool;
  enableDailyBonus : option bool;
  enableStreakMultiplier : option bool;
  enableQualityMultiplier : option bool;
  enableTimeMultiplier : option bool;
  enableMilestoneRewards : option bool;
  enablePointNotifications : option bool;
  notificationThreshold : option Q;
  enableRankNotifications : option bool;
  enableStreakNotifications : option bool;
  groupOverrides : option (list GroupOverride.t)
}.

Definition empty : t :=
  mk None None None None None None None None None None None None None None
     None None None None None None None None None None None None None None
     None None None None.
End ConfigUpdates.

(** A numeric field is kept when it lies within its bounds, dropped
    otherwise. *)
Definition numericField (min max : Q) (value : option Q) : option Q :=
  match value with
  | Some v => if Qgeb v min && Qle_bool v max then Some v else None
  | None => None
  end.

(** [Array.prototype.sort] with the comparator [(a, b) => key a - key b]:
    a stable sort by increasing key (an element is put before the elements
    that followed it and have the same key). *)
Fixpoint insertByKey {A : Type} (key : A -> Q) (x : A) (l : list A) : list A :=
  match l with
  | [] => [x]
  | y :: rest =>
      if Qle_bool (key x) (key y) then x :: y :: rest
      else y :: insertByKey key x rest
  end.

Definition sortByKey {A : Type} (key : A -> Q) (l : list A) : list A :=
  foldr (insertByKey key) [] l.

Definition validNightOwl (b : NightOwl.t) : bool :=
  Qgeb (NightOwl.startHour b) 0 && Qle_bool (NightOwl.startHour b) 23
  && Qgeb (NightOwl.endHour b) 0 && Qle_bool (NightOwl.endHour b) 23
  && Qgeb (NightOwl.bonus b) 1 && Qle_bool (NightOwl.bonus b) 5.

Definition validStreakThreshold (sm : StreakThreshold.t) : bool :=
  Qgeb (StreakThreshold.days sm) 1
  && Qgeb (StreakThreshold.multiplier sm) 1
  && Qle_bool (StreakThreshold.multiplier sm) 10.

Definition validMilestone (mr : Milestone.t) : bool :=
  Qgeb (Milestone.points mr) 1 && Qgeb (Milestone.bonus mr) 1.

Definition validateConfigUpdates (updates : ConfigUpdates.t)
    : ConfigUpdates.t :=
  ConfigUpdates.mk
    None None None None
    (numericField 0 10000 (ConfigUpdates.welcomeBonus updates))
    (numericField 0 100 (ConfigUpdates.baseMessagePoints updates))
    (numericField 0 1000 (ConfigUpdates.dailyFirstMessageBonus updates))
    (numericField 1 100 (ConfigUpdates.minMessageLength updates))
    (numericField 1 500 (ConfigUpdates.qualityMessageLength updates))
    (numericField 1 5 (ConfigUpdates.qualityMultiplier updates))
    (numericField 0 50 (ConfigUpdates.replyBonus updates))
    (match ConfigUpdates.streakMultipliers updates with
     | Some table =>
         if forallb validStreakThreshold table
         then Some (sortByKey StreakThreshold.days table)
         else None
     | None => None
     end)
    (numericField 1 10 (ConfigUpdates.maxStreakMultiplier updates))
    (numericField 0 3600 (ConfigUpdates.cooldownSeconds updates))
    (numericField 1 10000 (ConfigUpdates.maxPointsPerHour updates))
    (numericField 1 50000 (ConfigUpdates.maxPointsPerDay updates))
    (numericField 1 1000 (ConfigUpdates.diminishingReturnsThreshold updates))
    (numericField 0.1 1 (ConfigUpdates.diminishingReturnsFactor updates))
    (match ConfigUpdates.milestoneRewards updates with
     | Some table =>
         if forallb validMilestone table
         then Some (sortByKey Milestone.points table)
         else None
     | None => None
     end)
    (numericField 1 5 (ConfigUpdates.weekendMultiplier updates))
    (match ConfigUpdates.nightOwlBonus updates with
     | Some b => if validNightOwl b then Some b else None
     | None => None
     end)
    (ConfigUpdates.enableWelcomeBonus updates)
    (ConfigUpdates.enableDailyBonus updates)
    (ConfigUpdates.enableStreakMultiplier updates)
    (ConfigUpdates.enableQualityMultiplier updates)
    (ConfigUpdates.enableTimeMultiplier updates)
    (ConfigUpdates.enableMilestoneRewards updates)
    (ConfigUpdates.enablePointNotifications updates)
    (numericField 0 1000 (ConfigUpdates.notificationThreshold updates))
    (ConfigUpdates.enableRankNotifications updates)
    (ConfigUpdates.enableStreakNotifications updates)
    (ConfigUpdates.groupOverrides updates).

(** The object spread [{...current, ...updates}]: a field of the update
    wins where it is present. *)
Definition spread (current : TaxConfig.t) (updates : ConfigUpdates.t)
    : TaxConfig.t :=
  TaxConfig.mk
    (default (TaxConfig.version current) (ConfigUpdates.version updates))
    (default (TaxConfig.lastUpdated current) (ConfigUpdates.lastUpdated updates))
    (match ConfigUpdates.updatedBy updates with
     | Some a => Some a
     | None => TaxConfig.updatedBy current
     end)
    (default (TaxConfig.isActive current) (ConfigUpdates.isActive updates))
    (default (TaxConfig.welcomeBonus current)
       (ConfigUpdates.welcomeBonus updates))
    (default (TaxConfig.baseMessagePoints current)
       (ConfigUpdates.baseMessagePoints updates))
    (default (TaxConfig.dailyFirstMessageBonus current)
       (ConfigUpdates.dailyFirstMessageBonus updates))
    (default (TaxConfig.minMessageLength current)
       (ConfigUpdates.minMessageLength updates))
    (default (TaxConfig.qualityMessageLength current)
       (ConfigUpdates.qualityMessageLength updates))
    (default (TaxConfig.qualityMultiplier current)
       (ConfigUpdates.qualityMultiplier updates))
    (default (TaxConfig.replyBonus current) (ConfigUpdates.replyBonus updates))
    (default (TaxConfig.streakMultipliers current)
       (ConfigUpdates.streakMultipliers updates))
    (default (TaxConfig.maxStreakMultiplier current)
       (ConfigUpdates.maxStreakMultiplier updates))
    (default (TaxConfig.cooldownSeconds current)
       (ConfigUpdates.cooldownSeconds updates))
    (default (TaxConfig.maxPointsPerHour current)
       (ConfigUpdates.maxPointsPerHour updates))
    (default (TaxConfig.maxPointsPerDay current)
       (ConfigUpdates.maxPointsPerDay updates))
    (default (TaxConfig.diminishingReturnsThreshold current)
       (ConfigUpdates.diminishingReturnsThreshold updates))
    (default (TaxConfig.diminishingReturnsFactor current)
       (ConfigUpdates.diminishingReturnsFactor updates))
    (default (TaxConfig.milestoneRewards current)
       (ConfigUpdates.milestoneRewards updates))
    (default (TaxConfig.weekendMultiplier current)
       (ConfigUpdates.weekendMultiplier updates))
    (default (TaxConfig.nightOwlBonus current)
       (ConfigUpdates.nightOwlBonus updates))
    (default (TaxConfig.enableWelcomeBonus current)
       (ConfigUpdates.enableWelcomeBonus updates))
    (default (TaxConfig.enableDailyBonus current)
       (ConfigUpdates.enableDailyBonus updates))
    (default (TaxConfig.enableStreakMultiplier current)
       (ConfigUpdates.enableStreakMultiplier updates))
    (default (TaxConfig.enableQualityMultiplier current)
       (ConfigUpdates.enableQualityMultiplier updates))
    (default (TaxConfig.enableTimeMultiplier current)
       (ConfigUpdates.enableTimeMultiplier updates))
    (default (TaxConfig.enableMilestoneRewards current)
       (ConfigUpdates.enableMilestoneRewards updates))
    (default (TaxConfig.enablePointNotifications current)
       (ConfigUpdates.enablePointNotifications updates))
    (default (TaxConfig.notificationThreshold current)
       (ConfigUpdates.notificationThreshold updates))
    (default (TaxConfig.enableRankNotifications current)
       (ConfigUpdates.enableRankNotifications updates))
    (default (TaxConfig.enableStreakNotifications current)
       (ConfigUpdates.enableStreakNotifications updates))
    (default (TaxConfig.groupOverrides current)
       (ConfigUpdates.groupOverrides updates)).

(** The fields that [updateConfig] and [revertToVersion] write after the
    spread: [version], [lastUpdated] and [updatedBy]. *)
Definition stamp (version now : Z) (updatedBy : option Z) (c : TaxConfig.t)
    : TaxConfig.t :=
  TaxConfig.mk version now updatedBy (TaxConfig.isActive c)
    (TaxConfig.welcomeBonus c) (TaxConfig.baseMessagePoints c)
    (TaxConfig.dailyFirstMessageBonus c) (TaxConfig.minMessageLength c)
    (TaxConfig.qualityMessageLength c) (TaxConfig.qualityMultiplier c)
    (TaxConfig.replyBonus c) (TaxConfig.streakMultipliers c)
    (TaxConfig.maxStreakMultiplier c) (TaxConfig.cooldownSeconds c)
    (TaxConfig.maxPointsPerHour c) (TaxConfig.maxPointsPerDay c)
    (TaxConfig.diminishingReturnsThreshold c)
    (TaxConfig.diminishingReturnsFactor c) (TaxConfig.milestoneRewards c)
    (TaxConfig.weekendMultiplier c) (TaxConfig.nightOwlBonus c)
    (TaxConfig.enableWelcomeBonus c) (TaxConfig.enableDailyBonus c)
    (TaxConfig.enableStreakMultiplier c) (TaxConfig.enableQualityMultiplier c)
    (TaxConfig.enableTimeMultiplier c) (TaxConfig.enableMilestoneRewards c)
    (TaxConfig.enablePointNotifications c) (TaxConfig.notificationThreshold c)
    (TaxConfig.enableRankNotifications c)
    (TaxConfig.enableStreakNotifications c) (TaxConfig.groupOverrides c).

(** A document with its [isActive] flag written. *)
Definition set_isActive (v : bool) (c : TaxConfig.t) : TaxConfig.t :=
  TaxConfig.mk (TaxConfig.version c) (TaxConfig.lastUpdated c)
    (TaxConfig.updatedBy c) v
    (TaxConfig.welcomeBonus c) (TaxConfig.baseMessagePoints c)
    (TaxConfig.dailyFirstMessageBonus c) (TaxConfig.minMessageLength c)
    (TaxConfig.qualityMessageLength c) (TaxConfig.qualityMultiplier c)
    (TaxConfig.replyBonus c) (TaxConfig.streakMultipliers c)
    (TaxConfig.maxStreakMultiplier c) (TaxConfig.cooldownSeconds c)
    (TaxConfig.maxPointsPerHour c) (TaxConfig.maxPointsPerDay c)
    (TaxConfig.diminishingReturnsThreshold c)
    (TaxConfig.diminishingReturnsFactor c) (TaxConfig.milestoneRewards c)
    (TaxConfig.weekendMultiplier c) (TaxConfig.nightOwlBonus c)
    (TaxConfig.enableWelcomeBonus c) (TaxConfig.enableDailyBonus c)
    (TaxConfig.enableStreakMultiplier c) (TaxConfig.enableQualityMultiplier c)
    (TaxConfig.enableTimeMultiplier c) (TaxConfig.enableMilestoneRewards c)
    (TaxConfig.enablePointNotifications c) (TaxConfig.notificationThreshold c)
    (TaxConfig.enableRankNotifications c)
    (TaxConfig.enableStreakNotifications c) (TaxConfig.groupOverrides c).

(** The update [{ isActive: false }] applied to one document. *)
Definition deactivate (c : TaxConfig.t) : TaxConfig.t := set_isActive false c.

(** The collection of configuration documents.  A document is identified
    by its slot in the list (its [_id]); [create] appends a slot. *)
Abbreviation Configs := (list TaxConfig.t).

(** [TaxConfig.findOne({ isActive: true }).sort({ version: -1 })]: an
    active document of greatest version (the earliest stored among equals). *)
Fixpoint findActiveLatest (store : Configs) : option TaxConfig.t :=
  match store with
  | [] => None
  | c :: rest =>
      if TaxConfig.isActive c then
        match findActiveLatest rest with
        | Some d =>
            if TaxConfig.version c <? TaxConfig.version d
            then Some d else Some c
        | None => Some c
        end
      else findActiveLatest rest
  end.

(** [TaxConfig.updateMany({ _id: { $ne: keep } }, { isActive: false })]. *)
Definition deactivateOthers (keep : nat) (store : Configs) : Configs :=
  imap (λ i c, if decide (i = keep) then c else deactivate c) store.

Definition updateConfig (now : Z) (updates : ConfigUpdates.t)
    (updatedBy : option Z) (store : Configs)
    : result (TaxConfig.t * Configs) :=
  let validatedUpdates := validateConfigUpdates updates in
  match findActiveLatest store with
  | None => Err "No active configuration found"
  | Some currentConfig =>
      let newVersion := TaxConfig.version currentConfig + 1 in
      let newConfig :=
        stamp newVersion now updatedBy
          (spread currentConfig validatedUpdates) in
      let newId := length store in
      let store := store ++ [newConfig] in
      let store := deactivateOthers newId store in
      Ok (newConfig, store)
  end.

(** [Math.max(...versions)] of a non-empty list. *)
Definition maxVersion (first : Z) (others : list Z) : Z :=
  foldl Z.max first others.

Definition revertToVersion (now : Z) (version : Z) (updatedBy : option Z)
    (store : Configs) : result (TaxConfig.t * Configs) :=
  match List.find (λ c, TaxConfig.version c =? version) store with
  | None => Err "Configuration version not found"
  | Some targetConfig =>
      let newVersion :=
        match TaxConfig.version <$> store with
        | v :: vs => maxVersion v vs + 1
        | [] => 1
        end in
      let revertedConfig :=
        set_isActive true (stamp newVersion now updatedBy targetConfig) in
      let newId := length store in
      let store := store ++ [revertedConfig] in
      let store := deactivateOthers newId store in
      Ok (revertedConfig, store)
  end.

(** ** models/VerificationSession.ts and services/VerificationService.ts *)

Module Session.
Record t := mk {
  userId : Z;
  groupId : Z;
  verificationCode : string;
  isCompleted : bool;
  expiresAt : Z;
  messageId : option Z
}.

Definition set_isCompleted (v : bool) (s : t) : t :=
  mk (userId s) (groupId s) (verificationCode s) v (expiresAt s)
     (messageId s).
End Session.

(** What [processVerification] answers to the responder. *)
Inductive Reply : Type :=
  | InvalidLink
  | NotForYou
  | InvalidOrExpired
  | VerificationComplete (welcomePoints : Q)
  | VerificationFailed.

(** [String.prototype.split] with a one-character separator. *)
Fixpoint split (sep : ascii) (s : string) : list string :=
  match s with
  | EmptyString => [EmptyString]
  | String c rest =>
      if Ascii.eqb c sep then EmptyString :: split sep rest
      else
        match split sep rest with
        | part :: parts => String c part :: parts
        | [] => [String c EmptyString]
        end
  end.

(** The session collection (a document is its slot) and the users. *)
Record Store := mkStore {
  sessions : list Session.t;
  users : Users
}.

(** The filter of [VerificationSession.findOne] in [processVerification]. *)
Definition pendingFor (userId groupId : Z) (code : string) (s : Session.t)
    : Prop :=
  Session.userId s = userId /\ Session.groupId s = groupId
  /\ Session.verificationCode s = code /\ Session.isCompleted s = false.

#[global] Instance pendingFor_dec userId groupId code s :
  Decision (pendingFor userId groupId code s).
Proof. unfold pendingFor. apply _. Defined.

Definition findSession (userId groupId : Z) (code : string)
    (l : list Session.t) : option (nat * Session.t) :=
  list_find (pendingFor userId groupId code) l.

(** The member of a join event. *)
Record Member := mkMember {
  id : Z;
  member_username : option string;
  first_name : string;
  last_name : option string
}.

Definition VERIFICATION_TIMEOUT : Z := 5 * 60 * 1000.

(** [$addToSet]. *)
Definition addToSet (x : Z) (l : list Z) : list Z :=
  if bool_decide (x ∈ l) then l else l ++ [x].

(** The upsert of [handleNewUser]: the profile is written and the group
    added; a missing document is created from the schema defaults. *)
Definition upsertUser (now : Z) (member : Member) (chatId : Z) (db : Users)
    : Users :=
  match db !! id member with
  | Some u =>
      <[id member :=
          User.set_profile (member_username member) (first_name member)
            (last_name member) (addToSet chatId (User.groups u)) u]> db
  | None =>
      <[id member :=
          User.create now (member_username member) (first_name member)
            (last_name member) chatId]> db
  end.

(** The filter of [VerificationSession.findOne] in
    [handleVerificationTimeout]. *)
Definition pendingOf (userId groupId : Z) (s : Session.t) : Prop :=
  Session.userId s = userId /\ Session.groupId s = groupId
  /\ Session.isCompleted s = false.

#[global] Instance pendingOf_dec userId groupId s :
  Decision (pendingOf userId groupId s).
Proof. unfold pendingOf. apply _. Defined.

(** [handleVerificationTimeout], fired once per join after the timeout: a
    session of the member still pending is marked completed (the member is
    removed from the group first; when that call throws, nothing is
    written). *)
Definition handleVerificationTimeout (telegramOk : bool)
    (groupId userId : Z) (st : Store) : Store :=
  match list_find (pendingOf userId groupId) (sessions st) with
  | Some (i, session) =>
      if negb telegramOk then st
      else
        mkStore (<[i := Session.set_isCompleted true session]> (sessions st))
                (users st)
  | None => st
  end.

Section Verification.
(** The runtime's [Buffer.from(s, 'base64').toString('utf8')], [parseInt]
    ([None] is [NaN]) and the formatting of a number in a template
    literal. *)
Variable base64Decode : string -> string.
Variable parseInt : string -> option Z.
Variable numberToString : Z -> string.

(** The token of a join: [`${member.id}_${ctx.chat.id}_${Date.now()}`]. *)
Definition verificationToken (memberId chatId now : Z) : string :=
  (numberToString memberId ++ "_" ++ numberToString chatId ++ "_"
   ++ numberToString now)%string.

(** [handleNewUser] on the stores: the user is upserted, then (when
    restricting the member and sending the prompt went through) the pending
    session is created; [promptId] is the id of the prompt sent. *)
Definition handleNewUser (now : Z) (telegramOk : bool) (chat : option Z)
    (member : Member) (promptId : Z) (st : Store) : Store :=
  match chat with
  | None => st
  | Some chatId =>
      let users := upsertUser now member chatId (users st) in
      if negb telegramOk then mkStore (sessions st) users
      else
        let expiresAt := now + VERIFICATION_TIMEOUT in
        mkStore
          (sessions st ++
             [Session.mk (id member) chatId
                (verificationToken (id member) chatId now) false expiresAt
                (Some promptId)])
          users
  end.

(** [processVerification] for a responder [ctx.from?.id = responder].
    [telegramOk] tells whether [restrictChatMember] went through: when it
    throws, the handler answers that verification failed, after the
    session was saved. *)
Definition processVerification (now : Z) (config : TaxConfig.t)
    (telegramOk : bool) (responder : option Z) (encodedToken : string)
    (st : Store) : Reply * Store :=
  if String.eqb encodedToken "" then (InvalidLink, st)
  else
    let decodedToken := base64Decode encodedToken in
    let parts := split "_" decodedToken in
    if (length parts <? 3)%nat then (InvalidLink, st)
    else
      match parseInt (nth 0 parts ""%string),
            parseInt (nth 1 parts ""%string) with
      | Some userId, Some groupId =>
          if negb (bool_decide (responder = Some userId))
          then (NotForYou, st)
          else
            match findSession userId groupId decodedToken (sessions st) with
            | None => (InvalidOrExpired, st)
            | Some (i, session) =>
                if Session.expiresAt session <? now
                then (InvalidOrExpired, st)
                else
                  let session := Session.set_isCompleted true session in
                  let sessions := <[i := session]> (sessions st) in
                  if negb telegramOk
                  then (VerificationFailed, mkStore sessions (users st))
                  else
                    let users :=
                      match users st !! userId with
                      | Some u =>
                          <[userId :=
                              User.set_verificationDate (Some now)
                                (User.set_isVerified true u)]> (users st)
                      | None => users st
                      end in
                    let '(welcomePoints, users) :=
                      awardWelcomeBonus now config userId users in
                    (VerificationComplete welcomePoints,
                     mkStore sessions users)
            end
      | _, _ => (NotForYou, st)
      end.
End Verification.

(** A run of message events, each with its instant and the configuration
    resolved for it: the points returned by each call, and the collection
    at the end. *)
Record Call := mkCall {
  call_now : Z;
  call_config : TaxConfig.t;
  call_ctx : Context;
  call_text : string
}.

Fixpoint processMessages (tz : Z) (calls : list Call) (db : Users)
    : list Z * Users :=
  match calls with
  | [] => ([], db)
  | c :: rest =>
      let r := processMessagePoints tz (call_now c) (call_config c)
                 (call_ctx c) (call_text c) db in
      let rs := processMessages tz rest r.2 in
      (r.1 :: rs.1, rs.2)
  end.

(** ** Vocabulary of the statements *)

(** [touched tz now config u v]: the document [v] is [u] after some of the
    writes that one call at instant [now] can perform on a loaded user. *)
Inductive touched (tz now : Z) (config : TaxConfig.t)
    : User.t -> User.t -> Prop :=
  | touched_refl u : touched tz now config u u
  | touched_award u v points groupId :
      touched tz now config u v ->
      touched tz now config u (awardPoints now points groupId v)
  | touched_messages u v groupId :
      touched tz now config u v ->
      touched tz now config u (incrementMessages now groupId v)
  | touched_streak u v :
      touched tz now config u v ->
      touched tz now config u (updateStreak (fixedZone tz) now v)
  | touched_daily u v i g :
      touched tz now config u v ->
      User.groupActivity v !! i = Some g ->
      touched tz now config u
        (User.set_groupActivity
           (<[i := (canAwardDailyPoints tz now g config).2]>
              (User.groupActivity v)) v).

(** Every entry of [l'] has the [dailyPoints] of the entry of [l] in the
    same slot, or 0. *)
Definition dailyPoints_not_raised (l l' : list GroupActivity.t) : Prop :=
  forall i g', l' !! i = Some g' ->
    GroupActivity.dailyPoints g' = 0%Q
    \/ exists g, l !! i = Some g
         /\ GroupActivity.dailyPoints g' = GroupActivity.dailyPoints g.

(** The entries of [l] keep their slot and their [dailyPoints] in [l'], and
    an entry of [l'] in a new slot has [dailyPoints = 0]. *)
Definition dailyPoints_kept (l l' : list GroupActivity.t) : Prop :=
  (forall i g, l !! i = Some g ->
     exists g', l' !! i = Some g'
       /\ GroupActivity.dailyPoints g' = GroupActivity.dailyPoints g)
  /\ (forall i g', l' !! i = Some g' -> l !! i = None ->
        GroupActivity.dailyPoints g' = 0%Q).

(** An entry whose reset date is missing or before today's midnight. *)
Definition staleEntry (tz now : Z) (g : GroupActivity.t) : Prop :=
  GroupActivity.lastDailyReset g = None
  \/ exists reset, GroupActivity.lastDailyReset g = Some reset
                   /\ reset < startOfDay tz now.

(** A table in increasing order of a key. *)
Definition sortedBy {A : Type} (key : A -> Q) (l : list A) : Prop :=
  forall a b xa xb, l !! a = Some xa -> l !! b = Some xb -> (a <= b)%nat ->
    (key xa <= key xb)%Q.

(** A threshold that an award from [old] to [new] crosses, and the first
    such threshold of a table, with its position. *)
Definition straddles (old new : Q) (m : Milestone.t) : Prop :=
  (old < Milestone.points m)%Q /\ (Milestone.points m <= new)%Q.

Definition firstStraddled (old new : Q) (table : list Milestone.t)
    (k : nat) (m : Milestone.t) : Prop :=
  table !! k = Some m /\ straddles old new m
  /\ forall j m', table !! j = Some m' -> (j < k)%nat -> ~ straddles old new m'.

(** No two stored sessions that are still pending carry the same user,
    group and code: a token names at most one pending session. *)
Definition pendingUnique (l : list Session.t) : Prop :=
  forall i j s s',
    l !! i = Some s -> l !! j = Some s' ->
    Session.isCompleted s = false -> Session.isCompleted s' = false ->
    Session.userId s = Session.userId s' ->
    Session.groupId s = Session.groupId s' ->
    Session.verificationCode s = Session.verificationCode s' ->
    i = j.

(** The stored versions whose [isActive] flag is set. *)
Definition activeVersions (store : Configs) : list TaxConfig.t :=
  filter (λ c, TaxConfig.isActive c = true) store.

(** C2 as the specification words it, at one call: whenever the call awards
    points and the sender's balance crosses a threshold, the balance ends
    topped up by the bonus of the first crossed threshold. *)
Definition milestone_bonus_always (tz now : Z) (config : TaxConfig.t)
    (ctx : Context) (text : string) (db : Users) : Prop :=
  forall uid u k m,
    from ctx = Some uid -> db !! uid = Some u ->
    (processMessagePoints tz now config ctx text db).1 <> 0 ->
    firstStraddled (User.taxPoints u)
      (User.taxPoints u
       + inject_Z (processMessagePoints tz now config ctx text db).1)%Q
      (TaxConfig.milestoneRewards config) k m ->
    exists v,
      (processMessagePoints tz now config ctx text db).2 !! uid = Some v
      /\ (User.taxPoints v ==
          User.taxPoints u
          + inject_Z (processMessagePoints tz now config ctx text db).1
          + Milestone.bonus m)%Q.

(** ** Concrete data for the examples *)

Module Example.
(** Wednesday 7 January 1970, 12:00 UTC. *)
Definition noon : Z := 561600000.

Definition config : TaxConfig.t := TaxConfig.getDefaultConfig 0.

(** The update [{ enableMilestoneRewards: false }]. *)
Definition milestonesOff : ConfigUpdates.t :=
  ConfigUpdates.mk None None None None None None None None None None None
    None None None None None None None None None None None None None None
    None (Some false) None None None None None.

(** The configuration after an admin turned milestone rewards off. *)
Definition configNoMilestones : TaxConfig.t :=
  match updateConfig 1000 milestonesOff (Some 1) [config] with
  | Ok (c, _) => c
  | Err _ => config
  end.

(** Group 7, and a verified member 42 with balance [balance] who wrote in
    the group a minute before noon; [daily] and [reset] are the entry's
    daily counter and reset date. *)
Definition member (balance daily : Q) (reset : option Z) : User.t :=
  User.mk (Some "ann"%string) "Ann" None true (Some 1000) 0 [7]
    balance balance (Some (noon - 60000)) 3 1 (Some (noon - 60000))
    (Some (noon - 60000))
    [GroupActivity.mk 7 3 40 (Some (noon - 60000)) daily reset].

Definition users (balance daily : Q) (reset : option Z) : Users :=
  {[ 42 := member balance daily reset ]}.

(** A plain message and a reply of user 42 in group 7. *)
Definition message : Context := mkContext (Some 42) (Some 7) false.

(** A user just verified, with no activity yet. *)
Definition newcomer : User.t :=
  User.set_isVerified true (User.create 0 None "Bob" None 7).

(** Stand-ins for the runtime in the examples: tokens are presented
    already decoded, and a numeral is an optional minus sign followed by
    decimal digits, read up to the first other character. *)
Definition decode (s : string) : string := s.

Definition digit (c : ascii) : option Z :=
  let n := Z.of_nat (nat_of_ascii c) in
  if (48 <=? n) && (n <=? 57) then Some (n - 48) else None.

Fixpoint digits (s : string) (acc : Z) : Z :=
  match s with
  | EmptyString => acc
  | String c rest =>
      match digit c with
      | Some d => digits rest (10 * acc + d)
      | None => acc
      end
  end.

Definition unsigned (s : string) : option Z :=
  match s with
  | EmptyString => None
  | String c _ =>
      match digit c with
      | Some _ => Some (digits s 0)
      | None => None
      end
  end.

Definition parseDecimal (s : string) : option Z :=
  match s with
  | String "-" rest => Z.opp <$> unsigned rest
  | _ => unsigned s
  end.

(** User 42 joined group 7 at instant 1000 and has five minutes to answer
    the challenge. *)
Definition token : string := "42_7_1000".

Definition pending : Store :=
  mkStore [Session.mk 42 7 token false 301000 (Some 5)]
          {[ 42 := User.create 1000 None "Ann" None 7 ]}.
End Example.

(** Closed goals over concrete data. *)
Ltac by_computation :=
  vm_compute; first [reflexivity | discriminate | intros; discriminate | lia].

(** ** Further vocabulary: the points engine *)

(** The three gates of [processMessagePoints] taken together: a known,
    verified sender in a chat, past the cooldown, whose entry for the chat
    (if any) passes the daily check. *)
Definition passesGates (tz now : Z) (config : TaxConfig.t) (ctx : Context)
    (db : Users) : bool :=
  match from ctx, chat ctx with
  | Some userId, Some chatId =>
      match db !! userId with
      | Some user =>
          User.isVerified user && canAwardPoints now user config
          && (dailyCheck tz now config chatId user).1
      | None => false
      end
  | _, _ => false
  end.

(** [user.groupActivity.find(g => g.groupId === groupId)?.pointsEarned || 0]
    (as [getLeaderboard] reads it), and the same for the message count. *)
Definition groupPoints (gid : Z) (u : User.t) : Q :=
  match findActivity gid (User.groupActivity u) with
  | Some (_, g) => GroupActivity.pointsEarned g
  | None => 0
  end.

Definition groupMessages (gid : Z) (u : User.t) : Z :=
  match findActivity gid (User.groupActivity u) with
  | Some (_, g) => GroupActivity.messagesCount g
  | None => 0
  end.

(** The points earned over all the group entries of a user. *)
Definition sumPointsEarned (l : list GroupActivity.t) : Q :=
  foldr (λ g acc, (GroupActivity.pointsEarned g + acc)%Q) 0%Q l.

(** A configuration with another [maxPointsPerHour], and with another
    [diminishingReturnsFactor]. *)
Definition set_maxPointsPerHour (v : Q) (c : TaxConfig.t) : TaxConfig.t :=
  TaxConfig.mk (TaxConfig.version c) (TaxConfig.lastUpdated c)
    (TaxConfig.updatedBy c) (TaxConfig.isActive c)
    (TaxConfig.welcomeBonus c) (TaxConfig.baseMessagePoints c)
    (TaxConfig.dailyFirstMessageBonus c) (TaxConfig.minMessageLength c)
    (TaxConfig.qualityMessageLength c) (TaxConfig.qualityMultiplier c)
    (TaxConfig.replyBonus c) (TaxConfig.streakMultipliers c)
    (TaxConfig.maxStreakMultiplier c) (TaxConfig.cooldownSeconds c)
    v (TaxConfig.maxPointsPerDay c)
    (TaxConfig.diminishingReturnsThreshold c)
    (TaxConfig.diminishingReturnsFactor c) (TaxConfig.milestoneRewards c)
    (TaxConfig.weekendMultiplier c) (TaxConfig.nightOwlBonus c)
    (TaxConfig.enableWelcomeBonus c) (TaxConfig.enableDailyBonus c)
    (TaxConfig.enableStreakMultiplier c) (TaxConfig.enableQualityMultiplier c)
    (TaxConfig.enableTimeMultiplier c) (TaxConfig.enableMilestoneRewards c)
    (TaxConfig.enablePointNotifications c) (TaxConfig.notificationThreshold c)
    (TaxConfig.enableRankNotifications c)
    (TaxConfig.enableStreakNotifications c) (TaxConfig.groupOverrides c).

Definition set_diminishingReturnsFactor (v : Q) (c : TaxConfig.t)
    : TaxConfig.t :=
  TaxConfig.mk (TaxConfig.version c) (TaxConfig.lastUpdated c)
    (TaxConfig.updatedBy c) (TaxConfig.isActive c)
    (TaxConfig.welcomeBonus c) (TaxConfig.baseMessagePoints c)
    (TaxConfig.dailyFirstMessageBonus c) (TaxConfig.minMessageLength c)
    (TaxConfig.qualityMessageLength c) (TaxConfig.qualityMultiplier c)
    (TaxConfig.replyBonus c) (TaxConfig.streakMultipliers c)
    (TaxConfig.maxStreakMultiplier c) (TaxConfig.cooldownSeconds c)
    (TaxConfig.maxPointsPerHour c) (TaxConfig.maxPointsPerDay c)
    (TaxConfig.diminishingReturnsThreshold c)
    v (TaxConfig.milestoneRewards c)
    (TaxConfig.weekendMultiplier c) (TaxConfig.nightOwlBonus c)
    (TaxConfig.enableWelcomeBonus c) (TaxConfig.enableDailyBonus c)
    (TaxConfig.enableStreakMultiplier c) (TaxConfig.enableQualityMultiplier c)
    (TaxConfig.enableTimeMultiplier c) (TaxConfig.enableMilestoneRewards c)
    (TaxConfig.enablePointNotifications c) (TaxConfig.notificationThreshold c)
    (TaxConfig.enableRankNotifications c)
    (TaxConfig.enableStreakNotifications c) (TaxConfig.groupOverrides c).

(** [updateStreak] called at each instant of a list in turn. *)
Definition updateStreaks (zone : Zone) (times : list Z) (u : User.t)
    : User.t :=
  foldl (λ v t, updateStreak zone t v) u times.

(** Instants each of whose local midnights lies at least 24 and less than
    48 hours after the local midnight of the one before (of [start], for
    the first). *)
Fixpoint fullDaysApart (zone : Zone) (start : Z) (times : list Z) : Prop :=
  match times with
  | [] => True
  | t :: rest =>
      msPerDay <= localMidnight zone t - localMidnight zone start
      < 2 * msPerDay
      /\ fullDaysApart zone t rest
  end.

(** Instants on consecutive calendar days of a clock with a fixed offset,
    the first one on the day after [start]. *)
Fixpoint consecutiveDays (tz : Z) (start : Z) (times : list Z) : Prop :=
  match times with
  | [] => True
  | t :: rest =>
      dayNumber tz t = dayNumber tz start + 1 /\ consecutiveDays tz t rest
  end.

(** New York during 2026: five hours behind UTC, four from 8 March 7:00
    UTC (the clock goes from 2:00 to 3:00) to 1 November 6:00 UTC (the
    clock goes from 2:00 back to 1:00).  A reading of the local clock that
    occurs twice or not at all is resolved with the offset in force before
    the change. *)
Definition newYork2026 : Zone :=
  mkZone
    (λ t, if t <? 1772953200000 then -18000000
          else if t <? 1793512800000 then -14400000
          else -18000000)
    (λ reading, if reading <? 1772938800000 then -18000000
                else if reading <? 1793498400000 then -14400000
                else -18000000).

(** Day number of 8 March 2026. *)
Definition march8 : Z := 20520.

(** The [lastMessageDate] of the entry that [find] returns for a group. *)
Definition lastMessage (gid : Z) (u : User.t) : option Z :=
  match findActivity gid (User.groupActivity u) with
  | Some (_, g) => GroupActivity.lastMessageDate g
  | None => None
  end.

(** A configuration with another [enableDailyBonus]. *)
Definition set_enableDailyBonus (v : bool) (c : TaxConfig.t) : TaxConfig.t :=
  TaxConfig.mk (TaxConfig.version c) (TaxConfig.lastUpdated c)
    (TaxConfig.updatedBy c) (TaxConfig.isActive c)
    (TaxConfig.welcomeBonus c) (TaxConfig.baseMessagePoints c)
    (TaxConfig.dailyFirstMessageBonus c) (TaxConfig.minMessageLength c)
    (TaxConfig.qualityMessageLength c) (TaxConfig.qualityMultiplier c)
    (TaxConfig.replyBonus c) (TaxConfig.streakMultipliers c)
    (TaxConfig.maxStreakMultiplier c) (TaxConfig.cooldownSeconds c)
    (TaxConfig.maxPointsPerHour c) (TaxConfig.maxPointsPerDay c)
    (TaxConfig.diminishingReturnsThreshold c)
    (TaxConfig.diminishingReturnsFactor c) (TaxConfig.milestoneRewards c)
    (TaxConfig.weekendMultiplier c) (TaxConfig.nightOwlBonus c)
    (TaxConfig.enableWelcomeBonus c) v
    (TaxConfig.enableStreakMultiplier c) (TaxConfig.enableQualityMultiplier c)
    (TaxConfig.enableTimeMultiplier c) (TaxConfig.enableMilestoneRewards c)
    (TaxConfig.enablePointNotifications c) (TaxConfig.notificationThreshold c)
    (TaxConfig.enableRankNotifications c)
    (TaxConfig.enableStreakNotifications c) (TaxConfig.groupOverrides c).

(** ** Further vocabulary: the join challenge *)

(** Whether the timer of a join removes the member:
    [handleVerificationTimeout] calls [banChatMember] exactly when it finds
    a pending session of the member for the group. *)
Definition timeoutRemoves (groupId userId : Z) (st : Store) : bool :=
  match list_find (pendingOf userId groupId) (sessions st) with
  | Some _ => true
  | None => false
  end.

(** What [handleVerificationStart] answers: the hint to use the button of
    the group, or what [processVerification] answered. *)
Inductive StartReply : Type :=
  | UseTheButton
  | Processed (reply : Reply).

(** [command.replace('verify_', '')] on a command that starts with
    [verify_]: the first occurrence is the prefix. *)
Definition dropPrefix (n : nat) (s : string) : string :=
  String.substring n (String.length s - n) s.

(** [handleVerificationStart] on the text of a [/start] message. *)
Definition handleVerificationStart (base64Decode : string -> string)
    (parseInt : string -> option Z) (now : Z) (config : TaxConfig.t)
    (telegramOk : bool) (responder : option Z) (text : string) (st : Store)
    : StartReply * Store :=
  let args := split " " text in
  if (length args <? 2)%nat then (UseTheButton, st)
  else
    let command := nth 1 args ""%string in
    if negb (String.eqb command "") && String.prefix "verify_" command then
      let encodedToken := dropPrefix 7 command in
      let r := processVerification base64Decode parseInt now config
                 telegramOk responder encodedToken st in
      (Processed r.1, r.2)
    else (UseTheButton, st).

(** A stand-in for the runtime's printing of the numbers of the example
    token. *)
Definition exampleShow (n : Z) : string :=
  if n =? 42 then "42" else if n =? 7 then "7" else "1000".

(** ** Further vocabulary: the configuration *)

Definition inRange (min max v : Q) : bool := Qgeb v min && Qle_bool v max.

(** The [min] and [max] validators of the schema of models/TaxConfig.ts,
    which [TaxConfig.create] runs on a new document. *)
Definition schemaValid (c : TaxConfig.t) : bool :=
  inRange 0 10000 (TaxConfig.welcomeBonus c)
  && inRange 0 100 (TaxConfig.baseMessagePoints c)
  && inRange 0 1000 (TaxConfig.dailyFirstMessageBonus c)
  && inRange 1 100 (TaxConfig.minMessageLength c)
  && inRange 1 500 (TaxConfig.qualityMessageLength c)
  && inRange 1 5 (TaxConfig.qualityMultiplier c)
  && inRange 0 50 (TaxConfig.replyBonus c)
  && forallb validStreakThreshold (TaxConfig.streakMultipliers c)
  && inRange 1 10 (TaxConfig.maxStreakMultiplier c)
  && inRange 0 3600 (TaxConfig.cooldownSeconds c)
  && inRange 1 10000 (TaxConfig.maxPointsPerHour c)
  && inRange 1 50000 (TaxConfig.maxPointsPerDay c)
  && inRange 1 1000 (TaxConfig.diminishingReturnsThreshold c)
  && inRange 0.1 1 (TaxConfig.diminishingReturnsFactor c)
  && forallb validMilestone (TaxConfig.milestoneRewards c)
  && inRange 1 5 (TaxConfig.weekendMultiplier c)
  && validNightOwl (TaxConfig.nightOwlBonus c)
  && inRange 0 1000 (TaxConfig.notificationThreshold c).

(** The [numericFields] of [validateConfigUpdates]: the name of a field,
    its bounds, and how it is read in a configuration and in an update. *)
Definition numericFields
    : list (string * Q * Q * (TaxConfig.t -> Q)
            * (ConfigUpdates.t -> option Q)) :=
  [("welcomeBonus"%string, 0%Q, 10000%Q,
    TaxConfig.welcomeBonus, ConfigUpdates.welcomeBonus);
   ("baseMessagePoints"%string, 0%Q, 100%Q,
    TaxConfig.baseMessagePoints, ConfigUpdates.baseMessagePoints);
   ("dailyFirstMessageBonus"%string, 0%Q, 1000%Q,
    TaxConfig.dailyFirstMessageBonus, ConfigUpdates.dailyFirstMessageBonus);
   ("minMessageLength"%string, 1%Q, 100%Q,
    TaxConfig.minMessageLength, ConfigUpdates.minMessageLength);
   ("qualityMessageLength"%string, 1%Q, 500%Q,
    TaxConfig.qualityMessageLength, ConfigUpdates.qualityMessageLength);
   ("qualityMultiplier"%string, 1%Q, 5%Q,
    TaxConfig.qualityMultiplier, ConfigUpdates.qualityMultiplier);
   ("replyBonus"%string, 0%Q, 50%Q,
    TaxConfig.replyBonus, ConfigUpdates.replyBonus);
   ("maxStreakMultiplier"%string, 1%Q, 10%Q,
    TaxConfig.maxStreakMultiplier, ConfigUpdates.maxStreakMultiplier);
   ("cooldownSeconds"%string, 0%Q, 3600%Q,
    TaxConfig.cooldownSeconds, ConfigUpdates.cooldownSeconds);
   ("maxPointsPerHour"%string, 1%Q, 10000%Q,
    TaxConfig.maxPointsPerHour, ConfigUpdates.maxPointsPerHour);
   ("maxPointsPerDay"%string, 1%Q, 50000%Q,
    TaxConfig.maxPointsPerDay, ConfigUpdates.maxPointsPerDay);
   ("diminishingReturnsThreshold"%string, 1%Q, 1000%Q,
    TaxConfig.diminishingReturnsThreshold,
    ConfigUpdates.diminishingReturnsThreshold);
   ("diminishingReturnsFactor"%string, 0.1%Q, 1%Q,
    TaxConfig.diminishingReturnsFactor,
    ConfigUpdates.diminishingReturnsFactor);
   ("weekendMultiplier"%string, 1%Q, 5%Q,
    TaxConfig.weekendMultiplier, ConfigUpdates.weekendMultiplier);
   ("notificationThreshold"%string, 0%Q, 1000%Q,
    TaxConfig.notificationThreshold, ConfigUpdates.notificationThreshold)].

(** What an update does to one numeric field: a value within the bounds
    replaces the current one; a value out of bounds, or none, leaves it. *)
Definition replacedOrKept (current : TaxConfig.t) (updates : ConfigUpdates.t)
    (newConfig : TaxConfig.t)
    (field : string * Q * Q * (TaxConfig.t -> Q)
             * (ConfigUpdates.t -> option Q)) : Prop :=
  let '(_, min, max, get, update) := field in
  get newConfig
  = match update updates with
    | Some v => if inRange min max v then v else get current
    | None => get current
    end.

(** A document that passes the schema and whose two tables are in
    increasing order of their thresholds. *)
Definition wellFormed (c : TaxConfig.t) : Prop :=
  schemaValid c = true
  /\ sortedBy StreakThreshold.days (TaxConfig.streakMultipliers c)
  /\ sortedBy Milestone.points (TaxConfig.milestoneRewards c).

(** ** services/TaxConfigService.ts: the cache and the group overrides *)

(** The state of one [TaxConfigService]: [cachedConfig] and
    [cacheExpiry]. *)
Record Service := mkService {
  cachedConfig : option TaxConfig.t;
  cacheExpiry : Z
}.

Definition CACHE_DURATION : Z := 5 * 60 * 1000.

(** A service as its constructor leaves it. *)
Definition newService : Service := mkService None 0.

(** [clearCache]. *)
Definition clearCache (svc : Service) : Service := mkService None 0.


(** The filter [g => g.groupId === groupId]. *)
Definition overrideOf (groupId : Z) (g : GroupOverride.t) : Prop :=
  GroupOverride.groupId g = groupId.

#[global] Instance overrideOf_dec groupId g : Decision (overrideOf groupId g).
Proof. unfold overrideOf. apply _. Defined.

Section GroupOverrides.
(** The object spread [{...config, ...overrides}] of a patch that names
    its fields at run time. *)
Variable spreadOverrides : TaxConfig.t -> Mixed -> TaxConfig.t.

(** [applyGroupOverrides]. *)
Definition applyGroupOverrides (config : TaxConfig.t) (groupId : option Z)
    : TaxConfig.t :=
  match groupId with
  | Some gid =>
      if truthy gid then
        match list_find (overrideOf gid) (TaxConfig.groupOverrides config)
        with
        | Some (_, groupOverride) =>
            spreadOverrides config (GroupOverride.overrides groupOverride)
        | None => config
        end
      else config
  | None => config
  end.

(** [getConfig]: the configuration returned, the service and the
    collection afterwards (a default document is created when no active
    one is stored). *)
Definition getConfig (now : Z) (groupId : option Z) (svc : Service)
    (store : Configs) : TaxConfig.t * Service * Configs :=
  let fresh :=
    match cachedConfig svc with
    | Some cached => if now <? cacheExpiry svc then Some cached else None
    | None => None
    end in
  match fresh with
  | Some cached => (applyGroupOverrides cached groupId, svc, store)
  | None =>
      let '(config, store) :=
        match findActiveLatest store with
        | Some config => (config, store)
        | None =>
            let defaultConfig := TaxConfig.getDefaultConfig now in
            (defaultConfig, store ++ [defaultConfig])
        end in
      let svc := mkService (Some config) (now + CACHE_DURATION) in
      (applyGroupOverrides config groupId, svc, store)
  end.
End GroupOverrides.

(** [updateConfig] and [revertToVersion] with the service: a call that
    succeeds empties [cachedConfig] (and leaves [cacheExpiry]); a call that
    throws writes nothing. *)
Definition updateConfigWith (now : Z) (updates : ConfigUpdates.t)
    (updatedBy : option Z) (svc : Service) (store : Configs)
    : result TaxConfig.t * Service * Configs :=
  match updateConfig now updates updatedBy store with
  | Ok (newConfig, store) =>
      (Ok newConfig, mkService None (cacheExpiry svc), store)
  | Err message => (Err message, svc, store)
  end.

Definition revertToVersionWith (now : Z) (version : Z) (updatedBy : option Z)
    (svc : Service) (store : Configs)
    : result TaxConfig.t * Service * Configs :=
  match revertToVersion now version updatedBy store with
  | Ok (reverted, store) =>
      (Ok reverted, mkService None (cacheExpiry svc), store)
  | Err message => (Err message, svc, store)
  end.




Section GroupOverrideUpdates.
Variable spreadOverrides : TaxConfig.t -> Mixed -> TaxConfig.t.


End GroupOverrideUpdates.


(** ** Further vocabulary: statistics and the text handler *)

(** What [getUserStats] returns. *)
Record Stats := mkStats {
  stats_taxPoints : Q;
  stats_totalEarned : Q;
  stats_streak : Z;
  stats_messages : Z;
  stats_rank : Z
}.

(** The filter [{ taxPoints: { $gt: points } }]. *)
Definition ahead (points : Q) (kv : Z * User.t) : Prop :=
  Qltb points (User.taxPoints kv.2) = true.

#[global] Instance ahead_dec points kv : Decision (ahead points kv).
Proof. unfold ahead. apply _. Defined.

(** [getUserStats]; [None] is [null]. *)
Definition getUserStats (userId : Z) (db : Users) : option Stats :=
  match db !! userId with
  | None => None
  | Some user =>
      let rank :=
        Z.of_nat (size (filter (ahead (User.taxPoints user)) db)) + 1 in
      Some (mkStats (User.taxPoints user) (User.totalPointsEarned user)
              (User.dailyStreak user) (User.messagesCount user) rank)
  end.

(** The handler of text messages of the bot: commands are skipped; the
    points of the message are awarded; an award of 10 points or more is
    answered with the points, and the balance and rank of the sender.
    The result is the answer sent, if any, and the users afterwards. *)
Definition onText (tz now : Z) (config : TaxConfig.t) (ctx : Context)
    (text : string) (db : Users) : option (Z * Stats) * Users :=
  if String.prefix "/" text then (None, db)
  else
    let '(pointsAwarded, db) :=
      processMessagePoints tz now config ctx text db in
    if 10 <=? pointsAwarded then
      match from ctx with
      | Some userId =>
          match getUserStats userId db with
          | Some stats => (Some (pointsAwarded, stats), db)
          | None => (None, db)
          end
      | None => (None, db)
      end
    else (None, db).

(** * Properties *)

(** ** Comparisons and calendar arithmetic *)

Lemma Qltb_lt (x y : Q) : Qltb x y = true <-> (x < y)%Q.
Proof.
  unfold Qltb. rewrite negb_true_iff, <- not_true_iff_false, Qle_bool_iff.
  split; [apply Qnot_le_lt | apply Qlt_not_le].
Qed.

Lemma Qltb_ge (x y : Q) : Qltb x y = false <-> (y <= x)%Q.
Proof. unfold Qltb. rewrite negb_false_iff. apply Qle_bool_iff. Qed.

Lemma Qgeb_ge (x y : Q) : Qgeb x y = true <-> (y <= x)%Q.
Proof. apply Qle_bool_iff. Qed.

Lemma Qgeb_lt (x y : Q) : Qgeb x y = false <-> (x < y)%Q.
Proof.
  unfold Qgeb. rewrite <- not_true_iff_false, Qle_bool_iff.
  split; [apply Qnot_le_lt | apply Qlt_not_le].
Qed.

Lemma Qgtb_gt (x y : Q) : Qgtb x y = true <-> (y < x)%Q.
Proof. apply Qltb_lt. Qed.

Lemma msPerDay_pos : 0 < msPerDay.
Proof. reflexivity. Qed.

Lemma startOfDay_le (tz t : Z) : startOfDay tz t <= t.
Proof.
  unfold startOfDay, dayNumber.
  pose proof (Z.mul_div_le (t + tz) msPerDay msPerDay_pos). lia.
Qed.

Lemma startOfDay_next (tz t : Z) : t < startOfDay tz t + msPerDay.
Proof.
  unfold startOfDay, dayNumber.
  pose proof (Z.mod_pos_bound (t + tz) msPerDay msPerDay_pos).
  pose proof (Z.div_mod (t + tz) msPerDay). lia.
Qed.

(** Midnights are ordered as their days are. *)
Lemma startOfDay_mono (tz s t : Z) :
  dayNumber tz s <= dayNumber tz t -> startOfDay tz s <= startOfDay tz t.
Proof. unfold startOfDay. pose proof msPerDay_pos. nia. Qed.

(** An instant lies before today's midnight exactly when its day is an
    earlier one. *)
Lemma before_startOfDay (tz s t : Z) :
  s < startOfDay tz t <-> dayNumber tz s < dayNumber tz t.
Proof.
  split; intros H.
  - destruct (Z_lt_le_dec (dayNumber tz s) (dayNumber tz t)) as [|Hge]; [done|].
    apply (startOfDay_mono tz) in Hge. pose proof (startOfDay_le tz s). lia.
  - pose proof (startOfDay_next tz s).
    assert (startOfDay tz s + msPerDay <= startOfDay tz t); [|lia].
    unfold startOfDay. pose proof msPerDay_pos. nia.
Qed.

(** The whole days between two local midnights. *)
Lemma daysDiff_dayNumber (tz last now : Z) :
  (startOfDay tz now - startOfDay tz last) `div` (1000 * 60 * 60 * 24)
  = dayNumber tz now - dayNumber tz last.
Proof.
  unfold startOfDay. change (1000 * 60 * 60 * 24) with msPerDay.
  replace (dayNumber tz now * msPerDay - tz - (dayNumber tz last * msPerDay - tz))
    with ((dayNumber tz now - dayNumber tz last) * msPerDay) by ring.
  apply Z.div_mul. discriminate.
Qed.

(** ** The award ledger of a user document *)

(** C7. For every user with [taxPoints <= totalPointsEarned] and every
    amount (in particular every amount [>= 0]), with or without a group,
    [awardPoints] adds exactly the amount to both counters, so the
    invariant [taxPoints <= totalPointsEarned] still holds afterwards; and a
    user document created from the schema defaults starts with both
    counters at 0. *)
Theorem awardPoints_keeps_taxPoints_le_total
    (now : Z) (amount : Q) (groupId : option Z) (u : User.t) :
  (User.taxPoints u <= User.totalPointsEarned u)%Q ->
  User.taxPoints (awardPoints now amount groupId u)
    = (User.taxPoints u + amount)%Q
  /\ User.totalPointsEarned (awardPoints now amount groupId u)
    = (User.totalPointsEarned u + amount)%Q
  /\ (User.taxPoints (awardPoints now amount groupId u)
      <= User.totalPointsEarned (awardPoints now amount groupId u))%Q
  /\ (forall t0 uname first last group,
        User.taxPoints (User.create t0 uname first last group) = 0%Q
        /\ User.totalPointsEarned (User.create t0 uname first last group)
           = 0%Q).
Proof.
  intros Hinv.
  assert (Htp : User.taxPoints (awardPoints now amount groupId u)
                = (User.taxPoints u + amount)%Q).
  { unfold awardPoints. destruct groupId as [gid|]; [|reflexivity].
    destruct (truthy gid); [|reflexivity].
    destruct (findActivity _ _) as [[i g]|]; reflexivity. }
  assert (Htot : User.totalPointsEarned (awardPoints now amount groupId u)
                 = (User.totalPointsEarned u + amount)%Q).
  { unfold awardPoints. destruct groupId as [gid|]; [|reflexivity].
    destruct (truthy gid); [|reflexivity].
    destruct (findActivity _ _) as [[i g]|]; reflexivity. }
  rewrite Htp, Htot. repeat split. lra.
Qed.

(** ** The streak transition *)

Lemma localMidnight_fixed (tz t : Z) :
  localMidnight (fixedZone tz) t = startOfDay tz t.
Proof. reflexivity. Qed.

(** What [updateStreak] computes in any zone: the streak becomes 1 when no
    date was recorded; otherwise it grows by one when the two local
    midnights are at least 24 and less than 48 hours apart, is reset to 1
    when they are 48 hours apart or more, and is unchanged when they are
    less than 24 hours apart. *)
Lemma updateStreak_by_midnights (zone : Zone) (now : Z) (u : User.t) :
  User.lastStreakDate (updateStreak zone now u) = Some now
  /\ (User.lastStreakDate u = None ->
      User.dailyStreak (updateStreak zone now u) = 1)
  /\ (forall last, User.lastStreakDate u = Some last ->
      (msPerDay <= localMidnight zone now - localMidnight zone last
       < 2 * msPerDay ->
       User.dailyStreak (updateStreak zone now u) = User.dailyStreak u + 1)
      /\ (2 * msPerDay <= localMidnight zone now - localMidnight zone last ->
          User.dailyStreak (updateStreak zone now u) = 1)
      /\ (localMidnight zone now - localMidnight zone last < msPerDay ->
          User.dailyStreak (updateStreak zone now u) = User.dailyStreak u)).
Proof.
  split; [reflexivity|]. split.
  - intros Hnone. unfold updateStreak. rewrite Hnone. reflexivity.
  - intros last Hlast. unfold updateStreak. rewrite Hlast.
    change (1000 * 60 * 60 * 24) with msPerDay.
    set (elapsed := localMidnight zone now - localMidnight zone last).
    pose proof msPerDay_pos as Hpos.
    repeat split; intros Hday.
    + assert (elapsed `div` msPerDay = 1) as ->; [|reflexivity].
      symmetry. apply (Z.div_unique elapsed msPerDay 1 (elapsed - msPerDay));
        lia.
    + assert (2 <= elapsed `div` msPerDay)
        by (apply Z.div_le_lower_bound; lia).
      destruct (Z.eqb_spec (elapsed `div` msPerDay) 1); [lia|].
      destruct (Z.ltb_spec 1 (elapsed `div` msPerDay)); [reflexivity | lia].
    + assert (elapsed `div` msPerDay < 1)
        by (apply Z.div_lt_upper_bound; lia).
      destruct (Z.eqb_spec (elapsed `div` msPerDay) 1); [lia|].
      destruct (Z.ltb_spec 1 (elapsed `div` msPerDay)); [lia | reflexivity].
Qed.

(** Where the offset never changes (as in the container of the
    repository, which runs on UTC), local midnights are whole days apart
    and the distance counts calendar days: the streak grows by one when
    the recorded date is on yesterday's calendar day, is reset to 1 when
    it is more than one calendar day back, and is unchanged when it is on
    today's calendar day. *)
Lemma updateStreak_fixed_offset_transition (tz now : Z) (u : User.t) :
  User.lastStreakDate (updateStreak (fixedZone tz) now u) = Some now
  /\ (User.lastStreakDate u = None ->
      User.dailyStreak (updateStreak (fixedZone tz) now u) = 1)
  /\ (forall last, User.lastStreakDate u = Some last ->
      (dayNumber tz last = dayNumber tz now - 1 ->
       User.dailyStreak (updateStreak (fixedZone tz) now u)
       = User.dailyStreak u + 1)
      /\ (dayNumber tz last < dayNumber tz now - 1 ->
          User.dailyStreak (updateStreak (fixedZone tz) now u) = 1)
      /\ (dayNumber tz last = dayNumber tz now ->
          User.dailyStreak (updateStreak (fixedZone tz) now u)
          = User.dailyStreak u)).
Proof.
  split; [reflexivity|]. split.
  - intros Hnone. unfold updateStreak. rewrite Hnone. reflexivity.
  - intros last Hlast. unfold updateStreak. rewrite Hlast.
    rewrite !localMidnight_fixed, daysDiff_dayNumber.
    repeat split; intros Hday.
    + replace (dayNumber tz now - dayNumber tz last) with 1 by lia.
      reflexivity.
    + destruct (Z.eqb_spec (dayNumber tz now - dayNumber tz last) 1); [lia|].
      destruct (Z.ltb_spec 1 (dayNumber tz now - dayNumber tz last)); [|lia].
      reflexivity.
    + replace (dayNumber tz now - dayNumber tz last) with 0 by lia.
      reflexivity.
Qed.

(** C8. [updateStreak] takes the number of days between two dates to be
    the whole multiples of 24 hours between their local midnights.  Where
    the clock is put forward, the day of the change has 23 hours, and the
    count is one short.  In New York, for a streak last counted on 8 March
    2026: a call on 9 March, when the recorded date is yesterday, leaves
    the streak unchanged instead of adding one; and a call on 10 March,
    when the recorded date is two calendar days back, adds one instead of
    setting the streak back to 1. *)
Theorem updateStreak_misses_short_day (u : User.t) (last now : Z) :
  User.lastStreakDate u = Some last ->
  localDay newYork2026 last = march8 ->
  (localDay newYork2026 now = march8 + 1 ->
   User.dailyStreak (updateStreak newYork2026 now u) = User.dailyStreak u)
  /\ (localDay newYork2026 now = march8 + 2 ->
      User.dailyStreak (updateStreak newYork2026 now u)
      = User.dailyStreak u + 1).
Proof.
  intros Hlast Hday. unfold updateStreak, localMidnight.
  rewrite Hlast, Hday. split; intros ->; reflexivity.
Qed.

(** ** Group entries *)

Lemma findActivity_Some (gid : Z) (l : list GroupActivity.t) i g :
  findActivity gid l = Some (i, g) ->
  l !! i = Some g /\ GroupActivity.groupId g = gid.
Proof. unfold findActivity. rewrite list_find_Some. tauto. Qed.

(** Rewriting the entry that [find] returned, without changing its group,
    leaves it the entry that [find] returns. *)
Lemma findActivity_insert (gid : Z) (l : list GroupActivity.t) i g g' :
  findActivity gid l = Some (i, g) ->
  GroupActivity.groupId g' = gid ->
  findActivity gid (<[i := g']> l) = Some (i, g').
Proof.
  unfold findActivity. rewrite !list_find_Some.
  intros (Hi & Hg & Hfirst) Hg'. split; [|split; [done|]].
  - apply list_lookup_insert_eq. by eapply lookup_lt_Some.
  - intros j y Hj Hlt. rewrite list_lookup_insert_ne in Hj by lia. eauto.
Qed.

Lemma findActivity_append (gid : Z) (l : list GroupActivity.t) g :
  findActivity gid l = None ->
  GroupActivity.groupId g = gid ->
  findActivity gid (l ++ [g]) = Some (length l, g).
Proof.
  unfold findActivity. intros Hnone Hg.
  rewrite list_find_app_r by done. simpl.
  rewrite decide_True by done. reflexivity.
Qed.

Lemma dailyPoints_kept_refl l : dailyPoints_kept l l.
Proof. split; [eauto | congruence]. Qed.

Lemma dailyPoints_kept_insert l i g g' :
  l !! i = Some g ->
  GroupActivity.dailyPoints g' = GroupActivity.dailyPoints g ->
  dailyPoints_kept l (<[i := g']> l).
Proof.
  intros Hi Hd. split.
  - intros j h Hj. destruct (decide (i = j)) as [->|Hne].
    + exists g'. rewrite list_lookup_insert_eq by (by eapply lookup_lt_Some).
      split; congruence.
    + exists h. by rewrite list_lookup_insert_ne.
  - intros j h Hj Hnone. apply lookup_ge_None in Hnone.
    apply lookup_lt_Some in Hj. rewrite length_insert in Hj. lia.
Qed.

Lemma dailyPoints_kept_append l g :
  GroupActivity.dailyPoints g = 0%Q ->
  dailyPoints_kept l (l ++ [g]).
Proof.
  intros Hd. split.
  - intros j h Hj. exists h.
    by rewrite lookup_app_l by (by eapply lookup_lt_Some).
  - intros j h Hj Hnone. apply lookup_ge_None in Hnone.
    rewrite lookup_app_r in Hj by done.
    destruct (j - length l)%nat; simpl in Hj; [congruence | done].
Qed.

Lemma dailyPoints_kept_not_raised l l' :
  dailyPoints_kept l l' -> dailyPoints_not_raised l l'.
Proof.
  intros [Hold Hnew] i g' Hi.
  destruct (l !! i) as [g|] eqn:Hl.
  - right. exists g. split; [done|].
    destruct (Hold i g Hl) as (h & Hh & Hd). congruence.
  - left. eauto.
Qed.

Lemma dailyPoints_not_raised_refl l : dailyPoints_not_raised l l.
Proof. intros i g Hi. right. eauto. Qed.

Lemma dailyPoints_not_raised_trans l1 l2 l3 :
  dailyPoints_not_raised l1 l2 -> dailyPoints_not_raised l2 l3 ->
  dailyPoints_not_raised l1 l3.
Proof.
  intros H12 H23 i g3 Hi.
  destruct (H23 i g3 Hi) as [|(g2 & Hg2 & Hd)]; [by left|].
  destruct (H12 i g2 Hg2) as [Hz|(g1 & Hg1 & Hd')].
  - left. congruence.
  - right. exists g1. split; congruence.
Qed.

Lemma awardPoints_dailyPoints_kept now points groupId u :
  dailyPoints_kept (User.groupActivity u)
    (User.groupActivity (awardPoints now points groupId u)).
Proof.
  unfold awardPoints. destruct groupId as [gid|]; [|apply dailyPoints_kept_refl].
  destruct (truthy gid); [|apply dailyPoints_kept_refl].
  cbn [User.groupActivity User.set_lastPointAward User.set_lastActivityDate
       User.set_totalPointsEarned User.set_taxPoints].
  destruct (findActivity gid (User.groupActivity u)) as [[i g]|] eqn:Hfind.
  - apply findActivity_Some in Hfind as [Hi _].
    cbn [User.groupActivity User.set_groupActivity].
    by eapply dailyPoints_kept_insert.
  - cbn [User.groupActivity User.set_groupActivity].
    by apply dailyPoints_kept_append.
Qed.

Lemma incrementMessages_dailyPoints_kept now groupId u :
  dailyPoints_kept (User.groupActivity u)
    (User.groupActivity (incrementMessages now groupId u)).
Proof.
  unfold incrementMessages.
  destruct groupId as [gid|]; [|apply dailyPoints_kept_refl].
  destruct (truthy gid); [|apply dailyPoints_kept_refl].
  cbn [User.groupActivity User.set_messagesCount].
  destruct (findActivity gid (User.groupActivity u)) as [[i g]|] eqn:Hfind.
  - apply findActivity_Some in Hfind as [Hi _].
    cbn [User.groupActivity User.set_groupActivity].
    by eapply dailyPoints_kept_insert.
  - cbn [User.groupActivity User.set_groupActivity].
    by apply dailyPoints_kept_append.
Qed.

Lemma updateStreak_groupActivity tz now u :
  User.groupActivity (updateStreak tz now u) = User.groupActivity u.
Proof.
  unfold updateStreak. destruct (User.lastStreakDate u); [|reflexivity].
  destruct (_ =? 1); [reflexivity|]. destruct (1 <? _); reflexivity.
Qed.

(** The only write to [dailyPoints]: the reset of a stale entry. *)
Lemma canAwardDailyPoints_dailyPoints tz now g config :
  (canAwardDailyPoints tz now g config).2 = g
  \/ GroupActivity.dailyPoints (canAwardDailyPoints tz now g config).2 = 0%Q.
Proof.
  unfold canAwardDailyPoints.
  destruct (match GroupActivity.lastDailyReset g with
            | Some reset => reset <? startOfDay tz now
            | None => true
            end); [right | left]; reflexivity.
Qed.

Lemma touched_dailyPoints_not_raised tz now config u v :
  touched tz now config u v ->
  dailyPoints_not_raised (User.groupActivity u) (User.groupActivity v).
Proof.
  induction 1 as [u | u v points groupId _ IH | u v groupId _ IH
                  | u v _ IH | u v i g _ IH Hi].
  - apply dailyPoints_not_raised_refl.
  - eapply dailyPoints_not_raised_trans; [exact IH|].
    apply dailyPoints_kept_not_raised, awardPoints_dailyPoints_kept.
  - eapply dailyPoints_not_raised_trans; [exact IH|].
    apply dailyPoints_kept_not_raised, incrementMessages_dailyPoints_kept.
  - by rewrite updateStreak_groupActivity.
  - eapply dailyPoints_not_raised_trans; [exact IH|].
    cbn [User.groupActivity User.set_groupActivity].
    intros j h Hj. destruct (decide (i = j)) as [->|Hne].
    + rewrite list_lookup_insert_eq in Hj by (by eapply lookup_lt_Some).
      injection Hj as <-.
      destruct (canAwardDailyPoints_dailyPoints tz now g config) as [->|Hz];
        [right; eauto | by left].
    + rewrite list_lookup_insert_ne in Hj by done. right. eauto.
Qed.

(** ** What one message can write *)

Lemma calculateMessagePoints_state tz now uid user text ctx gid config db :
  let r := calculateMessagePoints tz now uid user text ctx gid config db in
  (r.1.2 = user /\ r.2 = db)
  \/ (r.1.2 = updateStreak (fixedZone tz) now user
      /\ r.2 = save uid (updateStreak (fixedZone tz) now user) db).
Proof.
  unfold calculateMessagePoints.
  destruct (isFirstMessageToday tz now user gid
            && TaxConfig.enableDailyBonus config); cbn; auto.
Qed.

(** The final [Math.max(1, ...)] makes every computed award at least 1. *)
Lemma calculateMessagePoints_ge_1 tz now uid user text ctx gid config db :
  1 <= (calculateMessagePoints tz now uid user text ctx gid config db).1.1.
Proof.
  unfold calculateMessagePoints.
  destruct (isFirstMessageToday tz now user gid
            && TaxConfig.enableDailyBonus config); cbn; lia.
Qed.

Lemma save_save uid (u v : User.t) (db : Users) :
  save uid v (save uid u db) = save uid v db.
Proof. apply insert_insert_eq. Qed.

Lemma dailyCheck_touched tz now config chatId user :
  touched tz now config user (dailyCheck tz now config chatId user).2.
Proof.
  unfold dailyCheck.
  destruct (findActivity chatId (User.groupActivity user)) as [[i g]|] eqn:Hf;
    [|constructor].
  apply findActivity_Some in Hf as [Hi _].
  pose proof (touched_daily tz now config user user i g
                (touched_refl _ _ _ _) Hi) as Ht.
  destruct (canAwardDailyPoints tz now g config) as [ok g']. exact Ht.
Qed.

(** [processMessagePoints] with the daily check named. *)
Lemma processMessagePoints_unfold tz now config ctx text db :
  processMessagePoints tz now config ctx text db =
  match from ctx, chat ctx with
  | Some userId, Some chatId =>
      match db !! userId with
      | None => (0, db)
      | Some user =>
          if negb (User.isVerified user) then (0, db)
          else if negb (canAwardPoints now user config) then (0, db)
          else
            let '(allowed, user) := dailyCheck tz now config chatId user in
            if negb allowed then (0, db)
            else
              let '(points, user, db) :=
                calculateMessagePoints tz now userId user text ctx
                  chatId config db in
              if points <=? 0 then (0, db)
              else
                let user := awardPoints now (inject_Z points) (Some chatId)
                              user in
                let db := save userId user db in
                let user := incrementMessages now (Some chatId) user in
                let db := save userId user db in
                if TaxConfig.enableMilestoneRewards config then
                  let milestoneBonus :=
                    checkMilestone
                      (User.taxPoints user - inject_Z points)%Q
                      (User.taxPoints user) config in
                  if Qgtb milestoneBonus 0 then
                    let user := awardPoints now milestoneBonus None user in
                    (points, save userId user db)
                  else (points, db)
                else (points, db)
      end
  | _, _ => (0, db)
  end.
Proof. reflexivity. Qed.

(** A call leaves the collection as it was, or rewrites the sender's
    document by writes of the ledger. *)
Lemma processMessagePoints_touches tz now config ctx text (db : Users) :
  (processMessagePoints tz now config ctx text db).2 = db
  \/ exists uid u v,
       from ctx = Some uid /\ db !! uid = Some u
       /\ touched tz now config u v
       /\ (processMessagePoints tz now config ctx text db).2 = <[uid := v]> db.
Proof.
  rewrite processMessagePoints_unfold.
  destruct (from ctx) as [uid|]; [|by left].
  destruct (chat ctx) as [gid|]; [|by left].
  destruct (db !! uid) as [u|] eqn:Hu; [|by left].
  destruct (negb (User.isVerified u)); [by left|].
  destruct (negb (canAwardPoints now u config)); [by left|].
  pose proof (dailyCheck_touched tz now config gid u) as Hd.
  destruct (dailyCheck tz now config gid u) as [allowed u1]. cbn [snd] in Hd.
  destruct (negb allowed); [by left|].
  pose proof (calculateMessagePoints_state tz now uid u1 text ctx gid config db)
    as Hc.
  destruct (calculateMessagePoints tz now uid u1 text ctx gid config db)
    as [[points u2] db2].
  cbn [fst snd] in Hc.
  assert (Hu2 : touched tz now config u u2).
  { destruct Hc as [[-> _]|[-> _]]; [done | by apply touched_streak]. }
  assert (Hdb2 : forall w, save uid w db2 = <[uid := w]> db).
  { intros w. destruct Hc as [[_ ->]|[_ ->]]; [done | apply save_save]. }
  destruct (points <=? 0).
  { cbn [snd]. destruct Hc as [[_ ->]|[-> ->]]; [by left|].
    right. exists uid, u, (updateStreak (fixedZone tz) now u1).
    repeat split; done. }
  cbv zeta.
  set (u3 := incrementMessages now (Some gid)
               (awardPoints now (inject_Z points) (Some gid) u2)).
  assert (Hu3 : touched tz now config u u3)
    by apply touched_messages, touched_award, Hu2.
  right. exists uid, u.
  destruct (TaxConfig.enableMilestoneRewards config).
  - destruct (Qgtb _ 0).
    + exists (awardPoints now
                (checkMilestone (User.taxPoints u3 - inject_Z points)
                   (User.taxPoints u3) config) None u3).
      cbn [snd]. rewrite !save_save, Hdb2.
      repeat split; try done. apply touched_award, Hu3.
    + exists u3. cbn [snd]. by rewrite save_save, Hdb2.
  - exists u3. cbn [snd]. by rewrite save_save, Hdb2.
Qed.

Lemma awardWelcomeBonus_touches tz now config uid (db : Users) :
  (awardWelcomeBonus now config uid db).2 = db
  \/ exists u v,
       db !! uid = Some u /\ touched tz now config u v
       /\ (awardWelcomeBonus now config uid db).2 = <[uid := v]> db.
Proof.
  unfold awardWelcomeBonus. destruct (db !! uid) as [u|] eqn:Hu; [|by left].
  destruct (negb (TaxConfig.enableWelcomeBonus config)); [by left|].
  right. exists u, (awardPoints now (TaxConfig.welcomeBonus config) None u).
  split; [done|]. split; [|reflexivity].
  apply touched_award, touched_refl.
Qed.

(** ** The daily counter is never raised *)

(** The join challenge writes the verification flag and the welcome bonus,
    never a group entry. *)
Lemma processVerification_dailyPoints base64Decode parseInt now config
    telegramOk responder token st k v :
  users (processVerification base64Decode parseInt now config telegramOk
           responder token st).2 !! k = Some v ->
  exists u, users st !! k = Some u
    /\ dailyPoints_not_raised (User.groupActivity u) (User.groupActivity v).
Proof.
  assert (Hsame : users st !! k = Some v ->
            exists u, users st !! k = Some u
              /\ dailyPoints_not_raised (User.groupActivity u)
                   (User.groupActivity v)).
  { intros Hk. exists v. split; [done | apply dailyPoints_not_raised_refl]. }
  unfold processVerification.
  destruct (String.eqb token ""); [done|].
  destruct (length _ <? 3)%nat; [done|].
  destruct (parseInt (nth 0 _ _)) as [userId|]; [|done].
  destruct (parseInt (nth 1 _ _)) as [groupId|]; [|done].
  destruct (negb (bool_decide _)); [done|].
  destruct (findSession _ _ _ _) as [[i s]|]; [|done].
  destruct (Session.expiresAt s <? now); [done|].
  destruct (negb telegramOk); [done|].
  set (users1 := match users st !! userId with
                 | Some u => <[userId := _]> (users st)
                 | None => users st
                 end).
  assert (H1 : forall j w, users1 !! j = Some w ->
            exists u, users st !! j = Some u
              /\ User.groupActivity w = User.groupActivity u).
  { intros j w. unfold users1.
    destruct (users st !! userId) as [u|] eqn:Hu; [|by eauto].
    destruct (decide (userId = j)) as [->|Hne].
    - rewrite lookup_insert_eq. intros [= <-]. by exists u.
    - rewrite lookup_insert_ne by done. by eauto. }
  pose proof (awardWelcomeBonus_touches 0 now config userId users1) as Hw.
  destruct (awardWelcomeBonus now config userId users1) as [points users2].
  cbn [snd users] in *. intros Hk.
  destruct Hw as [->|(u1 & w & Hu1 & Ht & ->)].
  - destruct (H1 k v Hk) as (u & Hu & Hg). exists u. split; [done|].
    rewrite Hg. apply dailyPoints_not_raised_refl.
  - destruct (decide (userId = k)) as [->|Hne].
    + rewrite lookup_insert_eq in Hk. injection Hk as <-.
      destruct (H1 k u1 Hu1) as (u & Hu & Hg). exists u. split; [done|].
      rewrite <- Hg. by eapply touched_dailyPoints_not_raised.
    + rewrite lookup_insert_ne in Hk by done.
      destruct (H1 k v Hk) as (u & Hu & Hg). exists u. split; [done|].
      rewrite Hg. apply dailyPoints_not_raised_refl.
Qed.

(** A join writes the profile of the member, or creates the member without
    any group entry. *)
Lemma handleNewUser_groupActivity numberToString now telegramOk chat member
    promptId st k v :
  users (handleNewUser numberToString now telegramOk chat member promptId st)
    !! k = Some v ->
  User.groupActivity v = []
  \/ exists u, users st !! k = Some u
       /\ User.groupActivity v = User.groupActivity u.
Proof.
  assert (Hup : forall chatId,
            upsertUser now member chatId (users st) !! k = Some v ->
            User.groupActivity v = []
            \/ exists u, users st !! k = Some u
                 /\ User.groupActivity v = User.groupActivity u).
  { intros chatId. unfold upsertUser.
    destruct (users st !! id member) as [u|] eqn:Hu;
      (destruct (decide (id member = k)) as [<-|Hne];
       [rewrite lookup_insert_eq; intros [= <-]
       |rewrite lookup_insert_ne by done; by eauto]).
    - right. by exists u.
    - by left. }
  unfold handleNewUser. destruct chat as [chatId|]; [|by eauto].
  destruct (negb telegramOk); apply Hup.
Qed.

(** C6. No write of the ledger raises a [dailyPoints] counter.
    [awardPoints] and [incrementMessages] leave the [dailyPoints] of every
    existing entry as it was and give a new entry [dailyPoints = 0];
    [updateStreak] does not touch the entries; [canAwardDailyPoints] returns
    its entry unchanged or with [dailyPoints] reset to 0.  Hence after
    [processMessagePoints] or [awardWelcomeBonus], every group entry of
    every stored user has the [dailyPoints] it had before, or 0: awarded
    points never accumulate into the counter that the daily cap reads.
    The handlers of the join challenge do not write group entries either. *)
Theorem dailyPoints_never_incremented (tz now : Z) (config : TaxConfig.t) :
  (forall points groupId u,
     dailyPoints_kept (User.groupActivity u)
       (User.groupActivity (awardPoints now points groupId u)))
  /\ (forall groupId u,
        dailyPoints_kept (User.groupActivity u)
          (User.groupActivity (incrementMessages now groupId u)))
  /\ (forall zone u, User.groupActivity (updateStreak zone now u)
                     = User.groupActivity u)
  /\ (forall g,
        (canAwardDailyPoints tz now g config).2 = g
        \/ GroupActivity.dailyPoints (canAwardDailyPoints tz now g config).2
           = 0%Q)
  /\ (forall ctx text (db : Users) k v,
        (processMessagePoints tz now config ctx text db).2 !! k = Some v ->
        exists u, db !! k = Some u
          /\ dailyPoints_not_raised (User.groupActivity u)
               (User.groupActivity v))
  /\ (forall uid (db : Users) k v,
        (awardWelcomeBonus now config uid db).2 !! k = Some v ->
        exists u, db !! k = Some u
          /\ dailyPoints_not_raised (User.groupActivity u)
               (User.groupActivity v))
  /\ (forall base64Decode parseInt telegramOk responder token st k v,
        users (processVerification base64Decode parseInt now config
                 telegramOk responder token st).2 !! k = Some v ->
        exists u, users st !! k = Some u
          /\ dailyPoints_not_raised (User.groupActivity u)
               (User.groupActivity v))
  /\ (forall numberToString telegramOk chat member promptId st k v,
        users (handleNewUser numberToString now telegramOk chat member
                 promptId st) !! k = Some v ->
        User.groupActivity v = []
        \/ exists u, users st !! k = Some u
             /\ User.groupActivity v = User.groupActivity u)
  /\ (forall telegramOk groupId userId st,
        users (handleVerificationTimeout telegramOk groupId userId st)
        = users st).
Proof.
  split; [intros; apply awardPoints_dailyPoints_kept|].
  split; [intros; apply incrementMessages_dailyPoints_kept|].
  split; [intros; apply updateStreak_groupActivity|].
  split; [intros; apply canAwardDailyPoints_dailyPoints|].
  split.
  - intros ctx text db k v Hk.
    destruct (processMessagePoints_touches tz now config ctx text db)
      as [Heq|(uid & u & w & _ & Hu & Ht & Heq)]; rewrite Heq in Hk.
    + exists v. split; [done | apply dailyPoints_not_raised_refl].
    + destruct (decide (uid = k)) as [->|Hne].
      * rewrite lookup_insert_eq in Hk. injection Hk as <-.
        exists u. split; [done|].
        by eapply touched_dailyPoints_not_raised.
      * rewrite lookup_insert_ne in Hk by done.
        exists v. split; [done | apply dailyPoints_not_raised_refl].
  - split; [|split; [|split]].
    + intros uid db k v Hk.
      destruct (awardWelcomeBonus_touches tz now config uid db)
        as [Heq|(u & w & Hu & Ht & Heq)]; rewrite Heq in Hk.
      * exists v. split; [done | apply dailyPoints_not_raised_refl].
      * destruct (decide (uid = k)) as [->|Hne].
        -- rewrite lookup_insert_eq in Hk. injection Hk as <-.
           exists u. split; [done|].
           by eapply touched_dailyPoints_not_raised.
        -- rewrite lookup_insert_ne in Hk by done.
           exists v. split; [done | apply dailyPoints_not_raised_refl].
    + intros. by eapply processVerification_dailyPoints.
    + intros. by eapply handleNewUser_groupActivity.
    + intros telegramOk groupId userId st. unfold handleVerificationTimeout.
      destruct (list_find _ _) as [[i s]|]; [|done].
      by destruct (negb telegramOk).
Qed.

(** ** A message that passes the gates is awarded *)

(** When the sender is a verified user who passes the cooldown and the
    daily check, the call returns the computed points and stores the user
    after the award, the message count and the milestone step. *)
Lemma processMessagePoints_awards tz now config ctx text (db : Users)
    uid gid u u1 :
  from ctx = Some uid -> chat ctx = Some gid -> db !! uid = Some u ->
  User.isVerified u = true -> canAwardPoints now u config = true ->
  dailyCheck tz now config gid u = (true, u1) ->
  let c := calculateMessagePoints tz now uid u1 text ctx gid config db in
  processMessagePoints tz now config ctx text db =
    (c.1.1,
     <[uid := milestoneTopUp now config c.1.1
                (incrementMessages now (Some gid)
                   (awardPoints now (inject_Z c.1.1) (Some gid) c.1.2))]> db).
Proof.
  intros Hfrom Hchat Hu Hver Hcool Hdaily c.
  rewrite processMessagePoints_unfold, Hfrom, Hchat, Hu, Hver, Hcool, Hdaily.
  cbn [negb].
  pose proof (calculateMessagePoints_state tz now uid u1 text ctx gid config db)
    as Hc.
  pose proof (calculateMessagePoints_ge_1 tz now uid u1 text ctx gid config db)
    as Hge.
  fold c in Hc, Hge. fold c. destruct c as [[points u2] db2].
  cbn [fst snd] in *.
  destruct (Z.leb_spec points 0) as [|_]; [lia|].
  cbv zeta.
  assert (Hdb2 : forall w, save uid w db2 = <[uid := w]> db).
  { intros w. destruct Hc as [[_ ->]|[_ ->]]; [done | apply save_save]. }
  unfold milestoneTopUp.
  destruct (TaxConfig.enableMilestoneRewards config);
    [|by rewrite save_save, Hdb2].
  cbv zeta. destruct (Qgtb _ 0); [|by rewrite save_save, Hdb2].
  by rewrite !save_save, Hdb2.
Qed.

(** Conversely, a call that returns points went through every gate. *)
Lemma processMessagePoints_awarded tz now config ctx text (db : Users) :
  (processMessagePoints tz now config ctx text db).1 <> 0 ->
  exists uid gid u u1,
    from ctx = Some uid /\ chat ctx = Some gid /\ db !! uid = Some u
    /\ User.isVerified u = true /\ canAwardPoints now u config = true
    /\ dailyCheck tz now config gid u = (true, u1).
Proof.
  rewrite processMessagePoints_unfold.
  destruct (from ctx) as [uid|]; [|done].
  destruct (chat ctx) as [gid|]; [|done].
  destruct (db !! uid) as [u|] eqn:Hu; [|done].
  destruct (User.isVerified u) eqn:Hver; [|done].
  destruct (canAwardPoints now u config) eqn:Hcool; [|done].
  destruct (dailyCheck tz now config gid u) as [[|] u1] eqn:Hd; [|done].
  intros _. by exists uid, gid, u, u1.
Qed.

Lemma awardPoints_lastPointAward now points groupId u :
  User.lastPointAward (awardPoints now points groupId u) = Some now.
Proof.
  unfold awardPoints. destruct groupId as [gid|]; [|reflexivity].
  destruct (truthy gid); [|reflexivity].
  destruct (findActivity _ _) as [[i g]|]; reflexivity.
Qed.

Lemma incrementMessages_lastPointAward now groupId u :
  User.lastPointAward (incrementMessages now groupId u)
  = User.lastPointAward u.
Proof.
  unfold incrementMessages. destruct groupId as [gid|]; [|reflexivity].
  destruct (truthy gid); [|reflexivity].
  destruct (findActivity _ _) as [[i g]|]; reflexivity.
Qed.

Lemma milestoneTopUp_lastPointAward now config points u :
  User.lastPointAward u = Some now ->
  User.lastPointAward (milestoneTopUp now config points u) = Some now.
Proof.
  intros Hu. unfold milestoneTopUp.
  destruct (TaxConfig.enableMilestoneRewards config); [|done].
  cbv zeta. destruct (Qgtb _ 0); [|done]. apply awardPoints_lastPointAward.
Qed.

(** After a call that returned points, the sender's [lastPointAward] is the
    instant of the call. *)
Lemma processMessagePoints_stamps tz now config ctx text (db : Users) :
  (processMessagePoints tz now config ctx text db).1 <> 0 ->
  exists uid v,
    from ctx = Some uid
    /\ (processMessagePoints tz now config ctx text db).2 !! uid = Some v
    /\ User.lastPointAward v = Some now.
Proof.
  intros Hpos.
  destruct (processMessagePoints_awarded _ _ _ _ _ _ Hpos)
    as (uid & gid & u & u1 & Hfrom & Hchat & Hu & Hver & Hcool & Hd).
  rewrite (processMessagePoints_awards tz now config ctx text db uid gid u u1)
    by done.
  cbn [snd]. eexists uid, _. split; [done|].
  rewrite lookup_insert_eq. split; [reflexivity|].
  apply milestoneTopUp_lastPointAward.
  rewrite incrementMessages_lastPointAward. apply awardPoints_lastPointAward.
Qed.

(** ** Cooldown *)

(** C9. When the sender's [lastPointAward] is less than [cooldownSeconds]
    before the call, [processMessagePoints] returns 0 and writes nothing;
    so after a call that awarded points, a second call for the same sender
    less than [cooldownSeconds] later returns 0 and writes nothing; and a
    user without [lastPointAward] passes the cooldown gate. *)
Theorem cooldown_blocks_second_award (tz : Z) :
  (forall now config ctx text (db : Users) uid u last,
     from ctx = Some uid -> db !! uid = Some u ->
     User.lastPointAward u = Some last ->
     (inject_Z (now - last) < TaxConfig.cooldownSeconds config * 1000)%Q ->
     processMessagePoints tz now config ctx text db = (0, db))
  /\ (forall now1 config1 ctx1 text1 now2 config2 ctx2 text2 (db : Users),
        (processMessagePoints tz now1 config1 ctx1 text1 db).1 <> 0 ->
        from ctx2 = from ctx1 ->
        (inject_Z (now2 - now1) < TaxConfig.cooldownSeconds config2 * 1000)%Q ->
        processMessagePoints tz now2 config2 ctx2 text2
          (processMessagePoints tz now1 config1 ctx1 text1 db).2
        = (0, (processMessagePoints tz now1 config1 ctx1 text1 db).2))
  /\ (forall now config u,
        User.lastPointAward u = None -> canAwardPoints now u config = true).
Proof.
  assert (Hblock : forall now config ctx text (db : Users) uid u last,
     from ctx = Some uid -> db !! uid = Some u ->
     User.lastPointAward u = Some last ->
     (inject_Z (now - last) < TaxConfig.cooldownSeconds config * 1000)%Q ->
     processMessagePoints tz now config ctx text db = (0, db)).
  { intros now config ctx text db uid u last Hfrom Hu Hlast Hlt.
    rewrite processMessagePoints_unfold, Hfrom, Hu.
    destruct (chat ctx); [|done].
    destruct (negb (User.isVerified u)); [done|].
    unfold canAwardPoints. rewrite Hlast.
    apply Qgeb_lt in Hlt. by rewrite Hlt. }
  split; [exact Hblock|]. split.
  - intros now1 config1 ctx1 text1 now2 config2 ctx2 text2 db Hpos Hsame Hlt.
    destruct (processMessagePoints_stamps _ _ _ _ _ _ Hpos)
      as (uid & v & Hfrom & Hv & Hstamp).
    eapply Hblock; eauto. congruence.
  - intros now config u Hnone. unfold canAwardPoints. by rewrite Hnone.
Qed.

(** ** Daily cap *)

(** Rewriting some entry without changing its group does not change which
    entry [find] returns for a group. *)
Lemma findActivity_insert_same_group gid (l : list GroupActivity.t) j h h' i g :
  l !! j = Some h ->
  GroupActivity.groupId h' = GroupActivity.groupId h ->
  findActivity gid l = Some (i, g) ->
  findActivity gid (<[j := h']> l)
  = Some (i, if decide (i = j) then h' else g).
Proof.
  unfold findActivity. rewrite !list_find_Some.
  intros Hj Hgroup (Hi & Hg & Hfirst).
  assert (Hlen : (j < length l)%nat) by (by eapply lookup_lt_Some).
  split; [|split].
  - destruct (decide (i = j)) as [->|Hne].
    + by apply list_lookup_insert_eq.
    + by rewrite list_lookup_insert_ne.
  - destruct (decide (i = j)) as [->|Hne]; [|done]. congruence.
  - intros k y Hk Hlt. destruct (decide (j = k)) as [->|Hne].
    + rewrite list_lookup_insert_eq in Hk by done. injection Hk as <-.
      rewrite Hgroup. eauto.
    + rewrite list_lookup_insert_ne in Hk by done. eauto.
Qed.

Lemma awardPoints_entry now points groupId u gid i g :
  findActivity gid (User.groupActivity u) = Some (i, g) ->
  exists g',
    findActivity gid (User.groupActivity (awardPoints now points groupId u))
    = Some (i, g')
    /\ GroupActivity.dailyPoints g' = GroupActivity.dailyPoints g
    /\ GroupActivity.lastDailyReset g' = GroupActivity.lastDailyReset g.
Proof.
  intros Hfind. unfold awardPoints.
  destruct groupId as [k|]; [|by exists g].
  destruct (truthy k); [|by exists g].
  cbn [User.groupActivity User.set_lastPointAward User.set_lastActivityDate
       User.set_totalPointsEarned User.set_taxPoints].
  destruct (findActivity k (User.groupActivity u)) as [[j h]|] eqn:Hk;
    cbn [User.groupActivity User.set_groupActivity].
  - apply findActivity_Some in Hk as [Hj _].
    eexists. split.
    + eapply findActivity_insert_same_group; [exact Hj | reflexivity | done].
    + destruct (decide (i = j)) as [->|]; [|done].
      apply findActivity_Some in Hfind as [Hi _].
      assert (h = g) as -> by congruence. done.
  - exists g. split; [|done]. by apply list_find_app_l.
Qed.

Lemma incrementMessages_entry now groupId u gid i g :
  findActivity gid (User.groupActivity u) = Some (i, g) ->
  exists g',
    findActivity gid (User.groupActivity (incrementMessages now groupId u))
    = Some (i, g')
    /\ GroupActivity.dailyPoints g' = GroupActivity.dailyPoints g
    /\ GroupActivity.lastDailyReset g' = GroupActivity.lastDailyReset g.
Proof.
  intros Hfind. unfold incrementMessages.
  destruct groupId as [k|]; [|by exists g].
  destruct (truthy k); [|by exists g].
  cbn [User.groupActivity User.set_messagesCount].
  destruct (findActivity k (User.groupActivity u)) as [[j h]|] eqn:Hk;
    cbn [User.groupActivity User.set_groupActivity].
  - apply findActivity_Some in Hk as [Hj _].
    eexists. split.
    + eapply findActivity_insert_same_group; [exact Hj | reflexivity | done].
    + destruct (decide (i = j)) as [->|]; [|done].
      apply findActivity_Some in Hfind as [Hi _].
      assert (h = g) as -> by congruence. done.
  - exists g. split; [|done]. by apply list_find_app_l.
Qed.

Lemma milestoneTopUp_entry now config points u gid i g :
  findActivity gid (User.groupActivity u) = Some (i, g) ->
  exists g',
    findActivity gid (User.groupActivity (milestoneTopUp now config points u))
    = Some (i, g')
    /\ GroupActivity.dailyPoints g' = GroupActivity.dailyPoints g
    /\ GroupActivity.lastDailyReset g' = GroupActivity.lastDailyReset g.
Proof.
  intros Hfind. unfold milestoneTopUp.
  destruct (TaxConfig.enableMilestoneRewards config); [|by exists g].
  cbv zeta. destruct (Qgtb _ 0); [|by exists g].
  by apply awardPoints_entry.
Qed.

Lemma calculateMessagePoints_groupActivity tz now uid u text ctx gid config db :
  User.groupActivity
    (calculateMessagePoints tz now uid u text ctx gid config db).1.2
  = User.groupActivity u.
Proof.
  destruct (calculateMessagePoints_state tz now uid u text ctx gid config db)
    as [[-> _]|[-> _]]; [done | apply updateStreak_groupActivity].
Qed.

Lemma canAwardDailyPoints_stale tz now g config :
  staleEntry tz now g ->
  canAwardDailyPoints tz now g config
  = (true, GroupActivity.set_lastDailyReset (Some now)
             (GroupActivity.set_dailyPoints 0%Q g)).
Proof.
  unfold canAwardDailyPoints. intros [->|(reset & -> & Hlt)]; [done|].
  apply Z.ltb_lt in Hlt. by rewrite Hlt.
Qed.

Lemma canAwardDailyPoints_capped tz now g config reset :
  GroupActivity.lastDailyReset g = Some reset ->
  dayNumber tz reset = dayNumber tz now ->
  (TaxConfig.maxPointsPerDay config <= GroupActivity.dailyPoints g)%Q ->
  canAwardDailyPoints tz now g config = (false, g).
Proof.
  intros Hreset Hday Hcap. unfold canAwardDailyPoints. rewrite Hreset.
  destruct (Z.ltb_spec reset (startOfDay tz now)) as [Hlt|_].
  - apply before_startOfDay in Hlt. lia.
  - apply Qltb_ge in Hcap. by rewrite Hcap.
Qed.

(** A sender whose entry for the group is capped today gets 0, and nothing
    is written. *)
Lemma processMessagePoints_capped tz now config ctx text (db : Users)
    uid gid u i g reset :
  from ctx = Some uid -> chat ctx = Some gid -> db !! uid = Some u ->
  findActivity gid (User.groupActivity u) = Some (i, g) ->
  GroupActivity.lastDailyReset g = Some reset ->
  dayNumber tz reset = dayNumber tz now ->
  (TaxConfig.maxPointsPerDay config <= GroupActivity.dailyPoints g)%Q ->
  processMessagePoints tz now config ctx text db = (0, db).
Proof.
  intros Hfrom Hchat Hu Hfind Hreset Hday Hcap.
  rewrite processMessagePoints_unfold, Hfrom, Hchat, Hu.
  destruct (negb (User.isVerified u)); [done|].
  destruct (negb (canAwardPoints now u config)); [done|].
  unfold dailyCheck. rewrite Hfind.
  by rewrite (canAwardDailyPoints_capped tz now g config reset).
Qed.

(** C5. Take a stored user and the entry that [find] returns for a group.
    If the entry's [dailyPoints] has reached [maxPointsPerDay] and its reset
    date is on today's calendar day, every further [processMessagePoints]
    call of that day for that user and group returns 0 (and writes
    nothing).  If the reset date is absent or before today's midnight,
    [canAwardDailyPoints] resets the counter to 0, stamps the reset date and
    answers yes; a verified sender past the cooldown is then awarded at
    least one point, and the stored entry has [dailyPoints = 0] and the
    reset date [now]. *)
Theorem daily_cap_blocks_until_reset
    (tz : Z) (db : Users) (uid gid : Z) (u : User.t) (i : nat)
    (g : GroupActivity.t) :
  db !! uid = Some u ->
  findActivity gid (User.groupActivity u) = Some (i, g) ->
  (forall reset calls,
     GroupActivity.lastDailyReset g = Some reset ->
     Forall (λ c, from (call_ctx c) = Some uid
                  /\ chat (call_ctx c) = Some gid
                  /\ dayNumber tz (call_now c) = dayNumber tz reset
                  /\ (TaxConfig.maxPointsPerDay (call_config c)
                      <= GroupActivity.dailyPoints g)%Q) calls ->
     processMessages tz calls db = (replicate (length calls) 0, db))
  /\ (forall now config ctx text,
        staleEntry tz now g ->
        canAwardDailyPoints tz now g config
        = (true, GroupActivity.set_lastDailyReset (Some now)
                   (GroupActivity.set_dailyPoints 0%Q g))
        /\ (from ctx = Some uid -> chat ctx = Some gid ->
            User.isVerified u = true -> canAwardPoints now u config = true ->
            1 <= (processMessagePoints tz now config ctx text db).1
            /\ exists v g',
                 (processMessagePoints tz now config ctx text db).2 !! uid
                 = Some v
                 /\ findActivity gid (User.groupActivity v) = Some (i, g')
                 /\ GroupActivity.dailyPoints g' = 0%Q
                 /\ GroupActivity.lastDailyReset g' = Some now)).
Proof.
  intros Hu Hfind. split.
  - intros reset calls Hreset Hcalls.
    induction Hcalls as [|c rest (Hfrom & Hchat & Hday & Hcap) _ IH];
      [done|].
    cbn [processMessages length replicate].
    rewrite (processMessagePoints_capped tz (call_now c) (call_config c)
               (call_ctx c) (call_text c) db uid gid u i g reset) by done.
    cbn [fst snd]. by rewrite IH.
  - intros now config ctx text Hstale.
    pose proof (canAwardDailyPoints_stale tz now g config Hstale) as Hcan.
    split; [exact Hcan|]. intros Hfrom Hchat Hver Hcool.
    set (g0 := GroupActivity.set_lastDailyReset (Some now)
                 (GroupActivity.set_dailyPoints 0%Q g)) in *.
    set (u1 := User.set_groupActivity (<[i := g0]> (User.groupActivity u)) u).
    assert (Hdaily : dailyCheck tz now config gid u = (true, u1)).
    { unfold dailyCheck. by rewrite Hfind, Hcan. }
    rewrite (processMessagePoints_awards tz now config ctx text db uid gid u u1)
      by done.
    cbn [fst snd]. split; [apply calculateMessagePoints_ge_1|].
    rewrite lookup_insert_eq.
    assert (H1 : findActivity gid (User.groupActivity u1) = Some (i, g0)).
    { apply findActivity_insert with (g := g); [done|].
      by apply findActivity_Some in Hfind as [_ Hg]. }
    rewrite <- (calculateMessagePoints_groupActivity tz now uid u1 text ctx gid
                  config db) in H1.
    set (c := calculateMessagePoints tz now uid u1 text ctx gid config db)
      in *.
    destruct (awardPoints_entry now (inject_Z c.1.1) (Some gid) c.1.2 gid i g0
                H1) as (g1 & H2 & Hd1 & Hr1).
    destruct (incrementMessages_entry now (Some gid) _ gid i g1 H2)
      as (g2 & H3 & Hd2 & Hr2).
    destruct (milestoneTopUp_entry now config c.1.1 _ gid i g2 H3)
      as (g3 & H4 & Hd3 & Hr3).
    eexists _, g3. split; [reflexivity|]. split; [exact H4|].
    split; [by rewrite Hd3, Hd2, Hd1 | by rewrite Hr3, Hr2, Hr1].
Qed.

(** ** Time of day *)

Lemma getHours_range tz now : 0 <= getHours tz now < 24.
Proof. unfold getHours. apply Z.mod_pos_bound. lia. Qed.

Lemma inNightOwlWindow_iff (hour : Z) (nightOwl : NightOwl.t) :
  inNightOwlWindow hour nightOwl = true
  <-> (NightOwl.startHour nightOwl <= inject_Z hour)%Q
      \/ (inject_Z hour <= NightOwl.endHour nightOwl)%Q.
Proof.
  unfold inNightOwlWindow. rewrite orb_true_iff, Qgeb_ge, Qle_bool_iff.
  reflexivity.
Qed.

(** C10. The night-owl factor is applied exactly when the local hour [h]
    satisfies [h >= startHour] or [h <= endHour]: in that case the time
    multiplier is the weekend factor times the night-owl bonus (so on a
    weekend it is [weekendMultiplier * bonus], a product), otherwise it is
    the weekend factor alone.  With [startHour = 22] and [endHour = 6] the
    hours 23 and 1 are in the window and hour 12 is not. *)
Theorem nightOwl_window_wraps_midnight (tz now : Z) (config : TaxConfig.t) :
  let hour := getHours tz now in
  let nightOwl := TaxConfig.nightOwlBonus config in
  let weekendFactor :=
    if isWeekend tz now then TaxConfig.weekendMultiplier config else 1%Q in
  (getTimeMultiplier tz now config ==
   if inNightOwlWindow hour nightOwl
   then weekendFactor * NightOwl.bonus nightOwl
   else weekendFactor)%Q
  /\ (inNightOwlWindow hour nightOwl = true
      <-> (NightOwl.startHour nightOwl <= inject_Z hour)%Q
          \/ (inject_Z hour <= NightOwl.endHour nightOwl)%Q)
  /\ (forall bonus,
        inNightOwlWindow 23 (NightOwl.mk 22 6 bonus) = true
        /\ inNightOwlWindow 1 (NightOwl.mk 22 6 bonus) = true
        /\ inNightOwlWindow 12 (NightOwl.mk 22 6 bonus) = false).
Proof.
  cbv zeta. split; [|split].
  - unfold getTimeMultiplier.
    destruct (isWeekend tz now), (inNightOwlWindow _ _); ring.
  - apply inNightOwlWindow_iff.
  - intros bonus. repeat split.
Qed.

(** ** Milestones *)

Lemma Qltb_compat (x x' y y' : Q) :
  (x == x')%Q -> (y == y')%Q -> Qltb x y = Qltb x' y'.
Proof.
  intros Hx Hy. apply eq_true_iff_eq. rewrite !Qltb_lt, Hx, Hy. reflexivity.
Qed.

Lemma Qgeb_compat (x x' y y' : Q) :
  (x == x')%Q -> (y == y')%Q -> Qgeb x y = Qgeb x' y'.
Proof.
  intros Hx Hy. apply eq_true_iff_eq. rewrite !Qgeb_ge, Hx, Hy. reflexivity.
Qed.

Lemma checkMilestoneLoop_compat (old old' new new' : Q) table :
  (old == old')%Q -> (new == new')%Q ->
  checkMilestoneLoop old new table = checkMilestoneLoop old' new' table.
Proof.
  intros Hold Hnew. induction table as [|m rest IH]; [done|].
  cbn [checkMilestoneLoop].
  rewrite (Qltb_compat old old' _ (Milestone.points m)) by done.
  rewrite (Qgeb_compat new new' _ (Milestone.points m)) by done.
  by rewrite IH.
Qed.

Lemma straddles_test (old new : Q) (m : Milestone.t) :
  Qltb old (Milestone.points m) && Qgeb new (Milestone.points m) = true
  <-> straddles old new m.
Proof. unfold straddles. by rewrite andb_true_iff, Qltb_lt, Qgeb_ge. Qed.

(** [checkMilestone] returns the bonus of the first threshold of the table
    that the award crosses. *)
Lemma checkMilestoneLoop_first (old new : Q) table k m :
  firstStraddled old new table k m ->
  checkMilestoneLoop old new table = Milestone.bonus m.
Proof.
  revert k. induction table as [|m0 rest IH]; intros k (Hk & Hm & Hfirst).
  - by rewrite lookup_nil in Hk.
  - cbn [checkMilestoneLoop]. destruct k as [|k].
    + assert (m0 = m) as -> by (cbn in Hk; congruence).
      apply straddles_test in Hm. by rewrite Hm.
    + assert (Hm0 : ~ straddles old new m0) by (apply (Hfirst 0%nat); [done|lia]).
      rewrite <- straddles_test in Hm0. apply not_true_is_false in Hm0.
      rewrite Hm0. apply (IH k). split; [done|]. split; [done|].
      intros j m' Hj Hlt. apply (Hfirst (S j)); [done | lia].
Qed.

(** It returns 0 when the award crosses no threshold of the table. *)
Lemma checkMilestoneLoop_none (old new : Q) table :
  (forall m, m ∈ table -> ~ straddles old new m) ->
  checkMilestoneLoop old new table = 0%Q.
Proof.
  induction table as [|m0 rest IH]; intros Hnone; [done|].
  cbn [checkMilestoneLoop].
  assert (Hm0 : ~ straddles old new m0) by (apply Hnone; left).
  rewrite <- straddles_test in Hm0. apply not_true_is_false in Hm0.
  rewrite Hm0. apply IH. intros m Hm. apply Hnone. by right.
Qed.

Lemma sortedBy_cons {A : Type} (key : A -> Q) (x : A) (l : list A) :
  sortedBy key (x :: l)
  <-> Forall (λ y, (key x <= key y)%Q) l /\ sortedBy key l.
Proof.
  split.
  - intros Hs. split.
    + apply Forall_lookup. intros i y Hi.
      apply (Hs 0%nat (S i) x y); [done | done | lia].
    + intros a b xa xb Ha Hb Hab.
      apply (Hs (S a) (S b) xa xb); [done | done | lia].
  - intros [Hx Hs] a b xa xb Ha Hb Hab.
    destruct a as [|a], b as [|b]; cbn in Ha, Hb.
    + injection Ha as <-. injection Hb as <-. apply Qle_refl.
    + injection Ha as <-. by apply (proj1 (Forall_lookup _ _) Hx b).
    + lia.
    + apply (Hs a b); [done | done | lia].
Qed.

Lemma insertByKey_Forall {A : Type} (key : A -> Q) (P : A -> Prop) x l :
  P x -> Forall P l -> Forall P (insertByKey key x l).
Proof.
  intros Hx Hl. induction Hl as [|y rest Hy Hrest IH]; cbn [insertByKey].
  - by repeat constructor.
  - destruct (Qle_bool (key x) (key y)); by repeat constructor.
Qed.

Lemma insertByKey_sorted {A : Type} (key : A -> Q) x l :
  sortedBy key l -> sortedBy key (insertByKey key x l).
Proof.
  induction l as [|y rest IH]; intros Hs; cbn [insertByKey].
  - apply sortedBy_cons. split; [constructor|]. intros a b xa xb Ha.
    by rewrite lookup_nil in Ha.
  - apply sortedBy_cons in Hs as [Hy Hrest].
    destruct (Qle_bool (key x) (key y)) eqn:Hxy.
    + apply Qle_bool_iff in Hxy. apply sortedBy_cons. split.
      * constructor; [done|]. eapply Forall_impl; [exact Hy|].
        cbn. intros z Hz. by eapply Qle_trans.
      * by apply sortedBy_cons.
    + apply sortedBy_cons. split; [|by apply IH].
      apply insertByKey_Forall; [|done].
      apply Qlt_le_weak, Qnot_le_lt. intros Hle.
      apply Qle_bool_iff in Hle. congruence.
Qed.

(** What [validateConfigUpdates] stores as a table is in increasing order. *)
Lemma sortByKey_sorted {A : Type} (key : A -> Q) (l : list A) :
  sortedBy key (sortByKey key l).
Proof.
  unfold sortByKey. induction l as [|x rest IH]; cbn [foldr].
  - intros a b xa xb Ha. by rewrite lookup_nil in Ha.
  - by apply insertByKey_sorted.
Qed.

Lemma validateConfigUpdates_milestones_sorted updates table :
  ConfigUpdates.milestoneRewards (validateConfigUpdates updates) = Some table ->
  sortedBy Milestone.points table.
Proof.
  cbn [validateConfigUpdates ConfigUpdates.milestoneRewards].
  destruct (ConfigUpdates.milestoneRewards updates) as [t|]; [|done].
  destruct (forallb validMilestone t); [|done].
  intros [= <-]. apply sortByKey_sorted.
Qed.

(** In a table sorted by threshold, the first crossed threshold is the
    lowest crossed one. *)
Lemma firstStraddled_lowest (old new : Q) table k m :
  sortedBy Milestone.points table ->
  firstStraddled old new table k m ->
  forall m', m' ∈ table -> straddles old new m' ->
    (Milestone.points m <= Milestone.points m')%Q.
Proof.
  intros Hsorted (Hk & _ & Hfirst) m' Hin Hm'.
  apply list_elem_of_lookup in Hin as [j Hj].
  destruct (decide (j < k)%nat) as [Hlt|Hge].
  - destruct (Hfirst j m' Hj Hlt Hm').
  - apply (Hsorted k j); [done | done | lia].
Qed.

Lemma awardPoints_taxPoints now points groupId u :
  User.taxPoints (awardPoints now points groupId u)
  = (User.taxPoints u + points)%Q.
Proof.
  unfold awardPoints. destruct groupId as [gid|]; [|reflexivity].
  destruct (truthy gid); [|reflexivity].
  destruct (findActivity _ _) as [[i g]|]; reflexivity.
Qed.

Lemma incrementMessages_taxPoints now groupId u :
  User.taxPoints (incrementMessages now groupId u) = User.taxPoints u.
Proof.
  unfold incrementMessages. destruct groupId as [gid|]; [|reflexivity].
  destruct (truthy gid); [|reflexivity].
  destruct (findActivity _ _) as [[i g]|]; reflexivity.
Qed.

Lemma updateStreak_taxPoints tz now u :
  User.taxPoints (updateStreak tz now u) = User.taxPoints u.
Proof.
  unfold updateStreak. destruct (User.lastStreakDate u); [|reflexivity].
  destruct (_ =? 1); [reflexivity|]. destruct (1 <? _); reflexivity.
Qed.

Lemma dailyCheck_taxPoints tz now config gid u :
  User.taxPoints (dailyCheck tz now config gid u).2 = User.taxPoints u.
Proof.
  unfold dailyCheck.
  destruct (findActivity gid (User.groupActivity u)) as [[i g]|]; [|done].
  by destruct (canAwardDailyPoints tz now g config).
Qed.

Lemma calculateMessagePoints_taxPoints tz now uid u text ctx gid config db :
  User.taxPoints
    (calculateMessagePoints tz now uid u text ctx gid config db).1.2
  = User.taxPoints u.
Proof.
  destruct (calculateMessagePoints_state tz now uid u text ctx gid config db)
    as [[-> _]|[-> _]]; [done | apply updateStreak_taxPoints].
Qed.

(** The sender's balance after a call that returned points: the balance
    before, plus the points, plus what the milestone step added. *)
Lemma processMessagePoints_balance tz now config ctx text (db : Users) uid u :
  from ctx = Some uid -> db !! uid = Some u ->
  (processMessagePoints tz now config ctx text db).1 <> 0 ->
  exists u3,
    User.taxPoints u3
    = (User.taxPoints u
       + inject_Z (processMessagePoints tz now config ctx text db).1)%Q
    /\ (processMessagePoints tz now config ctx text db).2 !! uid
       = Some (milestoneTopUp now config
                 (processMessagePoints tz now config ctx text db).1 u3).
Proof.
  intros Hfrom Hu Hpos.
  destruct (processMessagePoints_awarded _ _ _ _ _ _ Hpos)
    as (uid' & gid & u' & u1 & Hfrom' & Hchat & Hu' & Hver & Hcool & Hd).
  assert (uid' = uid) as -> by congruence.
  assert (u' = u) as -> by congruence.
  rewrite (processMessagePoints_awards tz now config ctx text db uid gid u u1)
    by done.
  cbn [fst snd]. eexists. split; [|by rewrite lookup_insert_eq].
  rewrite incrementMessages_taxPoints, awardPoints_taxPoints,
    calculateMessagePoints_taxPoints.
  replace u1 with (dailyCheck tz now config gid u).2 by (by rewrite Hd).
  by rewrite dailyCheck_taxPoints.
Qed.

(** C2, as the code has it.  Take a call that awards points and takes the
    sender's balance from [old] to [new].  With [enableMilestoneRewards] on:
    if the award crosses a threshold, the balance is topped up, in the same
    call and with no further cooldown or daily check, by the bonus of the
    first crossed threshold of the table (a positive bonus, as the schema
    requires), so that it ends at [new + bonus], one bonus and no more; that
    threshold is the lowest crossed one when the table is sorted by
    threshold; and if the award crosses no threshold the balance stays at
    [new].  With [enableMilestoneRewards] off the balance stays at [new]. *)
Theorem milestone_bonus_when_enabled
    (tz now : Z) (config : TaxConfig.t) (ctx : Context) (text : string)
    (db : Users) (uid : Z) (u : User.t) :
  from ctx = Some uid -> db !! uid = Some u ->
  (processMessagePoints tz now config ctx text db).1 <> 0 ->
  let r := processMessagePoints tz now config ctx text db in
  let old := User.taxPoints u in
  let new := (User.taxPoints u + inject_Z r.1)%Q in
  let table := TaxConfig.milestoneRewards config in
  exists v,
    r.2 !! uid = Some v
    /\ (TaxConfig.enableMilestoneRewards config = true ->
        (forall k m,
           firstStraddled old new table k m ->
           ((0 < Milestone.bonus m)%Q ->
            (User.taxPoints v == new + Milestone.bonus m)%Q)
           /\ (sortedBy Milestone.points table ->
               forall m', m' ∈ table -> straddles old new m' ->
                 (Milestone.points m <= Milestone.points m')%Q))
        /\ ((forall m, m ∈ table -> ~ straddles old new m) ->
            (User.taxPoints v == new)%Q))
    /\ (TaxConfig.enableMilestoneRewards config = false ->
        (User.taxPoints v == new)%Q).
Proof.
  intros Hfrom Hu Hpos. cbv zeta.
  destruct (processMessagePoints_balance tz now config ctx text db uid u
              Hfrom Hu Hpos) as (u3 & Hbal & Hlook).
  set (p := (processMessagePoints tz now config ctx text db).1) in *.
  eexists. split; [exact Hlook|].
  unfold milestoneTopUp, checkMilestone. split.
  - intros ->. cbv zeta.
    rewrite (checkMilestoneLoop_compat (User.taxPoints u3 - inject_Z p)
               (User.taxPoints u) (User.taxPoints u3)
               (User.taxPoints u + inject_Z p))
      by (rewrite Hbal; ring).
    split.
    + intros k m Hfirst. split.
      * intros Hbonus. rewrite (checkMilestoneLoop_first _ _ _ k m Hfirst).
        apply Qgtb_gt in Hbonus. rewrite Hbonus.
        rewrite awardPoints_taxPoints, Hbal. reflexivity.
      * intros Hsorted. by eapply firstStraddled_lowest.
    + intros Hnone. rewrite (checkMilestoneLoop_none _ _ _ Hnone).
      change (Qgtb 0 0) with false. cbv iota. rewrite Hbal. reflexivity.
  - intros ->. rewrite Hbal. reflexivity.
Qed.

(** ** Short messages *)

(** Whatever the text, a message of a verified sender that passes the
    cooldown and the daily check is awarded at least one point: the
    [points <= 0] exit of [processMessagePoints] is never taken. *)
Lemma processMessagePoints_at_least_1 tz now config ctx text (db : Users)
    uid gid u u1 :
  from ctx = Some uid -> chat ctx = Some gid -> db !! uid = Some u ->
  User.isVerified u = true -> canAwardPoints now u config = true ->
  dailyCheck tz now config gid u = (true, u1) ->
  1 <= (processMessagePoints tz now config ctx text db).1.
Proof.
  intros Hfrom Hchat Hu Hver Hcool Hd.
  rewrite (processMessagePoints_awards tz now config ctx text db uid gid u u1)
    by done.
  apply calculateMessagePoints_ge_1.
Qed.

Lemma getQualityMultiplier_short text config :
  (inject_Z (Z.of_nat (String.length text))
   < TaxConfig.minMessageLength config)%Q ->
  getQualityMultiplier text config = 0%Q.
Proof.
  intros Hshort. unfold getQualityMultiplier.
  apply Qltb_lt in Hshort. by rewrite Hshort.
Qed.

(** C1, on the code.  With the default configuration (quality multiplier
    enabled, [minMessageLength = 5]), the two-character message [hi] of a
    verified member past the cooldown has quality multiplier 0, and yet
    [processMessagePoints] returns 1 and raises the balance from 100 to
    101: the zero is floored to 1 by the final [Math.max(1, ...)].  When
    [hi] is the member's first message of the day in the group, the daily
    bonus is added after the zero and the call returns 50. *)
Theorem short_message_is_awarded :
  (inject_Z (Z.of_nat (String.length "hi"))
   < TaxConfig.minMessageLength Example.config)%Q
  /\ TaxConfig.enableQualityMultiplier Example.config = true
  /\ getQualityMultiplier "hi" Example.config = 0%Q
  /\ (processMessagePoints 0 Example.noon Example.config Example.message "hi"
        (Example.users 100 0 None)).1 = 1
  /\ User.taxPoints <$>
       (processMessagePoints 0 Example.noon Example.config Example.message
          "hi" (Example.users 100 0 None)).2 !! 42
     = Some 101%Q
  /\ (processMessagePoints 0 Example.noon Example.config Example.message "hi"
        {[ 42 := Example.newcomer ]}).1 = 50.
Proof. repeat split; by_computation. Qed.

(** ** Examples and instances *)

(** The numbers of the specification: from 950 to 1050 the threshold 1000
    is crossed and its bonus returned; from 1050 to 1100 nothing is. *)
Example checkMilestone_950_1050 :
  checkMilestone 950 1050 Example.config = 100%Q
  /\ checkMilestone 1050 1100 Example.config = 0%Q.
Proof. split; reflexivity. Qed.

(** C2 as worded fails when milestone rewards are turned off: member 42
    goes from 999 to 1001 across the threshold 1000 and ends at 1001, not
    at 1101. *)
Lemma milestone_bonus_not_when_disabled :
  ~ milestone_bonus_always 0 Example.noon Example.configNoMilestones
      Example.message "hello" (Example.users 999 0 None).
Proof.
  intros Hclaim.
  destruct (Hclaim 42 (Example.member 999 0 None) 0%nat
              (Milestone.mk 1000 100)) as (v & Hv & Hbal).
  - reflexivity.
  - reflexivity.
  - by_computation.
  - split; [reflexivity|]. split.
    + split; by_computation.
    + intros j m' _ Hlt. lia.
  - vm_compute in Hv. injection Hv as <-. vm_compute in Hbal. discriminate.
Qed.

Lemma milestone_bonus_when_enabled_witness :
  from Example.message = Some 42
  /\ Example.users 999 0 None !! 42 = Some (Example.member 999 0 None)
  /\ (processMessagePoints 0 Example.noon Example.config Example.message
        "hello" (Example.users 999 0 None)).1 <> 0
  /\ exists v,
       (processMessagePoints 0 Example.noon Example.config Example.message
          "hello" (Example.users 999 0 None)).2 !! 42 = Some v
       /\ (User.taxPoints v == 1101)%Q.
Proof.
  assert (H2 : from Example.message = Some 42) by reflexivity.
  assert (H3 : Example.users 999 0 None !! 42
               = Some (Example.member 999 0 None)) by reflexivity.
  assert (H4 : (processMessagePoints 0 Example.noon Example.config
                  Example.message "hello" (Example.users 999 0 None)).1 <> 0)
    by by_computation.
  repeat (split; [assumption|]).
  destruct (milestone_bonus_when_enabled 0 Example.noon Example.config
              Example.message "hello" (Example.users 999 0 None) 42
              (Example.member 999 0 None) H2 H3 H4) as (v & Hv & Hon & _).
  exists v. split; [exact Hv|].
  destruct (Hon eq_refl) as [Hfirst _].
  rewrite (proj1 (Hfirst 0%nat (Milestone.mk 1000 100) ltac:(
             split; [reflexivity|]; split;
             [split; by_computation | intros j m' _ Hlt; lia]))).
  - by_computation.
  - by_computation.
Defined.

Lemma awardPoints_keeps_taxPoints_le_total_witness :
  Qle (User.taxPoints (Example.member 999 0 None))
      (User.totalPointsEarned (Example.member 999 0 None))
  /\ Qle (User.taxPoints
            (awardPoints Example.noon 50 (Some 7) (Example.member 999 0 None)))
         (User.totalPointsEarned
            (awardPoints Example.noon 50 (Some 7)
               (Example.member 999 0 None))).
Proof.
  assert (H : Qle (User.taxPoints (Example.member 999 0 None))
                  (User.totalPointsEarned (Example.member 999 0 None)))
    by by_computation.
  split; [exact H|].
  exact (proj1 (proj2 (proj2
           (awardPoints_keeps_taxPoints_le_total Example.noon 50 (Some 7)
              (Example.member 999 0 None) H)))).
Defined.

(** A member with a streak of 4, last counted on 8 March 2026 at 13:00
    in New York, writes at noon on 9 March, or at noon on 10 March. *)
Lemma updateStreak_misses_short_day_witness :
  let u :=
    User.set_lastStreakDate (Some 1772989200000)
      (User.set_dailyStreak 4 (Example.member 999 0 None)) in
  User.dailyStreak (updateStreak newYork2026 1773072000000 u) = 4
  /\ User.dailyStreak (updateStreak newYork2026 1773158400000 u) = 5.
Proof.
  cbv zeta. split.
  - exact (proj1 (updateStreak_misses_short_day
                    (User.set_lastStreakDate (Some 1772989200000)
                       (User.set_dailyStreak 4 (Example.member 999 0 None)))
                    1772989200000 1773072000000 eq_refl eq_refl) eq_refl).
  - exact (proj2 (updateStreak_misses_short_day
                    (User.set_lastStreakDate (Some 1772989200000)
                       (User.set_dailyStreak 4 (Example.member 999 0 None)))
                    1772989200000 1773158400000 eq_refl eq_refl) eq_refl).
Defined.

Lemma cooldown_blocks_second_award_witness :
  (processMessagePoints 0 Example.noon Example.config Example.message
     "hello" (Example.users 100 0 None)).1 <> 0
  /\ (inject_Z (Example.noon + 5000 - Example.noon)
      < TaxConfig.cooldownSeconds Example.config * 1000)%Q
  /\ processMessagePoints 0 (Example.noon + 5000) Example.config
       Example.message "hello again"
       (processMessagePoints 0 Example.noon Example.config Example.message
          "hello" (Example.users 100 0 None)).2
     = (0, (processMessagePoints 0 Example.noon Example.config
              Example.message "hello" (Example.users 100 0 None)).2).
Proof.
  assert (H1 : (processMessagePoints 0 Example.noon Example.config
                  Example.message "hello" (Example.users 100 0 None)).1 <> 0)
    by by_computation.
  assert (H2 : (inject_Z (Example.noon + 5000 - Example.noon)
                < TaxConfig.cooldownSeconds Example.config * 1000)%Q)
    by by_computation.
  split; [exact H1|]. split; [exact H2|].
  exact (proj1 (proj2 (cooldown_blocks_second_award 0))
           Example.noon Example.config Example.message "hello"%string
           (Example.noon + 5000) Example.config Example.message
           "hello again"%string
           (Example.users 100 0 None) H1 eq_refl H2).
Defined.

(** Member 42 is capped in group 7 since an hour before noon: two more
    messages that day earn nothing.  With the reset date a day old, the
    counter is reset and the message is awarded. *)
Lemma daily_cap_blocks_until_reset_witness :
  processMessages 0
    [mkCall Example.noon Example.config Example.message "hello";
     mkCall (Example.noon + 3600000) Example.config Example.message "again"]
    (Example.users 999 500 (Some (Example.noon - 3600000)))
  = ([0; 0], Example.users 999 500 (Some (Example.noon - 3600000)))
  /\ 1 <= (processMessagePoints 0 Example.noon Example.config
             Example.message "hello"
             (Example.users 999 500 (Some (Example.noon - msPerDay)))).1.
Proof.
  split.
  - refine (proj1 (daily_cap_blocks_until_reset 0
                     (Example.users 999 500 (Some (Example.noon - 3600000)))
                     42 7 (Example.member 999 500 (Some (Example.noon - 3600000)))
                     0%nat _ eq_refl eq_refl)
              (Example.noon - 3600000)
              [mkCall Example.noon Example.config Example.message "hello";
               mkCall (Example.noon + 3600000) Example.config Example.message
                 "again"] eq_refl _).
    repeat constructor; by_computation.
  - refine (proj1 (proj2 (proj2 (daily_cap_blocks_until_reset 0
                     (Example.users 999 500 (Some (Example.noon - msPerDay)))
                     42 7 (Example.member 999 500 (Some (Example.noon - msPerDay)))
                     0%nat _ eq_refl eq_refl)
              Example.noon Example.config Example.message "hello"%string _)
              eq_refl eq_refl eq_refl _)).
    + right. exists (Example.noon - msPerDay). split; by_computation.
    + by_computation.
Defined.

Lemma dailyPoints_never_incremented_witness :
  (processMessagePoints 0 Example.noon Example.config Example.message
     "hello" (Example.users 999 0 None)).1 = 2
  /\ exists u,
       Example.users 999 0 None !! 42 = Some u
       /\ dailyPoints_not_raised (User.groupActivity u)
            [GroupActivity.mk 7 4 42 (Some Example.noon) 0
               (Some Example.noon)].
Proof.
  split; [by_computation|].
  refine (proj1 (proj2 (proj2 (proj2 (proj2
            (dailyPoints_never_incremented 0 Example.noon Example.config)))))
            Example.message "hello"%string (Example.users 999 0 None) 42
            (User.mk (Some "ann"%string) "Ann" None true (Some 1000) 0 [7]
               1101 1101 (Some Example.noon) 4 1 (Some (Example.noon - 60000))
               (Some Example.noon)
               [GroupActivity.mk 7 4 42 (Some Example.noon) 0
                  (Some Example.noon)]) _).
  by_computation.
Defined.

(** Saturday 10 January 1970 at 23:00 UTC: a weekend hour inside the
    default window, so both factors apply. *)
Lemma nightOwl_window_wraps_midnight_witness :
  getHours 0 860400000 = 23
  /\ isWeekend 0 860400000 = true
  /\ (getTimeMultiplier 0 860400000 Example.config == 1.3 * 1.2)%Q
  /\ ((22 <= inject_Z 23)%Q \/ (inject_Z 23 <= 6)%Q).
Proof.
  split; [reflexivity|]. split; [reflexivity|]. split.
  - exact (proj1 (nightOwl_window_wraps_midnight 0 860400000 Example.config)).
  - exact (proj1 (proj1 (proj2
             (nightOwl_window_wraps_midnight 0 860400000 Example.config)))
             eq_refl).
Defined.

(** ** Configuration versions *)

Lemma findActiveLatest_Some store c :
  findActiveLatest store = Some c -> c ∈ store /\ TaxConfig.isActive c = true.
Proof.
  revert c. induction store as [|d rest IH]; intros c; [done|].
  cbn [findActiveLatest]. destruct (TaxConfig.isActive d) eqn:Hd.
  - destruct (findActiveLatest rest) as [e|].
    + destruct (TaxConfig.version d <? TaxConfig.version e); intros [= <-].
      * destruct (IH e eq_refl). split; [by right | done].
      * split; [by left | done].
    + intros [= <-]. split; [by left | done].
  - intros Hc. destruct (IH c Hc). split; [by right | done].
Qed.

(** Creating a document and deactivating all the others: the old slots
    hold the old documents with the flag cleared, the new slot the new
    document. *)
Lemma deactivateOthers_create (store : Configs) (c : TaxConfig.t) :
  deactivateOthers (length store) (store ++ [c])
  = (deactivate <$> store) ++ [c].
Proof.
  unfold deactivateOthers. rewrite imap_app. f_equal.
  - rewrite <- (imap_const deactivate). apply imap_ext.
    intros i x Hi. apply lookup_lt_Some in Hi.
    rewrite decide_False by lia. reflexivity.
  - cbn. rewrite decide_True by lia. reflexivity.
Qed.

Lemma activeVersions_deactivated (store : Configs) :
  activeVersions (deactivate <$> store) = [].
Proof.
  unfold activeVersions. induction store as [|c rest IH]; [done|].
  cbn [fmap list_fmap]. rewrite filter_cons_False; [exact IH|]. by cbn.
Qed.

Lemma activeVersions_create (store : Configs) (c : TaxConfig.t) :
  TaxConfig.isActive c = true ->
  activeVersions ((deactivate <$> store) ++ [c]) = [c].
Proof.
  intros Hc. unfold activeVersions. rewrite filter_app.
  fold (activeVersions (deactivate <$> store)).
  rewrite activeVersions_deactivated. cbn [app].
  rewrite filter_cons_True by done. reflexivity.
Qed.

(** Clearing the flag changes no other field: putting the old flag back
    gives the old document. *)
Lemma deactivate_only_flag (c : TaxConfig.t) :
  set_isActive (TaxConfig.isActive c) (deactivate c) = c.
Proof. by destruct c. Qed.

Lemma maxVersion_ge_first (first : Z) (others : list Z) :
  first <= maxVersion first others.
Proof.
  unfold maxVersion. revert first.
  induction others as [|v vs IH]; intros first; cbn [foldl]; [lia|].
  specialize (IH (Z.max first v)). lia.
Qed.

Lemma maxVersion_ge_others (first : Z) (others : list Z) v :
  v ∈ others -> v <= maxVersion first others.
Proof.
  unfold maxVersion. revert first.
  induction others as [|w ws IH]; intros first Hv; [by apply elem_of_nil in Hv|].
  cbn [foldl]. apply elem_of_cons in Hv as [->|Hv].
  - pose proof (maxVersion_ge_first (Z.max first w) ws) as Hge.
    unfold maxVersion in Hge. lia.
  - by apply IH.
Qed.

Lemma maxVersion_elem (first : Z) (others : list Z) :
  maxVersion first others ∈ first :: others.
Proof.
  unfold maxVersion. revert first.
  induction others as [|v vs IH]; intros first; cbn [foldl]; [by left|].
  specialize (IH (Z.max first v)).
  apply elem_of_cons in IH as [Heq|Hin].
  - rewrite Heq. destruct (Z.max_spec first v) as [[_ ->]|[_ ->]];
      [right; left | left].
  - right. by right.
Qed.

(** C4. A successful [updateConfig] appends a version numbered one more
    than the active version it started from, and a successful
    [revertToVersion] appends a version numbered one more than the greatest
    stored number, hence never the number asked for.  In both cases every version
    stored before keeps its slot and all its fields except that [isActive]
    is cleared, and the appended version is the only one with
    [isActive = true]. *)
Theorem config_update_appends_version
    (now : Z) (updatedBy : option Z) (store : Configs) :
  (forall updates newConfig store',
     updateConfig now updates updatedBy store = Ok (newConfig, store') ->
     (exists current,
        findActiveLatest store = Some current
        /\ TaxConfig.version newConfig = TaxConfig.version current + 1)
     /\ store' = (deactivate <$> store) ++ [newConfig]
     /\ (forall i c, store !! i = Some c ->
           exists c', store' !! i = Some c'
             /\ TaxConfig.isActive c' = false
             /\ set_isActive (TaxConfig.isActive c) c' = c)
     /\ activeVersions store' = [newConfig])
  /\ (forall version reverted store',
        revertToVersion now version updatedBy store = Ok (reverted, store') ->
        (exists c, c ∈ store
           /\ TaxConfig.version reverted = TaxConfig.version c + 1)
        /\ (forall c, c ∈ store ->
              TaxConfig.version c < TaxConfig.version reverted)
        /\ TaxConfig.version reverted <> version
        /\ store' = (deactivate <$> store) ++ [reverted]
        /\ (forall i c, store !! i = Some c ->
              exists c', store' !! i = Some c'
                /\ TaxConfig.isActive c' = false
                /\ set_isActive (TaxConfig.isActive c) c' = c)
        /\ activeVersions store' = [reverted]).
Proof.
  assert (Hold : forall (c0 : TaxConfig.t) i c, store !! i = Some c ->
            exists c', ((deactivate <$> store) ++ [c0]) !! i = Some c'
              /\ TaxConfig.isActive c' = false
              /\ set_isActive (TaxConfig.isActive c) c' = c).
  { intros c0 i c Hi. exists (deactivate c). split; [|split].
    - rewrite lookup_app_l
        by (rewrite length_fmap; by eapply lookup_lt_Some).
      by rewrite list_lookup_fmap, Hi.
    - reflexivity.
    - apply deactivate_only_flag. }
  split.
  - intros updates newConfig store'. unfold updateConfig.
    destruct (findActiveLatest store) as [current|] eqn:Hcur; [|done].
    rewrite deactivateOthers_create. intros [= <- <-].
    apply findActiveLatest_Some in Hcur as Hact. destruct Hact as [_ Hact].
    split; [by exists current|]. split; [done|]. split.
    + apply Hold.
    + by apply activeVersions_create.
  - intros version reverted store'. unfold revertToVersion.
    destruct (List.find _ store) as [target|] eqn:Hfind; [|done].
    rewrite deactivateOthers_create. intros [= <- <-].
    assert (Hnew : forall c, c ∈ store ->
              TaxConfig.version c
              < match TaxConfig.version <$> store with
                | v :: vs => maxVersion v vs + 1
                | [] => 1
                end).
    { intros c Hc.
      assert (Hv : TaxConfig.version c ∈ TaxConfig.version <$> store)
        by (by apply list_elem_of_fmap_2).
      destruct (TaxConfig.version <$> store) as [|v vs];
        [by apply elem_of_nil in Hv|].
      apply elem_of_cons in Hv as [->|Hv].
      - pose proof (maxVersion_ge_first v vs). lia.
      - pose proof (maxVersion_ge_others v vs _ Hv). lia. }
    split.
    { cbn [TaxConfig.version set_isActive stamp].
      apply find_some in Hfind as [Hin _]. apply list_elem_of_In in Hin.
      assert (Hv : TaxConfig.version target ∈ TaxConfig.version <$> store)
        by (by apply list_elem_of_fmap_2).
      destruct (TaxConfig.version <$> store) as [|v vs] eqn:Hvs;
        [by apply elem_of_nil in Hv|].
      pose proof (maxVersion_elem v vs) as Hmax. rewrite <- Hvs in Hmax.
      apply list_elem_of_fmap in Hmax as (c & Hc & Hcin).
      exists c. split; [done | by rewrite Hc]. }
    split; [exact Hnew|]. split; [|split; [done|split]].
    + apply find_some in Hfind as [Hin Hver].
      apply Z.eqb_eq in Hver. apply list_elem_of_In in Hin.
      specialize (Hnew target Hin). cbn [TaxConfig.version set_isActive stamp].
      lia.
    + apply Hold.
    + by apply activeVersions_create.
Qed.

(** ** The join challenge *)

Lemma pendingUnique_complete (l : list Session.t) i s :
  pendingUnique l -> l !! i = Some s ->
  pendingUnique (<[i := Session.set_isCompleted true s]> l).
Proof.
  intros Huniq Hi a b sa sb Ha Hb Hpa Hpb Hu Hg Hc.
  assert (Hlen : (i < length l)%nat) by (by eapply lookup_lt_Some).
  destruct (decide (i = a)) as [->|Hia].
  { rewrite list_lookup_insert_eq in Ha by done. injection Ha as <-.
    discriminate Hpa. }
  destruct (decide (i = b)) as [->|Hib].
  { rewrite list_lookup_insert_eq in Hb by done. injection Hb as <-.
    discriminate Hpb. }
  rewrite list_lookup_insert_ne in Ha by done.
  rewrite list_lookup_insert_ne in Hb by done.
  by eapply Huniq.
Qed.

(** A session created with a code that no stored session carries keeps
    tokens unambiguous. *)
Lemma pendingUnique_create (l : list Session.t) (s0 : Session.t) :
  pendingUnique l ->
  (forall s, s ∈ l ->
     Session.verificationCode s <> Session.verificationCode s0) ->
  pendingUnique (l ++ [s0]).
Proof.
  intros Huniq Hfresh a b sa sb Ha Hb Hpa Hpb Hu Hg Hc.
  apply lookup_app_Some in Ha as [Ha|[Hla Ha]];
    apply lookup_app_Some in Hb as [Hb|[Hlb Hb]].
  - by eapply Huniq.
  - destruct (b - length l)%nat eqn:Hd; [|done]. cbn in Hb.
    injection Hb as <-. destruct (Hfresh sa); [|done].
    by eapply list_elem_of_lookup_2.
  - destruct (a - length l)%nat eqn:Hd; [|done]. cbn in Ha.
    injection Ha as <-. destruct (Hfresh sb); [|done].
    by eapply list_elem_of_lookup_2.
  - destruct (a - length l)%nat eqn:Hda; [|done].
    destruct (b - length l)%nat eqn:Hdb; [|done]. lia.
Qed.

Lemma handleVerificationTimeout_pendingUnique telegramOk groupId userId st :
  pendingUnique (sessions st) ->
  pendingUnique (sessions (handleVerificationTimeout telegramOk groupId userId
                             st)).
Proof.
  intros Huniq. unfold handleVerificationTimeout.
  destruct (list_find _ _) as [[i s]|] eqn:Hfind; [|done].
  destruct (negb telegramOk); [done|]. cbn [sessions].
  apply list_find_Some in Hfind as [Hi _]. by apply pendingUnique_complete.
Qed.

(** Issuing a challenge keeps tokens unambiguous as long as the new token
    differs from the stored codes (it embeds the instant of the join). *)
Lemma handleNewUser_pendingUnique (numberToString : Z -> string)
    now telegramOk chat member promptId st :
  pendingUnique (sessions st) ->
  (forall chatId s, chat = Some chatId -> s ∈ sessions st ->
     Session.verificationCode s
     <> verificationToken numberToString (id member) chatId now) ->
  pendingUnique
    (sessions (handleNewUser numberToString now telegramOk chat member
                 promptId st)).
Proof.
  intros Huniq Hfresh. unfold handleNewUser.
  destruct chat as [chatId|]; [|done].
  destruct (negb telegramOk); [done|]. cbn [sessions].
  apply pendingUnique_create; [done|]. intros s Hs. by apply Hfresh.
Qed.

Lemma findSession_Some userId groupId code (l : list Session.t) i s :
  findSession userId groupId code l = Some (i, s) ->
  l !! i = Some s /\ pendingFor userId groupId code s.
Proof. unfold findSession. rewrite list_find_Some. tauto. Qed.

(** Once the only pending session of a token is completed, no pending
    session of that token is left. *)
Lemma findSession_completed userId groupId code (l : list Session.t) i s :
  findSession userId groupId code l = Some (i, s) ->
  (forall j s', l !! j = Some s' -> pendingFor userId groupId code s' ->
                j = i) ->
  findSession userId groupId code (<[i := Session.set_isCompleted true s]> l)
  = None.
Proof.
  intros Hfind Honly. apply findSession_Some in Hfind as [Hi _].
  unfold findSession. apply list_find_None, Forall_forall.
  intros s' Hin Hpending.
  apply list_elem_of_lookup in Hin as [j Hj].
  destruct (decide (j = i)) as [->|Hne].
  - rewrite list_lookup_insert_eq in Hj by (by eapply lookup_lt_Some).
    injection Hj as <-. by destruct Hpending as (_ & _ & _ & Hc).
  - rewrite list_lookup_insert_ne in Hj by done.
    by specialize (Honly j s' Hj Hpending).
Qed.

Section VerificationProperties.
Variable base64Decode : string -> string.
Variable parseInt : string -> option Z.

Lemma processVerification_pendingUnique now config telegramOk responder
    token st :
  pendingUnique (sessions st) ->
  pendingUnique
    (sessions (processVerification base64Decode parseInt now config
                 telegramOk responder token st).2).
Proof.
  intros Huniq. unfold processVerification.
  destruct (String.eqb token ""); [done|].
  destruct (length _ <? 3)%nat; [done|].
  destruct (parseInt (nth 0 _ _)) as [userId|]; [|done].
  destruct (parseInt (nth 1 _ _)) as [groupId|]; [|done].
  destruct (negb (bool_decide _)); [done|].
  destruct (findSession _ _ _ _) as [[i s]|] eqn:Hfind; [|done].
  destruct (Session.expiresAt s <? now); [done|].
  apply list_find_Some in Hfind as [Hi _].
  pose proof (pendingUnique_complete _ i s Huniq Hi) as Hdone.
  destruct (negb telegramOk); [done|].
  by destruct (awardWelcomeBonus _ _ _ _).
Qed.

(** Whatever the token, a responder who is not the user it names leaves
    the stores as they were and is turned away. *)
Lemma processVerification_foreign now config telegramOk responder token st :
  (forall userId,
     parseInt (nth 0 (split "_" (base64Decode token)) ""%string)
     = Some userId -> responder <> Some userId) ->
  (processVerification base64Decode parseInt now config telegramOk responder
     token st).2 = st
  /\ ((processVerification base64Decode parseInt now config telegramOk
         responder token st).1 = InvalidLink
      \/ (processVerification base64Decode parseInt now config telegramOk
            responder token st).1 = NotForYou).
Proof.
  intros Hforeign. unfold processVerification.
  destruct (String.eqb token ""); [by split; [|left]|].
  destruct (length _ <? 3)%nat; [by split; [|left]|].
  destruct (parseInt (nth 0 _ _)) as [userId|]; [|by split; [|right]].
  destruct (parseInt (nth 1 _ _)) as [groupId|]; [|by split; [|right]].
  rewrite bool_decide_eq_false_2 by (by apply Hforeign).
  by split; [|right].
Qed.

(** C3. Take a well-formed token that decodes to [userId_groupId_...].
    A responder other than [userId] is told the link is not theirs.  For
    the responder [userId]: when no session with that user, group and
    code and [isCompleted = false] is stored, or when the one found has
    [expiresAt] before now, the link is rejected as invalid or expired;
    in all three cases nothing is written.  Otherwise the token is
    accepted: the session found is stored with [isCompleted = true] (and
    the reply is the completion message when the chat permissions could
    be restored), and, no two pending sessions carrying the same token,
    presenting the token again is rejected. *)
Theorem challenge_token_accepted_once
    (now : Z) (config : TaxConfig.t) (telegramOk : bool)
    (responder : option Z) (token : string) (st : Store)
    (userId groupId : Z) :
  token <> ""%string ->
  (3 <= length (split "_" (base64Decode token)))%nat ->
  parseInt (nth 0 (split "_" (base64Decode token)) ""%string) = Some userId ->
  parseInt (nth 1 (split "_" (base64Decode token)) ""%string)
  = Some groupId ->
  let verify := processVerification base64Decode parseInt in
  (responder <> Some userId ->
   verify now config telegramOk responder token st = (NotForYou, st))
  /\ (responder = Some userId ->
      ((forall s, s ∈ sessions st ->
          ~ pendingFor userId groupId (base64Decode token) s) ->
       verify now config telegramOk responder token st
       = (InvalidOrExpired, st))
      /\ (forall i s,
            findSession userId groupId (base64Decode token) (sessions st)
            = Some (i, s) ->
            (Session.expiresAt s < now ->
             verify now config telegramOk responder token st
             = (InvalidOrExpired, st))
            /\ (now <= Session.expiresAt s ->
                sessions (verify now config telegramOk responder token st).2
                = <[i := Session.set_isCompleted true s]> (sessions st)
                /\ (telegramOk = true ->
                    exists welcomePoints,
                      (verify now config telegramOk responder token st).1
                      = VerificationComplete welcomePoints)
                /\ (pendingUnique (sessions st) ->
                    forall now' config' telegramOk',
                      verify now' config' telegramOk' responder token
                        (verify now config telegramOk responder token st).2
                      = (InvalidOrExpired,
                         (verify now config telegramOk responder token
                            st).2))))).
Proof.
  intros Hnonempty Hparts Huser Hgroup verify.
  assert (Hstart : forall now config telegramOk st,
    verify now config telegramOk responder token st =
    if negb (bool_decide (responder = Some userId)) then (NotForYou, st)
    else
      match findSession userId groupId (base64Decode token) (sessions st)
      with
      | None => (InvalidOrExpired, st)
      | Some (i, session) =>
          if Session.expiresAt session <? now then (InvalidOrExpired, st)
          else
            let sessions :=
              <[i := Session.set_isCompleted true session]> (sessions st) in
            if negb telegramOk
            then (VerificationFailed, mkStore sessions (users st))
            else
              let users :=
                match users st !! userId with
                | Some u =>
                    <[userId :=
                        User.set_verificationDate (Some now)
                          (User.set_isVerified true u)]> (users st)
                | None => users st
                end in
              let '(welcomePoints, users) :=
                awardWelcomeBonus now config userId users in
              (VerificationComplete welcomePoints, mkStore sessions users)
      end).
  { intros now0 config0 ok0 st0. unfold verify, processVerification.
    apply String.eqb_neq in Hnonempty. rewrite Hnonempty.
    apply Nat.ltb_ge in Hparts. rewrite Hparts, Huser, Hgroup.
    reflexivity. }
  split.
  - intros Hforeign. rewrite Hstart.
    by rewrite bool_decide_eq_false_2.
  - intros Hmine. split.
    + intros Hnone. rewrite Hstart, bool_decide_eq_true_2 by done.
      cbn [negb].
      assert (Hfind : findSession userId groupId (base64Decode token)
                        (sessions st) = None).
      { apply list_find_None, Forall_forall. exact Hnone. }
      by rewrite Hfind.
    + intros i s Hfind. split.
      * intros Hexpired. rewrite Hstart, bool_decide_eq_true_2 by done.
        cbn [negb]. rewrite Hfind.
        apply Z.ltb_lt in Hexpired. by rewrite Hexpired.
      * intros Hlive.
        assert (Hrun := Hstart now config telegramOk st).
        rewrite bool_decide_eq_true_2 in Hrun by done.
        cbn [negb] in Hrun. rewrite Hfind in Hrun.
        apply Z.ltb_ge in Hlive. rewrite Hlive in Hrun. cbv zeta in Hrun.
        assert (Hsessions :
          sessions (verify now config telegramOk responder token st).2
          = <[i := Session.set_isCompleted true s]> (sessions st)).
        { rewrite Hrun. destruct telegramOk; cbn [negb]; [|done].
          by destruct (awardWelcomeBonus _ _ _ _). }
        split; [exact Hsessions|]. split.
        -- intros ->. rewrite Hrun. cbn [negb].
           destruct (awardWelcomeBonus _ _ _ _) as [w us]. by exists w.
        -- intros Huniq now' config' ok'.
           assert (Honly : forall j s', sessions st !! j = Some s' ->
                     pendingFor userId groupId (base64Decode token) s' ->
                     j = i).
           { intros j s' Hj (Hu' & Hg' & Hc' & Hp').
             apply findSession_Some in Hfind as Hs.
             destruct Hs as (Hi & Hu & Hg & Hc & Hp).
             apply (Huniq j i s' s); congruence. }
           rewrite Hstart, bool_decide_eq_true_2 by done.
           cbn [negb]. rewrite Hsessions.
           by rewrite (findSession_completed _ _ _ _ _ _ Hfind Honly).
Qed.
End VerificationProperties.

(** The token of user 42 for group 7: refused to user 99, refused after
    the deadline, accepted at instant 2000 and refused when replayed. *)
Lemma challenge_token_accepted_once_witness :
  let verify := processVerification Example.decode Example.parseDecimal in
  verify 2000 Example.config true (Some 99) Example.token Example.pending
  = (NotForYou, Example.pending)
  /\ verify 400000 Example.config true (Some 42) Example.token Example.pending
     = (InvalidOrExpired, Example.pending)
  /\ (exists welcomePoints,
        (verify 2000 Example.config true (Some 42) Example.token
           Example.pending).1 = VerificationComplete welcomePoints)
  /\ verify 3000 Example.config true (Some 42) Example.token
       (verify 2000 Example.config true (Some 42) Example.token
          Example.pending).2
     = (InvalidOrExpired,
        (verify 2000 Example.config true (Some 42) Example.token
           Example.pending).2).
Proof.
  assert (H1 : Example.token <> ""%string) by discriminate.
  assert (H2 : (3 <= length (split "_" (Example.decode Example.token)))%nat)
    by by_computation.
  assert (H3 : Example.parseDecimal
                 (nth 0 (split "_" (Example.decode Example.token)) ""%string)
               = Some 42) by reflexivity.
  assert (H4 : Example.parseDecimal
                 (nth 1 (split "_" (Example.decode Example.token)) ""%string)
               = Some 7) by reflexivity.
  assert (Hfind : findSession 42 7 (Example.decode Example.token)
                    (sessions Example.pending)
                  = Some (0%nat, Session.mk 42 7 Example.token false 301000
                                   (Some 5))) by reflexivity.
  cbv zeta. split; [|split; [|split]].
  - refine (proj1 (challenge_token_accepted_once Example.decode
              Example.parseDecimal 2000 Example.config true (Some 99)
              Example.token Example.pending 42 7 H1 H2 H3 H4) _).
    discriminate.
  - refine (proj1 (proj2 (proj2 (challenge_token_accepted_once Example.decode
              Example.parseDecimal 400000 Example.config true (Some 42)
              Example.token Example.pending 42 7 H1 H2 H3 H4) eq_refl)
              0%nat _ Hfind) _).
    by_computation.
  - refine (proj1 (proj2 (proj2 (proj2 (proj2
              (challenge_token_accepted_once Example.decode
                 Example.parseDecimal 2000 Example.config true (Some 42)
                 Example.token Example.pending 42 7 H1 H2 H3 H4) eq_refl)
              0%nat _ Hfind) _)) eq_refl).
    by_computation.
  - refine (proj2 (proj2 (proj2 (proj2 (proj2
              (challenge_token_accepted_once Example.decode
                 Example.parseDecimal 2000 Example.config true (Some 42)
                 Example.token Example.pending 42 7 H1 H2 H3 H4) eq_refl)
              0%nat _ Hfind) _)) _ 3000 Example.config true).
    + by_computation.
    + intros [|a] [|b] sa sb Ha Hb; try discriminate Ha; try discriminate Hb.
      reflexivity.
Defined.

(** From the default version 1: an update creates version 2 as the only
    active one, and reverting to version 1 creates version 3. *)
Lemma config_update_appends_version_witness :
  exists c2 store2 c3 store3,
    updateConfig 1000 Example.milestonesOff (Some 1) [Example.config]
    = Ok (c2, store2)
    /\ revertToVersion 2000 1 None store2 = Ok (c3, store3)
    /\ TaxConfig.version c2 = 2 /\ activeVersions store2 = [c2]
    /\ TaxConfig.version c3 <> 1 /\ activeVersions store3 = [c3].
Proof.
  destruct (updateConfig 1000 Example.milestonesOff (Some 1) [Example.config])
    as [[c2 store2]|] eqn:H2; [|discriminate H2].
  destruct (revertToVersion 2000 1 None store2)
    as [[c3 store3]|] eqn:H3;
    [|vm_compute in H2; injection H2 as <- <-; discriminate H3].
  exists c2, store2, c3, store3.
  split; [reflexivity|]. split; [exact H3|].
  destruct (proj1 (config_update_appends_version 1000 (Some 1)
                     [Example.config]) _ _ _ H2)
    as ((current & Hcur & Hver) & _ & _ & Hactive2).
  destruct (proj2 (config_update_appends_version 2000 None store2) _ _ _ H3)
    as (_ & _ & Hne & _ & _ & Hactive3).
  split; [|by repeat split].
  rewrite Hver. injection Hcur as <-. reflexivity.
Defined.

(** ** The invariant of the balances, for stored users *)

Lemma awardPoints_totalPointsEarned now points groupId u :
  User.totalPointsEarned (awardPoints now points groupId u)
  = (User.totalPointsEarned u + points)%Q.
Proof.
  unfold awardPoints. destruct groupId as [gid|]; [|reflexivity].
  destruct (truthy gid); [|reflexivity].
  destruct (findActivity _ _) as [[i g]|]; reflexivity.
Qed.

Lemma incrementMessages_totalPointsEarned now groupId u :
  User.totalPointsEarned (incrementMessages now groupId u)
  = User.totalPointsEarned u.
Proof.
  unfold incrementMessages. destruct groupId as [gid|]; [|reflexivity].
  destruct (truthy gid); [|reflexivity].
  destruct (findActivity _ _) as [[i g]|]; reflexivity.
Qed.

Lemma updateStreak_totalPointsEarned tz now u :
  User.totalPointsEarned (updateStreak tz now u) = User.totalPointsEarned u.
Proof.
  unfold updateStreak. destruct (User.lastStreakDate u); [|reflexivity].
  destruct (_ =? 1); [reflexivity|]. destruct (1 <? _); reflexivity.
Qed.

(** The writes of one call keep the distance between the two counters. *)
Lemma touched_balance_gap tz now config u v :
  touched tz now config u v ->
  (User.totalPointsEarned v - User.taxPoints v
   == User.totalPointsEarned u - User.taxPoints u)%Q.
Proof.
  induction 1 as [u | u v points groupId _ IH | u v groupId _ IH
                  | u v _ IH | u v i g _ IH Hi].
  - reflexivity.
  - rewrite awardPoints_totalPointsEarned, awardPoints_taxPoints, <- IH. ring.
  - by rewrite incrementMessages_totalPointsEarned, incrementMessages_taxPoints.
  - by rewrite updateStreak_totalPointsEarned, updateStreak_taxPoints.
  - exact IH.
Qed.

(** If every stored user has [taxPoints <= totalPointsEarned], so has every
    stored user after a message was processed or a welcome bonus awarded. *)
Lemma stored_users_keep_taxPoints_le_total tz now config (db : Users) :
  (forall k u, db !! k = Some u ->
     (User.taxPoints u <= User.totalPointsEarned u)%Q) ->
  (forall ctx text k v,
     (processMessagePoints tz now config ctx text db).2 !! k = Some v ->
     (User.taxPoints v <= User.totalPointsEarned v)%Q)
  /\ (forall uid k v,
        (awardWelcomeBonus now config uid db).2 !! k = Some v ->
        (User.taxPoints v <= User.totalPointsEarned v)%Q).
Proof.
  intros Hinv.
  assert (Hstep : forall (db' : Users) k v,
            db' = db
            \/ (exists uid u w, db !! uid = Some u
                  /\ touched tz now config u w /\ db' = <[uid := w]> db) ->
            db' !! k = Some v ->
            (User.taxPoints v <= User.totalPointsEarned v)%Q).
  { intros db' k v [->|(uid & u & w & Hu & Ht & ->)] Hk; [by eapply Hinv|].
    destruct (decide (uid = k)) as [->|Hne].
    - rewrite lookup_insert_eq in Hk. injection Hk as <-.
      pose proof (touched_balance_gap _ _ _ _ _ Ht) as Hgap.
      specialize (Hinv k u Hu). lra.
    - rewrite lookup_insert_ne in Hk by done. by eapply Hinv. }
  split.
  - intros ctx text k v. apply Hstep.
    destruct (processMessagePoints_touches tz now config ctx text db)
      as [->|(uid & u & w & _ & Hu & Ht & ->)]; [by left|].
    right. by exists uid, u, w.
  - intros uid k v. apply Hstep.
    destruct (awardWelcomeBonus_touches tz now config uid db)
      as [->|(u & w & Hu & Ht & ->)]; [by left|].
    right. by exists uid, u, w.
Qed.

(** * Further properties of the services *)

(** ** The points engine: what a call returns and writes *)

(** X1. [processMessagePoints] returns 0 exactly when one of its gates is
    shut (no sender or chat, unknown or unverified sender, cooldown, daily
    check), and then it writes nothing; when the gates are open it returns
    at least one point, whatever the text and the configuration.  In
    particular a call that returns 0 has written nothing. *)
Theorem processMessagePoints_zero_iff_gate_shut
    (tz now : Z) (config : TaxConfig.t) (ctx : Context) (text : string)
    (db : Users) :
  (passesGates tz now config ctx db = false ->
   processMessagePoints tz now config ctx text db = (0, db))
  /\ (passesGates tz now config ctx db = true ->
      1 <= (processMessagePoints tz now config ctx text db).1)
  /\ ((processMessagePoints tz now config ctx text db).1 = 0 ->
      (processMessagePoints tz now config ctx text db).2 = db)
  /\ 0 <= (processMessagePoints tz now config ctx text db).1.
Proof.
  assert (Hshut : passesGates tz now config ctx db = false ->
            processMessagePoints tz now config ctx text db = (0, db)).
  { unfold passesGates. rewrite processMessagePoints_unfold.
    destruct (from ctx) as [uid|]; [|done].
    destruct (chat ctx) as [gid|]; [|done].
    destruct (db !! uid) as [u|]; [|done].
    destruct (User.isVerified u); [|done].
    destruct (canAwardPoints now u config); [|done].
    destruct (dailyCheck tz now config gid u) as [[|] u1]; [done|].
    done. }
  assert (Hopen : passesGates tz now config ctx db = true ->
            1 <= (processMessagePoints tz now config ctx text db).1).
  { unfold passesGates.
    destruct (from ctx) as [uid|] eqn:Hfrom; [|done].
    destruct (chat ctx) as [gid|] eqn:Hchat; [|done].
    destruct (db !! uid) as [u|] eqn:Hu; [|done].
    destruct (User.isVerified u) eqn:Hver; [|done].
    destruct (canAwardPoints now u config) eqn:Hcool; [|done].
    destruct (dailyCheck tz now config gid u) as [[|] u1] eqn:Hd; [|done].
    intros _.
    rewrite (processMessagePoints_awards tz now config ctx text db uid gid u u1)
      by done.
    apply calculateMessagePoints_ge_1. }
  split; [exact Hshut|]. split; [exact Hopen|].
  destruct (passesGates tz now config ctx db) eqn:Hg.
  - specialize (Hopen eq_refl). split; [lia | lia].
  - rewrite (Hshut eq_refl). by split.
Qed.

Lemma processMessagePoints_zero_iff_gate_shut_witness :
  passesGates 0 Example.noon Example.config Example.message
    (Example.users 100 0 None) = true
  /\ 1 <= (processMessagePoints 0 Example.noon Example.config Example.message
             "hello" (Example.users 100 0 None)).1
  /\ passesGates 0 (Example.noon - 50000) Example.config Example.message
       (Example.users 100 0 None) = false
  /\ processMessagePoints 0 (Example.noon - 50000) Example.config
       Example.message "hello" (Example.users 100 0 None)
     = (0, Example.users 100 0 None).
Proof.
  assert (H1 : passesGates 0 Example.noon Example.config Example.message
                 (Example.users 100 0 None) = true) by reflexivity.
  assert (H2 : passesGates 0 (Example.noon - 50000) Example.config
                 Example.message (Example.users 100 0 None) = false)
    by reflexivity.
  split; [exact H1|]. split.
  - exact (proj1 (proj2 (processMessagePoints_zero_iff_gate_shut 0 Example.noon
             Example.config Example.message "hello"
             (Example.users 100 0 None))) H1).
  - split; [exact H2|].
    exact (proj1 (processMessagePoints_zero_iff_gate_shut 0
             (Example.noon - 50000) Example.config Example.message "hello"
             (Example.users 100 0 None)) H2).
Defined.

(** X2. [processMessagePoints] writes at most the sender's document: every
    other user is stored as before, and no user is created or removed. *)
Theorem processMessagePoints_writes_only_sender
    (tz now : Z) (config : TaxConfig.t) (ctx : Context) (text : string)
    (db : Users) :
  (forall k, from ctx <> Some k ->
     (processMessagePoints tz now config ctx text db).2 !! k = db !! k)
  /\ dom (processMessagePoints tz now config ctx text db).2 = dom db.
Proof.
  destruct (processMessagePoints_touches tz now config ctx text db)
    as [->|(uid & u & v & Hfrom & Hu & _ & ->)]; [done|].
  split.
  - intros k Hk. apply lookup_insert_ne. congruence.
  - rewrite dom_insert_L. apply subseteq_union_1_L, singleton_subseteq_l.
    by eapply elem_of_dom_2.
Qed.

Lemma processMessagePoints_writes_only_sender_witness :
  (processMessagePoints 0 Example.noon Example.config Example.message "hello"
     (<[ 43 := Example.newcomer ]> (Example.users 100 0 None))).2 !! 43
  = Some Example.newcomer.
Proof.
  rewrite (proj1 (processMessagePoints_writes_only_sender 0 Example.noon
             Example.config Example.message "hello"
             (<[ 43 := Example.newcomer ]> (Example.users 100 0 None))) 43)
    by discriminate.
  reflexivity.
Defined.
(** ** The points engine: what the award depends on *)

Lemma getQualityMultiplier_length text1 text2 config :
  String.length text1 = String.length text2 ->
  getQualityMultiplier text1 config = getQualityMultiplier text2 config.
Proof. intros Hlen. unfold getQualityMultiplier. by rewrite Hlen. Qed.

Lemma calculateMessagePoints_text tz now uid u text1 text2 ctx gid config db :
  String.length text1 = String.length text2
  \/ TaxConfig.enableQualityMultiplier config = false ->
  calculateMessagePoints tz now uid u text1 ctx gid config db
  = calculateMessagePoints tz now uid u text2 ctx gid config db.
Proof.
  intros [Hlen | Hoff]; unfold calculateMessagePoints.
  - by rewrite (getQualityMultiplier_length text1 text2).
  - by rewrite Hoff.
Qed.

(** X3. The text of a message matters to the award through its length
    only: two texts of the same length are awarded alike (and leave the
    same collection), and with [enableQualityMultiplier] off any two texts
    are. *)
Theorem processMessagePoints_reads_length_only
    (tz now : Z) (config : TaxConfig.t) (ctx : Context)
    (text1 text2 : string) (db : Users) :
  String.length text1 = String.length text2
  \/ TaxConfig.enableQualityMultiplier config = false ->
  processMessagePoints tz now config ctx text1 db
  = processMessagePoints tz now config ctx text2 db.
Proof.
  intros Hsame. rewrite !processMessagePoints_unfold.
  destruct (from ctx) as [uid|]; [|done].
  destruct (chat ctx) as [gid|]; [|done].
  destruct (db !! uid) as [u|]; [|done].
  destruct (negb (User.isVerified u)); [done|].
  destruct (negb (canAwardPoints now u config)); [done|].
  destruct (dailyCheck tz now config gid u) as [allowed u1].
  destruct (negb allowed); [done|].
  by rewrite (calculateMessagePoints_text tz now uid u1 text1 text2).
Qed.

Lemma processMessagePoints_reads_length_only_witness :
  String.length "hello" = String.length "world"
  /\ processMessagePoints 0 Example.noon Example.config Example.message
       "hello" (Example.users 100 0 None)
     = processMessagePoints 0 Example.noon Example.config Example.message
         "world" (Example.users 100 0 None).
Proof.
  assert (H : String.length "hello" = String.length "world") by reflexivity.
  split; [exact H|].
  exact (processMessagePoints_reads_length_only 0 Example.noon Example.config
           Example.message "hello" "world" (Example.users 100 0 None)
           (or_introl H)).
Defined.

(** X4. [maxPointsPerHour] is never read by the engine: changing it changes
    neither the points returned nor what is written. *)
Theorem maxPointsPerHour_is_never_enforced
    (tz now : Z) (config : TaxConfig.t) (ctx : Context) (text : string)
    (db : Users) (limit : Q) :
  processMessagePoints tz now (set_maxPointsPerHour limit config) ctx text db
  = processMessagePoints tz now config ctx text db.
Proof. destruct config. reflexivity. Qed.

Lemma getHourlyMessageCount_le_50 now u gid :
  getHourlyMessageCount now u gid <= 50.
Proof.
  unfold getHourlyMessageCount.
  destruct (findActivity gid (User.groupActivity u)) as [[i g]|]; [|lia].
  destruct (GroupActivity.lastMessageDate g); [|lia].
  destruct (_ <? _); lia.
Qed.

(** X5. The estimate of the messages of the last hour is capped at 50, so
    with a [diminishingReturnsThreshold] of 50 or more the diminishing
    returns never apply: the factor then has no influence on any award. *)
Theorem diminishing_returns_off_from_threshold_50
    (tz now : Z) (config : TaxConfig.t) (ctx : Context) (text : string)
    (db : Users) (factor : Q) :
  (50 <= TaxConfig.diminishingReturnsThreshold config)%Q ->
  processMessagePoints tz now (set_diminishingReturnsFactor factor config)
    ctx text db
  = processMessagePoints tz now config ctx text db.
Proof.
  intros Hthreshold.
  assert (Hcalc : forall uid u gid (d : Users),
    calculateMessagePoints tz now uid u text ctx gid
      (set_diminishingReturnsFactor factor config) d
    = calculateMessagePoints tz now uid u text ctx gid config d).
  { intros uid u gid d. unfold calculateMessagePoints.
    assert (Hoff : forall v,
      Qgtb (inject_Z (getHourlyMessageCount now v gid))
           (TaxConfig.diminishingReturnsThreshold config) = false).
    { intros v. apply Qltb_ge.
      pose proof (getHourlyMessageCount_le_50 now v gid) as Hle.
      apply Qle_trans with (y := inject_Z 50); [|exact Hthreshold].
      rewrite <- Zle_Qle. exact Hle. }
    destruct config. cbn [TaxConfig.diminishingReturnsThreshold
      TaxConfig.diminishingReturnsFactor set_diminishingReturnsFactor] in *.
    destruct (isFirstMessageToday tz now u gid && _); cbv zeta;
      cbn [TaxConfig.diminishingReturnsThreshold
           set_diminishingReturnsFactor]; by rewrite !Hoff. }
  rewrite !processMessagePoints_unfold.
  destruct (from ctx) as [uid|]; [|done].
  destruct (chat ctx) as [gid|]; [|done].
  destruct (db !! uid) as [u|]; [|done].
  destruct (negb (User.isVerified u)); [done|].
  change (canAwardPoints now u (set_diminishingReturnsFactor factor config))
    with (canAwardPoints now u config).
  destruct (negb (canAwardPoints now u config)); [done|].
  change (dailyCheck tz now (set_diminishingReturnsFactor factor config) gid u)
    with (dailyCheck tz now config gid u).
  destruct (dailyCheck tz now config gid u) as [allowed u1].
  destruct (negb allowed); [done|].
  rewrite Hcalc. by destruct config.
Qed.

Lemma diminishing_returns_off_from_threshold_50_witness :
  let config :=
    match updateConfig 1000
            (ConfigUpdates.mk None None None None None None None None None
               None None None None None None None (Some 60%Q) None None None
               None None None None None None None None None None None None)
            None [Example.config] with
    | Ok (c, _) => c
    | Err _ => Example.config
    end in
  (50 <= TaxConfig.diminishingReturnsThreshold config)%Q
  /\ processMessagePoints 0 Example.noon
       (set_diminishingReturnsFactor 0.1 config) Example.message "hello"
       (Example.users 100 0 None)
     = processMessagePoints 0 Example.noon config Example.message "hello"
         (Example.users 100 0 None).
Proof.
  cbv zeta.
  match goal with |- (50 <= TaxConfig.diminishingReturnsThreshold ?c)%Q /\ _ =>
    assert (H : (50 <= TaxConfig.diminishingReturnsThreshold c)%Q)
      by by_computation;
    split; [exact H|];
    exact (diminishing_returns_off_from_threshold_50 0 Example.noon c
             Example.message "hello" (Example.users 100 0 None) 0.1 H)
  end.
Defined.
(** ** The points engine: the books of one award *)

Lemma findActivity_insert_None gid (l : list GroupActivity.t) j h h' :
  l !! j = Some h ->
  GroupActivity.groupId h' = GroupActivity.groupId h ->
  findActivity gid l = None ->
  findActivity gid (<[j := h']> l) = None.
Proof.
  unfold findActivity. rewrite !list_find_None, !Forall_lookup.
  intros Hj Hgroup Hnone k y Hk.
  destruct (decide (j = k)) as [->|Hne].
  - rewrite list_lookup_insert_eq in Hk by (by eapply lookup_lt_Some).
    injection Hk as <-. rewrite Hgroup. by eapply Hnone.
  - rewrite list_lookup_insert_ne in Hk by done. by eapply Hnone.
Qed.

(** What is read of the entry of a group does not change when some entry
    is rewritten without changing its group or the field read. *)
Lemma findActivity_insert_read {A : Type} (f : GroupActivity.t -> A) (d : A)
    gid (l : list GroupActivity.t) j h h' :
  l !! j = Some h ->
  GroupActivity.groupId h' = GroupActivity.groupId h ->
  f h' = f h ->
  match findActivity gid (<[j := h']> l) with
  | Some (_, g) => f g
  | None => d
  end
  = match findActivity gid l with
    | Some (_, g) => f g
    | None => d
    end.
Proof.
  intros Hj Hgroup Hf.
  destruct (findActivity gid l) as [[i g]|] eqn:Hfind.
  - rewrite (findActivity_insert_same_group gid l j h h' i g) by done.
    destruct (decide (i = j)) as [->|]; [|done].
    apply findActivity_Some in Hfind as [Hi _]. congruence.
  - by rewrite (findActivity_insert_None gid l j h h').
Qed.

Lemma dailyCheck_reads tz now config chatId u :
  (forall gid, groupPoints gid (dailyCheck tz now config chatId u).2
               = groupPoints gid u)
  /\ (forall gid, groupMessages gid (dailyCheck tz now config chatId u).2
                  = groupMessages gid u)
  /\ User.messagesCount (dailyCheck tz now config chatId u).2
     = User.messagesCount u
  /\ User.totalPointsEarned (dailyCheck tz now config chatId u).2
     = User.totalPointsEarned u.
Proof.
  unfold dailyCheck, groupPoints, groupMessages.
  destruct (findActivity chatId (User.groupActivity u)) as [[i g]|] eqn:Hf;
    [|done].
  apply findActivity_Some in Hf as [Hi _].
  assert (Hg : forall g', g' = (canAwardDailyPoints tz now g config).2 ->
            GroupActivity.groupId g' = GroupActivity.groupId g
            /\ GroupActivity.pointsEarned g' = GroupActivity.pointsEarned g
            /\ GroupActivity.messagesCount g' = GroupActivity.messagesCount g).
  { intros g' ->. unfold canAwardDailyPoints.
    by destruct (match GroupActivity.lastDailyReset g with
                 | Some reset => reset <? startOfDay tz now
                 | None => true
                 end). }
  destruct (canAwardDailyPoints tz now g config) as [ok g'].
  destruct (Hg g' eq_refl) as (Hgroup & Hpoints & Hcount).
  cbn [snd User.groupActivity User.set_groupActivity User.messagesCount
       User.totalPointsEarned].
  repeat split; try done; intros gid.
  - by apply findActivity_insert_read with (h := g).
  - by apply findActivity_insert_read with (h := g).
Qed.

Lemma awardPoints_reads now points gid u :
  truthy gid = true ->
  (groupPoints gid (awardPoints now points (Some gid) u)
   == groupPoints gid u + points)%Q
  /\ groupMessages gid (awardPoints now points (Some gid) u)
     = groupMessages gid u
  /\ User.messagesCount (awardPoints now points (Some gid) u)
     = User.messagesCount u
  /\ is_Some (findActivity gid
                (User.groupActivity (awardPoints now points (Some gid) u))).
Proof.
  intros Htruthy. unfold awardPoints, groupPoints, groupMessages.
  rewrite Htruthy.
  cbn [User.groupActivity User.set_lastPointAward User.set_lastActivityDate
       User.set_totalPointsEarned User.set_taxPoints].
  destruct (findActivity gid (User.groupActivity u)) as [[i g]|] eqn:Hfind;
    cbn [User.groupActivity User.set_groupActivity User.messagesCount].
  - erewrite findActivity_insert; [|exact Hfind|].
    + by repeat split.
    + by apply findActivity_Some in Hfind as [_ Hg].
  - rewrite findActivity_append by done.
    cbn [GroupActivity.pointsEarned GroupActivity.messagesCount].
    repeat split; try done. ring.
Qed.

Lemma incrementMessages_reads now gid u i g :
  truthy gid = true ->
  findActivity gid (User.groupActivity u) = Some (i, g) ->
  groupPoints gid (incrementMessages now (Some gid) u) = groupPoints gid u
  /\ groupMessages gid (incrementMessages now (Some gid) u)
     = groupMessages gid u + 1
  /\ User.messagesCount (incrementMessages now (Some gid) u)
     = User.messagesCount u + 1.
Proof.
  intros Htruthy Hfind. unfold incrementMessages, groupPoints, groupMessages.
  rewrite Htruthy. cbn [User.groupActivity User.set_messagesCount].
  rewrite Hfind. cbn [User.groupActivity User.set_groupActivity
                      User.messagesCount].
  erewrite findActivity_insert; [|exact Hfind|].
  - done.
  - by apply findActivity_Some in Hfind as [_ Hg].
Qed.

Lemma milestoneTopUp_reads now config points u :
  User.groupActivity (milestoneTopUp now config points u)
  = User.groupActivity u
  /\ User.messagesCount (milestoneTopUp now config points u)
     = User.messagesCount u
  /\ (User.taxPoints u <= User.taxPoints (milestoneTopUp now config points u))%Q
  /\ (User.totalPointsEarned (milestoneTopUp now config points u)
      - User.taxPoints (milestoneTopUp now config points u)
      == User.totalPointsEarned u - User.taxPoints u)%Q
  /\ (User.lastActivityDate u = Some now ->
      User.lastActivityDate (milestoneTopUp now config points u) = Some now).
Proof.
  unfold milestoneTopUp.
  destruct (TaxConfig.enableMilestoneRewards config);
    [|by repeat split; try done; lra].
  cbv zeta. destruct (Qgtb _ 0) eqn:Hpos; [|by repeat split; try done; lra].
  apply Qgtb_gt in Hpos.
  rewrite awardPoints_taxPoints, awardPoints_totalPointsEarned.
  repeat split; try done; lra.
Qed.

Lemma calculateMessagePoints_reads tz now uid u text ctx gid config db :
  User.groupActivity
    (calculateMessagePoints tz now uid u text ctx gid config db).1.2
  = User.groupActivity u
  /\ User.messagesCount
       (calculateMessagePoints tz now uid u text ctx gid config db).1.2
     = User.messagesCount u
  /\ User.totalPointsEarned
       (calculateMessagePoints tz now uid u text ctx gid config db).1.2
     = User.totalPointsEarned u.
Proof.
  destruct (calculateMessagePoints_state tz now uid u text ctx gid config db)
    as [[-> _]|[-> _]]; [done|].
  split; [apply updateStreak_groupActivity|].
  split; [|apply updateStreak_totalPointsEarned].
  unfold updateStreak. destruct (User.lastStreakDate u); [|reflexivity].
  destruct (_ =? 1); [reflexivity|]. destruct (1 <? _); reflexivity.
Qed.

Lemma awardPoints_lastActivityDate now points groupId u :
  User.lastActivityDate (awardPoints now points groupId u) = Some now.
Proof.
  unfold awardPoints. destruct groupId as [gid|]; [|reflexivity].
  destruct (truthy gid); [|reflexivity].
  destruct (findActivity _ _) as [[i g]|]; reflexivity.
Qed.

Lemma incrementMessages_lastActivityDate now groupId u :
  User.lastActivityDate (incrementMessages now groupId u)
  = User.lastActivityDate u.
Proof.
  unfold incrementMessages. destruct groupId as [gid|]; [|reflexivity].
  destruct (truthy gid); [|reflexivity].
  destruct (findActivity _ _) as [[i g]|]; reflexivity.
Qed.

(** X6. The books of an award.  When a call for a chat with a non-zero id
    returns [p] points, the sender's document is stored with: one message
    more, for the user and for the chat's entry; the chat's [pointsEarned]
    raised by exactly [p] (a milestone bonus is not booked on the chat);
    the balance raised by at least [p]; the distance between
    [totalPointsEarned] and the balance as it was; and [lastActivityDate]
    set to the instant of the call. *)
Theorem award_is_booked
    (tz now : Z) (config : TaxConfig.t) (ctx : Context) (text : string)
    (db : Users) (uid gid : Z) (u : User.t) :
  from ctx = Some uid -> chat ctx = Some gid -> gid <> 0 ->
  db !! uid = Some u ->
  (processMessagePoints tz now config ctx text db).1 <> 0 ->
  exists v,
    (processMessagePoints tz now config ctx text db).2 !! uid = Some v
    /\ User.messagesCount v = User.messagesCount u + 1
    /\ groupMessages gid v = groupMessages gid u + 1
    /\ (groupPoints gid v ==
        groupPoints gid u
        + inject_Z (processMessagePoints tz now config ctx text db).1)%Q
    /\ (User.taxPoints u
        + inject_Z (processMessagePoints tz now config ctx text db).1
        <= User.taxPoints v)%Q
    /\ (User.totalPointsEarned v - User.taxPoints v
        == User.totalPointsEarned u - User.taxPoints u)%Q
    /\ User.lastActivityDate v = Some now.
Proof.
  intros Hfrom Hchat Hgid Hu Hpos.
  destruct (processMessagePoints_awarded _ _ _ _ _ _ Hpos)
    as (uid' & gid' & u' & u1 & Hfrom' & Hchat' & Hu' & Hver & Hcool & Hd).
  assert (uid' = uid) as -> by congruence.
  assert (gid' = gid) as -> by congruence.
  assert (u' = u) as -> by congruence.
  rewrite (processMessagePoints_awards tz now config ctx text db uid gid u u1)
    by done.
  cbn [fst snd].
  set (c := calculateMessagePoints tz now uid u1 text ctx gid config db).
  set (p := c.1.1).
  assert (Htruthy : truthy gid = true).
  { unfold truthy. by destruct (Z.eqb_spec gid 0). }
  destruct (dailyCheck_reads tz now config gid u) as (Hd1 & Hd2 & Hd3 & Hd4).
  rewrite Hd in Hd1, Hd2, Hd3, Hd4. cbn [snd] in Hd1, Hd2, Hd3, Hd4.
  destruct (calculateMessagePoints_reads tz now uid u1 text ctx gid config db)
    as (Hc1 & Hc2 & Hc3).
  fold c in Hc1, Hc2, Hc3.
  pose proof (calculateMessagePoints_taxPoints tz now uid u1 text ctx gid
                config db) as Hc4. fold c in Hc4.
  pose proof (dailyCheck_taxPoints tz now config gid u) as Hd5.
  rewrite Hd in Hd5. cbn [snd] in Hd5.
  set (a := awardPoints now (inject_Z p) (Some gid) c.1.2).
  destruct (awardPoints_reads now (inject_Z p) gid c.1.2 Htruthy)
    as (Ha1 & Ha2 & Ha3 & [[i g] Ha4]).
  fold a in Ha1, Ha2, Ha3, Ha4.
  destruct (incrementMessages_reads now gid a i g Htruthy Ha4)
    as (Hi1 & Hi2 & Hi3).
  set (m := incrementMessages now (Some gid) a) in *.
  destruct (milestoneTopUp_reads now config p m)
    as (Hm1 & Hm2 & Hm3 & Hm4 & Hm5).
  eexists. split; [apply lookup_insert_eq|].
  assert (Hga : forall w w', User.groupActivity w = User.groupActivity w' ->
            groupPoints gid w = groupPoints gid w'
            /\ groupMessages gid w = groupMessages gid w').
  { intros w w' Hw. unfold groupPoints, groupMessages. by rewrite Hw. }
  destruct (Hga _ _ Hm1) as [Hmp Hmm].
  destruct (Hga _ _ Hc1) as [Hcp Hcm].
  assert (Hmtax : User.taxPoints m = (User.taxPoints u + inject_Z p)%Q).
  { unfold m, a. rewrite incrementMessages_taxPoints, awardPoints_taxPoints.
    congruence. }
  assert (Hmtot : User.totalPointsEarned m
                  = (User.totalPointsEarned u + inject_Z p)%Q).
  { unfold m, a.
    rewrite incrementMessages_totalPointsEarned, awardPoints_totalPointsEarned.
    congruence. }
  split; [by rewrite Hm2, Hi3, Ha3, Hc2, Hd3|].
  split; [by rewrite Hmm, Hi2, Ha2, Hcm, Hd2|]. split.
  { rewrite Hmp, Hi1, Ha1, Hcp, Hd1. reflexivity. }
  split; [rewrite <- Hmtax; exact Hm3|]. split.
  { rewrite Hm4, Hmtax, Hmtot. ring. }
  apply Hm5. unfold m, a.
  rewrite incrementMessages_lastActivityDate.
  apply awardPoints_lastActivityDate.
Qed.

Lemma award_is_booked_witness :
  exists v,
    (processMessagePoints 0 Example.noon Example.config Example.message
       "hello" (Example.users 999 0 None)).2 !! 42 = Some v
    /\ groupMessages 7 v = 4
    /\ (groupPoints 7 v == 42)%Q
    /\ (1001 <= User.taxPoints v)%Q.
Proof.
  assert (H1 : from Example.message = Some 42) by reflexivity.
  assert (H2 : chat Example.message = Some 7) by reflexivity.
  assert (H3 : 7 <> 0) by discriminate.
  assert (H4 : Example.users 999 0 None !! 42
               = Some (Example.member 999 0 None)) by reflexivity.
  assert (H5 : (processMessagePoints 0 Example.noon Example.config
                  Example.message "hello" (Example.users 999 0 None)).1 <> 0)
    by by_computation.
  destruct (award_is_booked 0 Example.noon Example.config Example.message
              "hello" (Example.users 999 0 None) 42 7
              (Example.member 999 0 None) H1 H2 H3 H4 H5)
    as (v & Hv & _ & Hm & Hp & Hb & _).
  exists v. split; [exact Hv|]. split; [exact Hm|]. split.
  - rewrite Hp. by_computation.
  - eapply Qle_trans; [|exact Hb]. by_computation.
Defined.
(** A call either returns 0 and writes nothing, or went through the gates
    and stores the sender after the award. *)
Lemma processMessagePoints_cases tz now config ctx text (db : Users) :
  processMessagePoints tz now config ctx text db = (0, db)
  \/ exists uid gid u u1,
       from ctx = Some uid /\ chat ctx = Some gid /\ db !! uid = Some u
       /\ User.isVerified u = true /\ canAwardPoints now u config = true
       /\ dailyCheck tz now config gid u = (true, u1)
       /\ 1 <= (calculateMessagePoints tz now uid u1 text ctx gid config db).1.1
       /\ processMessagePoints tz now config ctx text db
          = ((calculateMessagePoints tz now uid u1 text ctx gid config db).1.1,
             <[uid :=
                 milestoneTopUp now config
                   (calculateMessagePoints tz now uid u1 text ctx gid config
                      db).1.1
                   (incrementMessages now (Some gid)
                      (awardPoints now
                         (inject_Z
                            (calculateMessagePoints tz now uid u1 text ctx gid
                               config db).1.1)
                         (Some gid)
                         (calculateMessagePoints tz now uid u1 text ctx gid
                            config db).1.2))]> db).
Proof.
  destruct (from ctx) as [uid|] eqn:Hfrom;
    [|left; by rewrite processMessagePoints_unfold, Hfrom].
  destruct (chat ctx) as [gid|] eqn:Hchat;
    [|left; by rewrite processMessagePoints_unfold, Hfrom, Hchat].
  destruct (db !! uid) as [u|] eqn:Hu;
    [|left; by rewrite processMessagePoints_unfold, Hfrom, Hchat, Hu].
  destruct (User.isVerified u) eqn:Hver;
    [|left; by rewrite processMessagePoints_unfold, Hfrom, Hchat, Hu, Hver].
  destruct (canAwardPoints now u config) eqn:Hcool;
    [|left;
      by rewrite processMessagePoints_unfold, Hfrom, Hchat, Hu, Hver, Hcool].
  destruct (dailyCheck tz now config gid u) as [[|] u1] eqn:Hd;
    [|left; by rewrite processMessagePoints_unfold, Hfrom, Hchat, Hu, Hver,
                 Hcool, Hd].
  right. exists uid, gid, u, u1. repeat (split; [done|]).
  split; [apply calculateMessagePoints_ge_1|].
  exact (processMessagePoints_awards tz now config ctx text db uid gid u u1
           Hfrom Hchat Hu Hver Hcool Hd).
Qed.

(** ** The points engine: invariants of the group entries *)

Lemma sumPointsEarned_app l g :
  (sumPointsEarned (l ++ [g])
   == sumPointsEarned l + GroupActivity.pointsEarned g)%Q.
Proof.
  unfold sumPointsEarned. induction l as [|h rest IH]; cbn [app foldr].
  - ring.
  - rewrite IH. ring.
Qed.

Lemma sumPointsEarned_insert l i g g' :
  l !! i = Some g ->
  (sumPointsEarned (<[i := g']> l)
   == sumPointsEarned l - GroupActivity.pointsEarned g
      + GroupActivity.pointsEarned g')%Q.
Proof.
  unfold sumPointsEarned. revert i.
  induction l as [|h rest IH]; intros i Hi; [by rewrite lookup_nil in Hi|].
  destruct i as [|i]; cbn in Hi |- *.
  - injection Hi as ->. ring.
  - rewrite (IH i Hi). ring.
Qed.

Lemma awardPoints_groupActivity_eq now points groupId u :
  User.groupActivity (awardPoints now points groupId u)
  = match groupId with
    | Some gid =>
        if truthy gid then
          match findActivity gid (User.groupActivity u) with
          | Some (i, g) =>
              <[i := GroupActivity.set_lastMessageDate (Some now)
                       (GroupActivity.set_pointsEarned
                          (GroupActivity.pointsEarned g + points)%Q g)]>
                (User.groupActivity u)
          | None =>
              User.groupActivity u
              ++ [GroupActivity.mk gid 0 points (Some now) 0%Q None]
          end
        else User.groupActivity u
    | None => User.groupActivity u
    end.
Proof.
  unfold awardPoints. destruct groupId as [gid|]; [|reflexivity].
  destruct (truthy gid); [|reflexivity].
  change (User.groupActivity
            (User.set_lastPointAward _ (User.set_lastActivityDate _
               (User.set_totalPointsEarned _ (User.set_taxPoints _ u)))))
    with (User.groupActivity u).
  by destruct (findActivity gid (User.groupActivity u)) as [[i g]|].
Qed.

Lemma incrementMessages_groupActivity_eq now groupId u :
  User.groupActivity (incrementMessages now groupId u)
  = match groupId with
    | Some gid =>
        if truthy gid then
          match findActivity gid (User.groupActivity u) with
          | Some (i, g) =>
              <[i := GroupActivity.set_lastMessageDate (Some now)
                       (GroupActivity.set_messagesCount
                          (GroupActivity.messagesCount g + 1) g)]>
                (User.groupActivity u)
          | None =>
              User.groupActivity u
              ++ [GroupActivity.mk gid 1 0%Q (Some now) 0%Q None]
          end
        else User.groupActivity u
    | None => User.groupActivity u
    end.
Proof.
  unfold incrementMessages. destruct groupId as [gid|]; [|reflexivity].
  destruct (truthy gid); [|reflexivity].
  change (User.groupActivity (User.set_messagesCount _ u))
    with (User.groupActivity u).
  by destruct (findActivity gid (User.groupActivity u)) as [[i g]|].
Qed.

Lemma awardPoints_sumPointsEarned now points groupId u :
  (sumPointsEarned (User.groupActivity (awardPoints now points groupId u))
   == sumPointsEarned (User.groupActivity u)
      + match groupId with
        | Some gid => if truthy gid then points else 0
        | None => 0
        end)%Q.
Proof.
  rewrite awardPoints_groupActivity_eq.
  destruct groupId as [gid|]; [|ring].
  destruct (truthy gid); [|ring].
  destruct (findActivity gid (User.groupActivity u)) as [[i g]|] eqn:Hfind.
  - apply findActivity_Some in Hfind as [Hi _].
    rewrite (sumPointsEarned_insert _ i g) by done. cbn. ring.
  - rewrite sumPointsEarned_app. cbn. ring.
Qed.

Lemma incrementMessages_sumPointsEarned now groupId u :
  (sumPointsEarned (User.groupActivity (incrementMessages now groupId u))
   == sumPointsEarned (User.groupActivity u))%Q.
Proof.
  rewrite incrementMessages_groupActivity_eq.
  destruct groupId as [gid|]; [|reflexivity].
  destruct (truthy gid); [|reflexivity].
  destruct (findActivity gid (User.groupActivity u)) as [[i g]|] eqn:Hfind.
  - apply findActivity_Some in Hfind as [Hi _].
    rewrite (sumPointsEarned_insert _ i g) by done. cbn. ring.
  - rewrite sumPointsEarned_app. cbn. ring.
Qed.

Lemma dailyCheck_sumPointsEarned tz now config gid u :
  (sumPointsEarned (User.groupActivity (dailyCheck tz now config gid u).2)
   == sumPointsEarned (User.groupActivity u))%Q.
Proof.
  unfold dailyCheck.
  destruct (findActivity gid (User.groupActivity u)) as [[i g]|] eqn:Hfind;
    [|reflexivity].
  apply findActivity_Some in Hfind as [Hi _].
  assert (Hg : GroupActivity.pointsEarned (canAwardDailyPoints tz now g config).2
               = GroupActivity.pointsEarned g).
  { unfold canAwardDailyPoints.
    by destruct (match GroupActivity.lastDailyReset g with
                 | Some reset => reset <? startOfDay tz now
                 | None => true
                 end). }
  destruct (canAwardDailyPoints tz now g config) as [ok g'].
  cbn [snd User.groupActivity User.set_groupActivity] in *.
  rewrite (sumPointsEarned_insert _ i g) by done. rewrite Hg. ring.
Qed.

(** X7. The points booked on the group entries of a user never exceed
    [totalPointsEarned]: [awardPoints] of an amount [>= 0] keeps that
    bound (it adds the amount to the total, and to at most one entry), and
    so does every call of [processMessagePoints], for every stored user. *)
Theorem group_points_within_total (tz now : Z) (config : TaxConfig.t) :
  (forall points groupId u,
     (0 <= points)%Q ->
     (sumPointsEarned (User.groupActivity u) <= User.totalPointsEarned u)%Q ->
     (sumPointsEarned (User.groupActivity (awardPoints now points groupId u))
      <= User.totalPointsEarned (awardPoints now points groupId u))%Q)
  /\ (forall ctx text (db : Users),
        (forall k u, db !! k = Some u ->
           (sumPointsEarned (User.groupActivity u)
            <= User.totalPointsEarned u)%Q) ->
        forall k v,
          (processMessagePoints tz now config ctx text db).2 !! k = Some v ->
          (sumPointsEarned (User.groupActivity v)
           <= User.totalPointsEarned v)%Q).
Proof.
  assert (Haward : forall points groupId u,
     (0 <= points)%Q ->
     (sumPointsEarned (User.groupActivity u) <= User.totalPointsEarned u)%Q ->
     (sumPointsEarned (User.groupActivity (awardPoints now points groupId u))
      <= User.totalPointsEarned (awardPoints now points groupId u))%Q).
  { intros points groupId u Hpos Hinv.
    rewrite awardPoints_sumPointsEarned, awardPoints_totalPointsEarned.
    destruct groupId as [gid|]; [destruct (truthy gid)|]; lra. }
  split; [exact Haward|].
  intros ctx text db Hinv k v.
  destruct (processMessagePoints_cases tz now config ctx text db)
    as [->|(uid & gid & u & u1 & _ & _ & Hu & _ & _ & Hd & Hge & ->)];
    [by apply (Hinv k v)|].
  cbn [snd]. destruct (decide (uid = k)) as [->|Hne];
    [|rewrite lookup_insert_ne by done; by apply Hinv].
  set (c := calculateMessagePoints tz now k u1 text ctx gid config db) in *.
  rewrite lookup_insert_eq. intros Hv. apply (inj Some) in Hv. subst v.
  assert (Hc : (sumPointsEarned (User.groupActivity c.1.2)
                <= User.totalPointsEarned c.1.2)%Q).
  { destruct (calculateMessagePoints_reads tz now k u1 text ctx gid config db)
      as (Hc1 & _ & Hc3). fold c in Hc1, Hc3. rewrite Hc1, Hc3.
    pose proof (dailyCheck_sumPointsEarned tz now config gid u) as Hs.
    destruct (dailyCheck_reads tz now config gid u) as (_ & _ & _ & Ht).
    rewrite Hd in Hs, Ht. cbn [snd] in Hs, Ht. rewrite Hs, Ht.
    exact (Hinv k u Hu). }
  assert (Hp : (0 <= inject_Z c.1.1)%Q).
  { change 0%Q with (inject_Z 0). rewrite <- Zle_Qle. lia. }
  pose proof (Haward (inject_Z c.1.1) (Some gid) c.1.2 Hp Hc) as Ha.
  set (a := awardPoints now (inject_Z c.1.1) (Some gid) c.1.2) in *.
  assert (Hm : (sumPointsEarned
                  (User.groupActivity (incrementMessages now (Some gid) a))
                <= User.totalPointsEarned
                     (incrementMessages now (Some gid) a))%Q).
  { by rewrite incrementMessages_sumPointsEarned,
         incrementMessages_totalPointsEarned. }
  unfold milestoneTopUp.
  destruct (TaxConfig.enableMilestoneRewards config); [|exact Hm].
  cbv zeta. destruct (Qgtb _ 0) eqn:Hb; [|exact Hm].
  apply Haward; [|exact Hm]. apply Qgtb_gt in Hb. lra.
Qed.

Lemma group_points_within_total_witness :
  (sumPointsEarned (User.groupActivity (Example.member 999 0 None))
   <= User.totalPointsEarned (Example.member 999 0 None))%Q
  /\ forall v,
       (processMessagePoints 0 Example.noon Example.config Example.message
          "hello" (Example.users 999 0 None)).2 !! 42 = Some v ->
       (sumPointsEarned (User.groupActivity v) <= User.totalPointsEarned v)%Q.
Proof.
  assert (H : (sumPointsEarned (User.groupActivity (Example.member 999 0 None))
               <= User.totalPointsEarned (Example.member 999 0 None))%Q)
    by by_computation.
  split; [exact H|]. intros v.
  apply (proj2 (group_points_within_total 0 Example.noon Example.config)
           Example.message "hello"%string (Example.users 999 0 None)).
  intros k u Hk.
  destruct (decide (k = 42)) as [->|Hne].
  - injection Hk as <-. exact H.
  - unfold Example.users in Hk. rewrite lookup_singleton_ne in Hk by done.
    discriminate Hk.
Defined.

Lemma groupIds_insert (l : list GroupActivity.t) i g g' :
  l !! i = Some g ->
  GroupActivity.groupId g' = GroupActivity.groupId g ->
  GroupActivity.groupId <$> <[i := g']> l = GroupActivity.groupId <$> l.
Proof.
  intros Hi Hg. rewrite list_fmap_insert, Hg.
  apply list_insert_id. by rewrite list_lookup_fmap, Hi.
Qed.

Lemma findActivity_None_groupIds gid (l : list GroupActivity.t) :
  findActivity gid l = None -> gid ∉ GroupActivity.groupId <$> l.
Proof.
  unfold findActivity. rewrite list_find_None, Forall_forall.
  intros Hnone Hin. apply list_elem_of_fmap in Hin as (g & -> & Hg).
  by apply (Hnone g).
Qed.

Lemma touched_groupIds_NoDup tz now config u v :
  touched tz now config u v ->
  NoDup (GroupActivity.groupId <$> User.groupActivity u) ->
  NoDup (GroupActivity.groupId <$> User.groupActivity v).
Proof.
  assert (Hstep : forall (w : User.t) gid
                    (f : GroupActivity.t -> GroupActivity.t) (new : GroupActivity.t),
            (forall g, GroupActivity.groupId (f g) = GroupActivity.groupId g) ->
            GroupActivity.groupId new = gid ->
            NoDup (GroupActivity.groupId <$> User.groupActivity w) ->
            NoDup (GroupActivity.groupId <$>
                     match findActivity gid (User.groupActivity w) with
                     | Some (i, g) => <[i := f g]> (User.groupActivity w)
                     | None => User.groupActivity w ++ [new]
                     end)).
  { intros w gid f new Hf Hnew Hnd.
    destruct (findActivity gid (User.groupActivity w)) as [[i g]|] eqn:Hfind.
    - apply findActivity_Some in Hfind as [Hi _].
      by rewrite (groupIds_insert _ i g).
    - rewrite fmap_app. apply NoDup_app. split; [done|]. split.
      + intros x Hx Hx'. cbn in Hx'. apply list_elem_of_singleton in Hx'.
        subst x. rewrite Hnew in Hx.
        by apply (findActivity_None_groupIds gid (User.groupActivity w)).
      + cbn. apply NoDup_singleton. }
  induction 1 as [u | u v points groupId _ IH | u v groupId _ IH
                  | u v _ IH | u v i g _ IH Hi]; intros Hnd.
  - done.
  - specialize (IH Hnd). rewrite awardPoints_groupActivity_eq.
    destruct groupId as [gid|]; [|exact IH].
    destruct (truthy gid); [|exact IH].
    exact (Hstep v gid
      (λ g, GroupActivity.set_lastMessageDate (Some now)
              (GroupActivity.set_pointsEarned
                 (GroupActivity.pointsEarned g + points)%Q g))
      (GroupActivity.mk gid 0 points (Some now) 0%Q None)
      (λ _, eq_refl) eq_refl IH).
  - specialize (IH Hnd). rewrite incrementMessages_groupActivity_eq.
    destruct groupId as [gid|]; [|exact IH].
    destruct (truthy gid); [|exact IH].
    exact (Hstep v gid
      (λ g, GroupActivity.set_lastMessageDate (Some now)
              (GroupActivity.set_messagesCount
                 (GroupActivity.messagesCount g + 1) g))
      (GroupActivity.mk gid 1 0%Q (Some now) 0%Q None)
      (λ _, eq_refl) eq_refl IH).
  - rewrite updateStreak_groupActivity. by apply IH.
  - specialize (IH Hnd). cbn [User.groupActivity User.set_groupActivity].
    rewrite (groupIds_insert _ i g); [done | done |].
    unfold canAwardDailyPoints.
    by destruct (match GroupActivity.lastDailyReset g with
                 | Some reset => reset <? startOfDay tz now
                 | None => true
                 end).
Qed.

(** X8. A user never gets two entries for the same group: if the group ids
    of the entries of every stored user are pairwise distinct, they still
    are after [processMessagePoints] and after [awardWelcomeBonus] ([find]
    then update in place, or push when nothing was found). *)
Theorem one_entry_per_group (tz now : Z) (config : TaxConfig.t) (db : Users) :
  (forall k u, db !! k = Some u ->
     NoDup (GroupActivity.groupId <$> User.groupActivity u)) ->
  (forall ctx text k v,
     (processMessagePoints tz now config ctx text db).2 !! k = Some v ->
     NoDup (GroupActivity.groupId <$> User.groupActivity v))
  /\ (forall uid k v,
        (awardWelcomeBonus now config uid db).2 !! k = Some v ->
        NoDup (GroupActivity.groupId <$> User.groupActivity v)).
Proof.
  intros Hinv. split.
  - intros ctx text k v.
    destruct (processMessagePoints_touches tz now config ctx text db)
      as [->|(uid & u & w & _ & Hu & Ht & ->)]; [by apply Hinv|].
    destruct (decide (uid = k)) as [->|Hne].
    + rewrite lookup_insert_eq. intros [= <-].
      eapply touched_groupIds_NoDup; [exact Ht | by eapply Hinv].
    + rewrite lookup_insert_ne by done. by apply Hinv.
  - intros uid k v.
    destruct (awardWelcomeBonus_touches tz now config uid db)
      as [->|(u & w & Hu & Ht & ->)]; [by apply Hinv|].
    destruct (decide (uid = k)) as [->|Hne].
    + rewrite lookup_insert_eq. intros [= <-].
      eapply touched_groupIds_NoDup; [exact Ht | by eapply Hinv].
    + rewrite lookup_insert_ne by done. by apply Hinv.
Qed.

Lemma one_entry_per_group_witness :
  exists v,
    (processMessagePoints 0 Example.noon Example.config
       (mkContext (Some 42) (Some 8) false) "hello"
       (Example.users 999 0 None)).2 !! 42 = Some v
    /\ NoDup (GroupActivity.groupId <$> User.groupActivity v).
Proof.
  assert (Hinv : forall k u, Example.users 999 0 None !! k = Some u ->
            NoDup (GroupActivity.groupId <$> User.groupActivity u)).
  { intros k u Hk. destruct (decide (k = 42)) as [->|Hne].
    - injection Hk as <-. cbn. apply NoDup_singleton.
    - unfold Example.users in Hk. rewrite lookup_singleton_ne in Hk by done.
      discriminate Hk. }
  destruct ((processMessagePoints 0 Example.noon Example.config
               (mkContext (Some 42) (Some 8) false) "hello"
               (Example.users 999 0 None)).2 !! 42) as [v|] eqn:Hv;
    [|by_computation].
  exists v. split; [reflexivity|].
  exact (proj1 (one_entry_per_group 0 Example.noon Example.config
                  (Example.users 999 0 None) Hinv)
           (mkContext (Some 42) (Some 8) false) "hello"%string 42 v Hv).
Defined.

(** ** The points engine: the first message of the day *)

Lemma isFirstMessageToday_lastMessage tz now u gid :
  isFirstMessageToday tz now u gid
  = match lastMessage gid u with
    | Some last => last <? startOfDay tz now
    | None => true
    end.
Proof.
  unfold isFirstMessageToday, lastMessage.
  by destruct (findActivity gid (User.groupActivity u)) as [[i g]|].
Qed.

Lemma awardPoints_lastMessage now points gid u :
  truthy gid = true ->
  lastMessage gid (awardPoints now points (Some gid) u) = Some now.
Proof.
  intros Hgid. unfold lastMessage.
  rewrite awardPoints_groupActivity_eq, Hgid.
  destruct (findActivity gid (User.groupActivity u)) as [[i g]|] eqn:Hfind.
  - destruct (findActivity_Some _ _ _ _ Hfind) as [_ Hg].
    by erewrite findActivity_insert; [| exact Hfind | exact Hg].
  - by erewrite findActivity_append; [| exact Hfind | reflexivity].
Qed.

Lemma awardPoints_None_lastMessage now points gid u :
  lastMessage gid (awardPoints now points None u) = lastMessage gid u.
Proof. unfold lastMessage. by rewrite awardPoints_groupActivity_eq. Qed.

Lemma incrementMessages_lastMessage now gid u :
  truthy gid = true ->
  lastMessage gid (incrementMessages now (Some gid) u) = Some now.
Proof.
  intros Hgid. unfold lastMessage.
  rewrite incrementMessages_groupActivity_eq, Hgid.
  destruct (findActivity gid (User.groupActivity u)) as [[i g]|] eqn:Hfind.
  - destruct (findActivity_Some _ _ _ _ Hfind) as [_ Hg].
    by erewrite findActivity_insert; [| exact Hfind | exact Hg].
  - by erewrite findActivity_append; [| exact Hfind | reflexivity].
Qed.

Lemma milestoneTopUp_lastMessage now config points gid u :
  lastMessage gid (milestoneTopUp now config points u) = lastMessage gid u.
Proof.
  unfold milestoneTopUp.
  destruct (TaxConfig.enableMilestoneRewards config); [|done].
  cbv zeta. destruct (Qgtb _ 0); [|done]. apply awardPoints_None_lastMessage.
Qed.

Lemma dailyCheck_lastMessage tz now config chatId gid u :
  lastMessage gid (dailyCheck tz now config chatId u).2 = lastMessage gid u.
Proof.
  unfold dailyCheck, lastMessage.
  destruct (findActivity chatId (User.groupActivity u)) as [[i g]|] eqn:Hf;
    [|done].
  apply findActivity_Some in Hf as [Hi _].
  assert (Hg : GroupActivity.groupId (canAwardDailyPoints tz now g config).2
               = GroupActivity.groupId g
               /\ GroupActivity.lastMessageDate
                    (canAwardDailyPoints tz now g config).2
                  = GroupActivity.lastMessageDate g).
  { unfold canAwardDailyPoints.
    by destruct (match GroupActivity.lastDailyReset g with
                 | Some reset => reset <? startOfDay tz now
                 | None => true
                 end). }
  destruct (canAwardDailyPoints tz now g config) as [ok g'].
  cbn [snd User.groupActivity User.set_groupActivity] in *.
  destruct Hg as [Hg1 Hg2].
  exact (findActivity_insert_read GroupActivity.lastMessageDate None gid
           (User.groupActivity u) i g g' Hi Hg1 Hg2).
Qed.

Lemma awardPoints_streak now points groupId u :
  User.dailyStreak (awardPoints now points groupId u) = User.dailyStreak u
  /\ User.lastStreakDate (awardPoints now points groupId u)
     = User.lastStreakDate u.
Proof.
  unfold awardPoints. destruct groupId as [gid|]; [|done].
  destruct (truthy gid); [|done].
  by destruct (findActivity _ _) as [[i g]|].
Qed.

Lemma incrementMessages_streak now groupId u :
  User.dailyStreak (incrementMessages now groupId u) = User.dailyStreak u
  /\ User.lastStreakDate (incrementMessages now groupId u)
     = User.lastStreakDate u.
Proof.
  unfold incrementMessages. destruct groupId as [gid|]; [|done].
  destruct (truthy gid); [|done].
  by destruct (findActivity _ _) as [[i g]|].
Qed.

Lemma milestoneTopUp_streak now config points u :
  User.dailyStreak (milestoneTopUp now config points u) = User.dailyStreak u
  /\ User.lastStreakDate (milestoneTopUp now config points u)
     = User.lastStreakDate u.
Proof.
  unfold milestoneTopUp.
  destruct (TaxConfig.enableMilestoneRewards config); [|done].
  cbv zeta. destruct (Qgtb _ 0); [|done]. apply awardPoints_streak.
Qed.

Lemma dailyCheck_streak tz now config chatId u :
  User.dailyStreak (dailyCheck tz now config chatId u).2 = User.dailyStreak u
  /\ User.lastStreakDate (dailyCheck tz now config chatId u).2
     = User.lastStreakDate u.
Proof.
  unfold dailyCheck.
  destruct (findActivity chatId (User.groupActivity u)) as [[i g]|]; [|done].
  by destruct (canAwardDailyPoints tz now g config) as [ok g'].
Qed.

(** When the message is not the first of the day, [enableDailyBonus] is not
    looked at and the user is handed back as it came. *)
Lemma calculateMessagePoints_not_first tz now uid u text ctx gid config db :
  isFirstMessageToday tz now u gid = false ->
  calculateMessagePoints tz now uid u text ctx gid
    (set_enableDailyBonus false config) db
  = calculateMessagePoints tz now uid u text ctx gid config db
  /\ (calculateMessagePoints tz now uid u text ctx gid config db).1.2 = u.
Proof.
  intros Hfirst. unfold calculateMessagePoints. rewrite Hfirst.
  split; reflexivity.
Qed.

Lemma processMessagePoints_not_first tz now config ctx text (db : Users)
    uid gid v :
  from ctx = Some uid -> chat ctx = Some gid -> db !! uid = Some v ->
  isFirstMessageToday tz now v gid = false ->
  processMessagePoints tz now config ctx text db
  = processMessagePoints tz now (set_enableDailyBonus false config) ctx text db
  /\ forall v',
       (processMessagePoints tz now config ctx text db).2 !! uid = Some v' ->
       User.dailyStreak v' = User.dailyStreak v
       /\ User.lastStreakDate v' = User.lastStreakDate v.
Proof.
  intros Hfrom Hchat Hv Hfirst.
  assert (Hu1 : isFirstMessageToday tz now
                  (dailyCheck tz now config gid v).2 gid = false).
  { rewrite isFirstMessageToday_lastMessage, dailyCheck_lastMessage,
      <- isFirstMessageToday_lastMessage. exact Hfirst. }
  split.
  - rewrite !processMessagePoints_unfold, Hfrom, Hchat, Hv.
    destruct (negb (User.isVerified v)); [done|].
    change (canAwardPoints now v (set_enableDailyBonus false config))
      with (canAwardPoints now v config).
    destruct (negb (canAwardPoints now v config)); [done|].
    change (dailyCheck tz now (set_enableDailyBonus false config) gid v)
      with (dailyCheck tz now config gid v).
    destruct (dailyCheck tz now config gid v) as [allowed u1].
    cbn [snd] in Hu1. destruct (negb allowed); [done|].
    rewrite (proj1 (calculateMessagePoints_not_first tz now uid u1 text ctx
                      gid config db Hu1)).
    reflexivity.
  - intros v'.
    destruct (processMessagePoints_cases tz now config ctx text db)
      as [->|(uid' & gid' & u & u1 & Hfrom' & Hchat' & Hu & _ & _ & Hd & _
              & ->)].
    + cbn [snd]. rewrite Hv. by intros [= <-].
    + assert (uid' = uid) as -> by congruence.
      assert (gid' = gid) as -> by congruence.
      assert (u = v) as -> by congruence.
      rewrite Hd in Hu1. cbn [snd] in Hu1 |- *.
      rewrite (proj2 (calculateMessagePoints_not_first tz now uid u1 text ctx
                        gid config db Hu1)).
      pose proof (dailyCheck_streak tz now config gid v) as Hs.
      rewrite Hd in Hs. cbn [snd] in Hs.
      set (p := (calculateMessagePoints tz now uid u1 text ctx gid config
                   db).1.1).
      rewrite lookup_insert_eq. intros Hv'. apply (inj Some) in Hv'.
      subst v'.
      destruct (milestoneTopUp_streak now config p
                  (incrementMessages now (Some gid)
                     (awardPoints now (inject_Z p) (Some gid) u1)))
        as [-> ->].
      destruct (incrementMessages_streak now (Some gid)
                  (awardPoints now (inject_Z p) (Some gid) u1)) as [-> ->].
      destruct (awardPoints_streak now (inject_Z p) (Some gid) u1)
        as [-> ->].
      exact Hs.
Qed.

(** X9. The first message of the day counts once per day and group.  After
    a call of [processMessagePoints] that awarded points in a group (id not
    0), the stored sender has a message in that group dated [now]: a later
    message is the first of its day exactly when its day starts after
    [now]; and every further call for that sender and group on the same
    calendar day, whatever its configuration and text, gives the result it
    would give with [enableDailyBonus] off, and leaves [dailyStreak] and
    [lastStreakDate] as they are. *)
Theorem daily_bonus_once_a_day (tz now : Z) (config : TaxConfig.t)
    (ctx : Context) (text : string) (db : Users) (uid gid : Z) :
  from ctx = Some uid -> chat ctx = Some gid -> gid <> 0 ->
  (processMessagePoints tz now config ctx text db).1 <> 0 ->
  exists v,
    (processMessagePoints tz now config ctx text db).2 !! uid = Some v
    /\ (forall now',
          isFirstMessageToday tz now' v gid = (now <? startOfDay tz now'))
    /\ (forall now' config' ctx' text',
          from ctx' = Some uid -> chat ctx' = Some gid ->
          dayNumber tz now' = dayNumber tz now ->
          processMessagePoints tz now' config' ctx' text'
            (processMessagePoints tz now config ctx text db).2
          = processMessagePoints tz now' (set_enableDailyBonus false config')
              ctx' text' (processMessagePoints tz now config ctx text db).2
          /\ forall v',
               (processMessagePoints tz now' config' ctx' text'
                  (processMessagePoints tz now config ctx text db).2).2
                 !! uid = Some v' ->
               User.dailyStreak v' = User.dailyStreak v
               /\ User.lastStreakDate v' = User.lastStreakDate v).
Proof.
  intros Hfrom Hchat Hgid Hpos.
  assert (Htruthy : truthy gid = true).
  { unfold truthy. by apply negb_true_iff, Z.eqb_neq. }
  destruct (processMessagePoints_awarded _ _ _ _ _ _ Hpos)
    as (uid' & gid' & u & u1 & Hfrom' & Hchat' & Hu & Hver & Hcool & Hd).
  assert (uid' = uid) as -> by congruence.
  assert (gid' = gid) as -> by congruence.
  rewrite (processMessagePoints_awards tz now config ctx text db uid gid u u1
             Hfrom Hchat Hu Hver Hcool Hd).
  cbn [snd].
  set (c := calculateMessagePoints tz now uid u1 text ctx gid config db).
  set (v := milestoneTopUp now config c.1.1
              (incrementMessages now (Some gid)
                 (awardPoints now (inject_Z c.1.1) (Some gid) c.1.2))).
  assert (Hlast : lastMessage gid v = Some now).
  { unfold v. rewrite milestoneTopUp_lastMessage.
    by apply incrementMessages_lastMessage. }
  assert (Hfirst : forall now',
            isFirstMessageToday tz now' v gid = (now <? startOfDay tz now')).
  { intros now'. by rewrite isFirstMessageToday_lastMessage, Hlast. }
  exists v. split; [apply lookup_insert_eq|]. split; [exact Hfirst|].
  intros now' config' ctx' text' Hfrom2 Hchat2 Hday.
  apply (processMessagePoints_not_first tz now' config' ctx' text'
           (<[uid := v]> db) uid gid v Hfrom2 Hchat2);
    [apply lookup_insert_eq|].
  rewrite Hfirst. apply Z.ltb_ge.
  destruct (Z_lt_le_dec now (startOfDay tz now')) as [Hlt|]; [|done].
  apply before_startOfDay in Hlt. lia.
Qed.

Lemma daily_bonus_once_a_day_witness :
  (processMessagePoints 0 Example.noon Example.config Example.message "hello"
     (Example.users 100 0 None)).1 <> 0
  /\ exists v,
       (processMessagePoints 0 Example.noon Example.config Example.message
          "hello" (Example.users 100 0 None)).2 !! 42 = Some v
       /\ isFirstMessageToday 0 (Example.noon + 60000) v 7 = false
       /\ isFirstMessageToday 0 (Example.noon + msPerDay) v 7 = true.
Proof.
  assert (H : (processMessagePoints 0 Example.noon Example.config
                 Example.message "hello" (Example.users 100 0 None)).1 <> 0)
    by by_computation.
  split; [exact H|].
  destruct (daily_bonus_once_a_day 0 Example.noon Example.config
              Example.message "hello" (Example.users 100 0 None) 42 7
              eq_refl eq_refl ltac:(lia) H) as (v & Hv & Hfirst & _).
  exists v. split; [exact Hv|]. split; rewrite Hfirst; reflexivity.
Defined.

(** ** The streak over several days *)

Lemma last_cons_default {A : Type} (x : A) (l : list A) (d d' : A) :
  List.last (x :: l) d = List.last (x :: l) d'.
Proof.
  revert x. induction l as [|y l IH]; intros x; [reflexivity|].
  exact (IH y).
Qed.

Lemma updateStreaks_run zone times : forall start (u : User.t),
  User.lastStreakDate u = Some start ->
  fullDaysApart zone start times ->
  User.dailyStreak (updateStreaks zone times u)
  = User.dailyStreak u + Z.of_nat (length times)
  /\ User.lastStreakDate (updateStreaks zone times u)
     = Some (List.last times start).
Proof.
  induction times as [|t rest IH]; intros start u Hlast Hrun.
  - cbn. split; [lia | done].
  - destruct Hrun as [Hday Hrest].
    destruct (updateStreak_by_midnights zone t u) as (Hl & _ & Hstep).
    destruct (Hstep start Hlast) as (Hs & _ & _). specialize (Hs Hday).
    destruct (IH t (updateStreak zone t u) Hl Hrest) as [IHs IHl].
    change (updateStreaks zone (t :: rest) u)
      with (updateStreaks zone rest (updateStreak zone t u)).
    split.
    + rewrite IHs, Hs. cbn [length]. lia.
    + rewrite IHl. destruct rest as [|r rest]; [reflexivity|].
      f_equal. exact (last_cons_default r rest t start).
Qed.

(** In a zone whose offset never changes, instants on consecutive
    calendar days have their midnights exactly 24 hours apart. *)
Lemma fullDaysApart_fixed (tz : Z) (times : list Z) : forall start,
  consecutiveDays tz start times ->
  fullDaysApart (fixedZone tz) start times.
Proof.
  induction times as [|t rest IH]; intros start; [done|].
  intros [Hday Hrest]. split; [|by apply IH].
  rewrite !localMidnight_fixed. unfold startOfDay. rewrite Hday.
  unfold msPerDay. lia.
Qed.

(** X10. The streak counts runs of days that are a full day apart, in any
    time zone.  When [updateStreak] runs at a first instant and then at
    instants each of whose local midnights lies at least 24 and less than
    48 hours after that of the one before, every one of these calls adds
    one to the streak the first call left, and [lastStreakDate] is the last
    instant; a further call whose local midnight is less than 24 hours
    after that of the last one changes nothing but that date, and one whose
    local midnight is 48 hours after it or more sets the streak back
    to 1. *)
Theorem streak_counts_consecutive_days (zone : Zone) (u : User.t)
    (first : Z) (rest : list Z) :
  fullDaysApart zone first rest ->
  let v := updateStreaks zone (first :: rest) u in
  User.dailyStreak v
  = User.dailyStreak (updateStreak zone first u) + Z.of_nat (length rest)
  /\ User.lastStreakDate v = Some (List.last rest first)
  /\ (forall again,
        localMidnight zone again
        - localMidnight zone (List.last rest first) < msPerDay ->
        User.dailyStreak (updateStreak zone again v) = User.dailyStreak v)
  /\ (forall late,
        2 * msPerDay
        <= localMidnight zone late
           - localMidnight zone (List.last rest first) ->
        User.dailyStreak (updateStreak zone late v) = 1).
Proof.
  intros Hrun v.
  destruct (updateStreaks_run zone rest first (updateStreak zone first u)
              eq_refl Hrun) as [Hs Hl].
  change (updateStreaks zone rest (updateStreak zone first u)) with v
    in Hs, Hl.
  split; [exact Hs|]. split; [exact Hl|]. split.
  - intros again Hday.
    destruct (updateStreak_by_midnights zone again v) as (_ & _ & Hstep).
    by apply (Hstep _ Hl).
  - intros late Hday.
    destruct (updateStreak_by_midnights zone late v) as (_ & _ & Hstep).
    by apply (Hstep _ Hl).
Qed.

(** In New York, calls at noon UTC from 30 October to 2 November 2026: the
    clock is put back on 1 November, whose local day has 25 hours, and
    each of the three later days counts. *)
Lemma streak_counts_consecutive_days_witness :
  fullDaysApart newYork2026 1793361600000
    [1793448000000; 1793534400000; 1793620800000]
  /\ User.dailyStreak
       (updateStreaks newYork2026
          [1793361600000; 1793448000000; 1793534400000; 1793620800000]
          (Example.member 100 0 None))
     = User.dailyStreak
         (updateStreak newYork2026 1793361600000 (Example.member 100 0 None))
       + 3.
Proof.
  assert (H : fullDaysApart newYork2026 1793361600000
                [1793448000000; 1793534400000; 1793620800000]).
  { repeat split; by_computation. }
  split; [exact H|].
  exact (proj1 (streak_counts_consecutive_days newYork2026
                  (Example.member 100 0 None) 1793361600000
                  [1793448000000; 1793534400000; 1793620800000] H)).
Defined.

(** ** The streak multiplier *)

Lemma streakLoop_stops streak (table : list StreakThreshold.t) m :
  (forall j th, table !! j = Some th ->
     (streak < StreakThreshold.days th)%Q) ->
  streakLoop streak table m = m.
Proof.
  destruct table as [|h rest]; [done|]. intros Hnone. cbn [streakLoop].
  pose proof (Hnone 0%nat h eq_refl) as Hh. apply Qgeb_lt in Hh.
  by rewrite Hh.
Qed.

Lemma streakLoop_sorted streak (table : list StreakThreshold.t) :
  forall m k th,
    sortedBy StreakThreshold.days table ->
    table !! k = Some th ->
    (StreakThreshold.days th <= streak)%Q ->
    (forall j th', table !! j = Some th' -> (k < j)%nat ->
       (streak < StreakThreshold.days th')%Q) ->
    streakLoop streak table m = StreakThreshold.multiplier th.
Proof.
  induction table as [|h rest IH]; intros m k th Hsorted Hk Hreach Hlater;
    [by rewrite lookup_nil in Hk|].
  apply sortedBy_cons in Hsorted as [Hh Hrest].
  cbn [streakLoop]. destruct k as [|k]; cbn in Hk.
  - injection Hk as ->. apply Qgeb_ge in Hreach. rewrite Hreach.
    apply streakLoop_stops. intros j th' Hj.
    apply (Hlater (S j) th' Hj). lia.
  - assert (Hle : (StreakThreshold.days h <= streak)%Q).
    { rewrite Forall_lookup in Hh. pose proof (Hh k th Hk). lra. }
    apply Qgeb_ge in Hle. rewrite Hle.
    apply (IH _ k th Hrest Hk Hreach). intros j th' Hj Hlt.
    apply (Hlater (S j) th' Hj). lia.
Qed.

(** X11. [getStreakMultiplier] never exceeds [maxStreakMultiplier].  On a
    table sorted by [days] (as [validateConfigUpdates] stores it) it is the
    multiplier of the last threshold that the streak reaches, capped by
    [maxStreakMultiplier]; when the streak is below the first threshold of
    any table it is 1, capped likewise. *)
Theorem streak_multiplier_of_reached_threshold (streak : Z)
    (config : TaxConfig.t) :
  (getStreakMultiplier streak config
   <= TaxConfig.maxStreakMultiplier config)%Q
  /\ (forall k th,
        sortedBy StreakThreshold.days (TaxConfig.streakMultipliers config) ->
        TaxConfig.streakMultipliers config !! k = Some th ->
        (StreakThreshold.days th <= inject_Z streak)%Q ->
        (forall j th', TaxConfig.streakMultipliers config !! j = Some th' ->
           (k < j)%nat -> (inject_Z streak < StreakThreshold.days th')%Q) ->
        getStreakMultiplier streak config
        = Qmin (StreakThreshold.multiplier th)
            (TaxConfig.maxStreakMultiplier config))
  /\ ((forall th, TaxConfig.streakMultipliers config !! 0%nat = Some th ->
         (inject_Z streak < StreakThreshold.days th)%Q) ->
      getStreakMultiplier streak config
      = Qmin 1 (TaxConfig.maxStreakMultiplier config)).
Proof.
  unfold getStreakMultiplier. split; [apply Q.le_min_r|]. split.
  - intros k th Hsorted Hk Hreach Hlater.
    by rewrite (streakLoop_sorted _ _ 1 k th Hsorted Hk Hreach Hlater).
  - intros Hfirst.
    destruct (TaxConfig.streakMultipliers config) as [|h rest]; [done|].
    cbn [streakLoop]. pose proof (Hfirst h eq_refl) as Hh.
    apply Qgeb_lt in Hh. by rewrite Hh.
Qed.

Lemma streak_multiplier_of_reached_threshold_witness :
  getStreakMultiplier 10 Example.config
  = Qmin 1.5 (TaxConfig.maxStreakMultiplier Example.config)
  /\ getStreakMultiplier 2 Example.config
     = Qmin 1 (TaxConfig.maxStreakMultiplier Example.config).
Proof.
  split.
  - refine (proj1 (proj2 (streak_multiplier_of_reached_threshold 10
                            Example.config))
              1%nat (StreakThreshold.mk 7 1.5) _ eq_refl _ _).
    + intros a b xa xb Ha Hb Hab.
      destruct a as [|[|[|[|a]]]]; try discriminate Ha;
        destruct b as [|[|[|[|b]]]]; try discriminate Hb;
        try lia; injection Ha as <-; injection Hb as <-; by_computation.
    + by_computation.
    + intros j th' Hj Hlt.
      destruct j as [|[|[|[|j]]]]; try lia; try discriminate Hj;
        injection Hj as <-; by_computation.
  - refine (proj2 (proj2 (streak_multiplier_of_reached_threshold 2
                            Example.config)) _).
    intros th Hth. injection Hth as <-. by_computation.
Defined.

(** ** The welcome bonus *)

(** X12. The welcome bonus is an award like any other for the cooldown.
    For a stored user and [enableWelcomeBonus] on, [awardWelcomeBonus]
    returns [welcomeBonus], adds it to [taxPoints] and to
    [totalPointsEarned], books it on no group and counts no message; and
    it starts the message cooldown: every message of that user less than
    [cooldownSeconds] later gets 0 points and writes nothing. *)
Theorem welcome_bonus_starts_cooldown (now : Z) (config : TaxConfig.t)
    (uid : Z) (db : Users) (u : User.t) :
  db !! uid = Some u ->
  TaxConfig.enableWelcomeBonus config = true ->
  (awardWelcomeBonus now config uid db).1 = TaxConfig.welcomeBonus config
  /\ exists v,
       (awardWelcomeBonus now config uid db).2 = <[uid := v]> db
       /\ User.taxPoints v
          = (User.taxPoints u + TaxConfig.welcomeBonus config)%Q
       /\ User.totalPointsEarned v
          = (User.totalPointsEarned u + TaxConfig.welcomeBonus config)%Q
       /\ User.groupActivity v = User.groupActivity u
       /\ User.messagesCount v = User.messagesCount u
       /\ forall tz now' config' ctx text,
            from ctx = Some uid ->
            (inject_Z (now' - now)
             < TaxConfig.cooldownSeconds config' * 1000)%Q ->
            processMessagePoints tz now' config' ctx text
              (awardWelcomeBonus now config uid db).2
            = (0, (awardWelcomeBonus now config uid db).2).
Proof.
  intros Hu Hon. unfold awardWelcomeBonus. rewrite Hu, Hon. cbn [negb fst snd].
  split; [reflexivity|].
  exists (awardPoints now (TaxConfig.welcomeBonus config) None u).
  split; [reflexivity|]. repeat (split; [reflexivity|]).
  intros tz now' config' ctx text Hfrom Hsoon.
  rewrite processMessagePoints_unfold, Hfrom.
  destruct (chat ctx) as [gid|]; [|reflexivity].
  unfold save. rewrite lookup_insert_eq.
  destruct (negb (User.isVerified _)); [reflexivity|].
  assert (Hcool : canAwardPoints now'
                    (awardPoints now (TaxConfig.welcomeBonus config) None u)
                    config' = false).
  { unfold canAwardPoints. cbn [awardPoints User.lastPointAward
      User.set_lastPointAward]. cbv zeta. by apply Qgeb_lt. }
  by rewrite Hcool.
Qed.

Lemma welcome_bonus_starts_cooldown_witness :
  (awardWelcomeBonus Example.noon Example.config 42
     (Example.users 100 0 None)).1 = 500%Q
  /\ processMessagePoints 0 (Example.noon + 10000) Example.config
       Example.message "hello"
       (awardWelcomeBonus Example.noon Example.config 42
          (Example.users 100 0 None)).2
     = (0, (awardWelcomeBonus Example.noon Example.config 42
              (Example.users 100 0 None)).2).
Proof.
  destruct (welcome_bonus_starts_cooldown Example.noon Example.config 42
              (Example.users 100 0 None) (Example.member 100 0 None)
              eq_refl eq_refl) as (Hpoints & v & _ & _ & _ & _ & _ & Hcool).
  split; [exact Hpoints|].
  apply (Hcool 0 (Example.noon + 10000) Example.config Example.message
           "hello"%string eq_refl).
  by_computation.
Defined.

(** ** The join challenge: what a completed verification writes *)

Section VerificationEffects.
Variable base64Decode : string -> string.
Variable parseInt : string -> option Z.

(** A completion message is only sent at the end of the whole chain of
    checks. *)
Lemma processVerification_complete_inv now config telegramOk responder token
    st welcomePoints :
  (processVerification base64Decode parseInt now config telegramOk responder
     token st).1 = VerificationComplete welcomePoints ->
  exists userId groupId i s,
    parseInt (nth 0 (split "_" (base64Decode token)) ""%string) = Some userId
    /\ parseInt (nth 1 (split "_" (base64Decode token)) ""%string)
       = Some groupId
    /\ responder = Some userId
    /\ findSession userId groupId (base64Decode token) (sessions st)
       = Some (i, s)
    /\ now <= Session.expiresAt s
    /\ processVerification base64Decode parseInt now config telegramOk
         responder token st
       = (VerificationComplete
            (awardWelcomeBonus now config userId
               match users st !! userId with
               | Some u =>
                   <[userId := User.set_verificationDate (Some now)
                                 (User.set_isVerified true u)]> (users st)
               | None => users st
               end).1,
          mkStore (<[i := Session.set_isCompleted true s]> (sessions st))
            (awardWelcomeBonus now config userId
               match users st !! userId with
               | Some u =>
                   <[userId := User.set_verificationDate (Some now)
                                 (User.set_isVerified true u)]> (users st)
               | None => users st
               end).2).
Proof.
  unfold processVerification.
  destruct (String.eqb token ""); [done|].
  destruct (length _ <? 3)%nat; [done|].
  destruct (parseInt (nth 0 _ _)) as [userId|]; [|done].
  destruct (parseInt (nth 1 _ _)) as [groupId|]; [|done].
  destruct (bool_decide_reflect (responder = Some userId)) as [Hme|];
    [|done].
  cbn [negb].
  destruct (findSession _ _ _ _) as [[i s]|] eqn:Hfind; [|done].
  destruct (Z.ltb_spec (Session.expiresAt s) now) as [|Hlive]; [done|].
  destruct telegramOk; [|done]. cbn [negb]. intros _.
  exists userId, groupId, i, s. repeat (split; [done|]).
  by destruct (awardWelcomeBonus _ _ _ _).
Qed.


(** X14. A completed verification completes only the session of its
    token.  After it, the timer of a join still removes the (now verified)
    member from the group exactly when the member had a second pending
    session for that group, as is left behind by an earlier join. *)
Theorem stale_session_removes_verified_member (now : Z)
    (config : TaxConfig.t) (telegramOk : bool) (responder : option Z)
    (token : string) (st : Store) (welcomePoints : Q) (userId groupId : Z) :
  (processVerification base64Decode parseInt now config telegramOk responder
     token st).1 = VerificationComplete welcomePoints ->
  parseInt (nth 0 (split "_" (base64Decode token)) ""%string) = Some userId ->
  parseInt (nth 1 (split "_" (base64Decode token)) ""%string)
  = Some groupId ->
  timeoutRemoves groupId userId
    (processVerification base64Decode parseInt now config telegramOk
       responder token st).2 = true
  <-> exists j j' s s',
        j <> j' /\ sessions st !! j = Some s /\ sessions st !! j' = Some s'
        /\ pendingOf userId groupId s /\ pendingOf userId groupId s'.
Proof.
  intros Hreply Huser Hgroup.
  destruct (processVerification_complete_inv _ _ _ _ _ _ _ Hreply)
    as (userId' & groupId' & i & s & Huser' & Hgroup' & _ & Hfind & _ & ->).
  assert (userId' = userId) as -> by congruence.
  assert (groupId' = groupId) as -> by congruence.
  apply findSession_Some in Hfind as (Hi & Hu & Hg & _ & Hp).
  assert (Hlen : (i < length (sessions st))%nat) by (by eapply lookup_lt_Some).
  unfold timeoutRemoves. cbn [snd sessions]. split.
  - destruct (list_find _ _) as [[j s']|] eqn:Hj; [intros _|done].
    apply list_find_Some in Hj as (Hj & Hs' & _).
    destruct (decide (i = j)) as [->|Hne].
    + rewrite list_lookup_insert_eq in Hj by done. injection Hj as <-.
      by destruct Hs' as (_ & _ & Hc).
    + rewrite list_lookup_insert_ne in Hj by done.
      by exists i, j, s, s'.
  - intros (j & j' & t & t' & Hne & Hj & Hj' & Ht & Ht').
    assert (Hex : exists k x,
              <[i := Session.set_isCompleted true s]> (sessions st) !! k
              = Some x /\ pendingOf userId groupId x).
    { destruct (decide (i = j)) as [->|Hij].
      - exists j', t'. by rewrite list_lookup_insert_ne.
      - exists j, t. by rewrite list_lookup_insert_ne. }
    destruct Hex as (k & x & Hk & Hx).
    destruct (list_find _ _) as [[a b]|] eqn:Hnone; [done|].
    apply list_find_None in Hnone. rewrite Forall_lookup in Hnone.
    by destruct (Hnone k x Hk).
Qed.
End VerificationEffects.


(** User 42 joined group 7 at instants 1000 and 2000 and answers the
    second challenge: the timer of the first join still removes them. *)
Lemma stale_session_removes_verified_member_witness :
  timeoutRemoves 7 42
    (processVerification Example.decode Example.parseDecimal 3000
       Example.config true (Some 42) "42_7_2000"
       (mkStore [Session.mk 42 7 "42_7_1000" false 301000 (Some 5);
                 Session.mk 42 7 "42_7_2000" false 302000 (Some 6)]
          (users Example.pending))).2 = true.
Proof.
  apply (proj2 (stale_session_removes_verified_member Example.decode
                  Example.parseDecimal 3000 Example.config true (Some 42)
                  "42_7_2000"
                  (mkStore [Session.mk 42 7 "42_7_1000" false 301000 (Some 5);
                            Session.mk 42 7 "42_7_2000" false 302000 (Some 6)]
                     (users Example.pending))
                  500 42 7 eq_refl eq_refl eq_refl)).
  exists 0%nat, 1%nat, (Session.mk 42 7 "42_7_1000" false 301000 (Some 5)),
    (Session.mk 42 7 "42_7_2000" false 302000 (Some 6)).
  split; [lia|]. split; [reflexivity|]. split; [reflexivity|].
  split; by_computation.
Defined.

(** ** The join challenge: from the link to the verification *)

Lemma split_nonempty sep (s : string) : split sep s <> [].
Proof.
  destruct s as [|c r]; [done|]. cbn [split].
  destruct (Ascii.eqb c sep); [done|]. by destruct (split sep r).
Qed.

Lemma split_single_inv sep c (r : string) :
  split sep (String c r) = [String c r] ->
  Ascii.eqb c sep = false /\ split sep r = [r].
Proof.
  cbn [split]. destruct (Ascii.eqb c sep); [done|]. intros H. split; [done|].
  pose proof (split_nonempty sep r) as Hne.
  destruct (split sep r) as [|part parts]; [done|]. by injection H as -> ->.
Qed.

(** Splitting a text whose first part holds no separator. *)
Lemma split_app sep (a b p : string) (ps : list string) :
  split sep a = [a] -> split sep b = p :: ps ->
  split sep (a ++ b) = (a ++ p)%string :: ps.
Proof.
  intros Ha Hb. induction a as [|c r IH]; [exact Hb|].
  apply split_single_inv in Ha as [Hc Hr].
  change (split sep (String c (r ++ b)) = String c (r ++ p) :: ps).
  cbn [split]. by rewrite Hc, (IH Hr).
Qed.

Lemma split_app_sep sep (a t : string) :
  split sep a = [a] ->
  split sep (a ++ String sep t) = a :: split sep t.
Proof.
  intros Ha. induction a as [|c r IH].
  - change (split sep (String sep t) = ""%string :: split sep t).
    cbn [split]. by rewrite Ascii.eqb_refl.
  - apply split_single_inv in Ha as [Hc Hr].
    change (split sep (String c (r ++ String sep t))
            = String c r :: split sep t).
    cbn [split]. by rewrite Hc, (IH Hr).
Qed.

Lemma substring_all (s : string) : String.substring 0 (String.length s) s = s.
Proof. induction s as [|c r IH]; [done|]. cbn. by rewrite IH. Qed.

Lemma dropPrefix_verify (s : string) : dropPrefix 7 ("verify_" ++ s) = s.
Proof.
  unfold dropPrefix. cbv [String.append].
  cbn [String.length Nat.sub String.substring]. rewrite Nat.sub_0_r.
  apply substring_all.
Qed.

(** The text that the deep link of a join makes the client send. *)
Lemma handleVerificationStart_link base64Decode parseInt now config
    telegramOk responder (encoded : string) st :
  split " " encoded = [encoded] ->
  handleVerificationStart base64Decode parseInt now config telegramOk
    responder ("/start verify_" ++ encoded) st
  = (Processed
       (processVerification base64Decode parseInt now config telegramOk
          responder encoded st).1,
     (processVerification base64Decode parseInt now config telegramOk
        responder encoded st).2).
Proof.
  intros Hns. unfold handleVerificationStart.
  change ("/start verify_" ++ encoded)%string
    with ("/start" ++ String " " ("verify_" ++ encoded))%string.
  rewrite (split_app_sep " " "/start" _ eq_refl).
  rewrite (split_app " " "verify_" encoded encoded [] eq_refl Hns).
  cbn [length Nat.ltb Nat.leb nth]. cbv zeta.
  rewrite dropPrefix_verify.
  assert (Hcmd : negb ("verify_" ++ encoded =? "")%string
                 && String.prefix "verify_" ("verify_" ++ encoded) = true)
    by (destruct encoded; reflexivity).
  by rewrite Hcmd.
Qed.

(** The chain of checks of [processVerification], passed. *)
Lemma processVerification_accepts base64Decode parseInt now config responder
    token st userId groupId i s :
  token <> ""%string ->
  (3 <= length (split "_" (base64Decode token)))%nat ->
  parseInt (nth 0 (split "_" (base64Decode token)) ""%string) = Some userId ->
  parseInt (nth 1 (split "_" (base64Decode token)) ""%string)
  = Some groupId ->
  responder = Some userId ->
  findSession userId groupId (base64Decode token) (sessions st)
  = Some (i, s) ->
  processVerification base64Decode parseInt now config true responder token
    st
  = if Session.expiresAt s <? now then (InvalidOrExpired, st)
    else
      (VerificationComplete
         (awardWelcomeBonus now config userId
            match users st !! userId with
            | Some u =>
                <[userId := User.set_verificationDate (Some now)
                              (User.set_isVerified true u)]> (users st)
            | None => users st
            end).1,
       mkStore (<[i := Session.set_isCompleted true s]> (sessions st))
         (awardWelcomeBonus now config userId
            match users st !! userId with
            | Some u =>
                <[userId := User.set_verificationDate (Some now)
                              (User.set_isVerified true u)]> (users st)
            | None => users st
            end).2).
Proof.
  intros Hnonempty Hparts Huser Hgroup Hme Hfind. unfold processVerification.
  apply String.eqb_neq in Hnonempty. rewrite Hnonempty.
  apply Nat.ltb_ge in Hparts. rewrite Hparts, Huser, Hgroup.
  rewrite bool_decide_eq_true_2 by done. cbn [negb]. rewrite Hfind.
  destruct (Session.expiresAt s <? now); [done|].
  by destruct (awardWelcomeBonus _ _ _ _).
Qed.

(** X15. From the join to the verification.  Let [handleNewUser] issue
    the challenge of a join at [now] (the member restricted and the prompt
    sent), with a token that no stored session carries, and let the runtime
    decode the link payload back to that token, print numbers without [_]
    and read them back.  Then the [/start] text of the link, sent by the
    member no later than [VERIFICATION_TIMEOUT] after the join, completes
    the verification and the member is stored as verified at that
    instant; sent later, it is rejected as expired, and sent by anyone
    else it is refused; in both cases nothing is written. *)
Theorem issued_link_verifies_in_time
    (base64Decode : string -> string) (parseInt : string -> option Z)
    (numberToString : Z -> string) (now now' : Z) (config : TaxConfig.t)
    (member : Member) (groupId promptId : Z) (st : Store)
    (encoded : string) :
  encoded <> ""%string ->
  split " " encoded = [encoded] ->
  base64Decode encoded
  = verificationToken numberToString (id member) groupId now ->
  (forall n, split "_" (numberToString n) = [numberToString n]) ->
  parseInt (numberToString (id member)) = Some (id member) ->
  parseInt (numberToString groupId) = Some groupId ->
  (forall s, s ∈ sessions st ->
     Session.verificationCode s
     <> verificationToken numberToString (id member) groupId now) ->
  let st1 := handleNewUser numberToString now true (Some groupId) member
               promptId st in
  let start := handleVerificationStart base64Decode parseInt now' config true
  in
  (now' <= now + VERIFICATION_TIMEOUT ->
   exists welcomePoints v,
     (start (Some (id member)) ("/start verify_" ++ encoded)%string st1).1
     = Processed (VerificationComplete welcomePoints)
     /\ users (start (Some (id member)) ("/start verify_" ++ encoded)%string st1).2
          !! id member = Some v
     /\ User.isVerified v = true
     /\ User.verificationDate v = Some now')
  /\ (now + VERIFICATION_TIMEOUT < now' ->
      start (Some (id member)) ("/start verify_" ++ encoded)%string st1
      = (Processed InvalidOrExpired, st1))
  /\ (forall other, other <> Some (id member) ->
      start other ("/start verify_" ++ encoded)%string st1
      = (Processed NotForYou, st1)).
Proof.
  intros Hnonempty Hns Hdecode Hprint Hreadu Hreadg Hfresh st1 start.
  set (code := verificationToken numberToString (id member) groupId now)
    in *.
  set (session := Session.mk (id member) groupId code false
                    (now + VERIFICATION_TIMEOUT) (Some promptId)).
  assert (Hparts : split "_" (base64Decode encoded)
                   = [numberToString (id member); numberToString groupId;
                      numberToString now]).
  { rewrite Hdecode. unfold code, verificationToken.
    change (split "_"
              (numberToString (id member)
               ++ String "_" (numberToString groupId
                              ++ String "_" (numberToString now)))
            = [numberToString (id member); numberToString groupId;
               numberToString now]).
    rewrite (split_app_sep "_" _ _ (Hprint (id member))).
    rewrite (split_app_sep "_" _ _ (Hprint groupId)).
    by rewrite Hprint. }
  assert (Hfind : findSession (id member) groupId (base64Decode encoded)
                    (sessions st1)
                  = Some (length (sessions st), session)).
  { unfold findSession, st1, handleNewUser. cbn [negb sessions].
    rewrite Hdecode. fold code. fold session.
    rewrite list_find_app_r.
    - cbn. rewrite decide_True by done. cbn. repeat f_equal; lia.
    - apply list_find_None, Forall_forall.
      intros s Hs (_ & _ & Hc & _). by apply (Hfresh s). }
  assert (Hrun : forall responder,
    start responder ("/start verify_" ++ encoded)%string st1
    = (Processed
         (processVerification base64Decode parseInt now' config true
            responder encoded st1).1,
       (processVerification base64Decode parseInt now' config true
          responder encoded st1).2)).
  { intros responder. by apply handleVerificationStart_link. }
  assert (Hchain := processVerification_accepts base64Decode parseInt now'
            config (Some (id member)) encoded st1 (id member) groupId
            (length (sessions st)) session Hnonempty).
  rewrite Hparts in Hchain.
  specialize (Hchain ltac:(cbn; lia) Hreadu Hreadg eq_refl Hfind).
  cbn [Session.expiresAt session] in Hchain.
  split; [|split].
  - intros Hintime. apply Z.ltb_ge in Hintime.
    rewrite Hrun, Hchain, Hintime. cbn [fst snd users].
    assert (Hstored : exists u, users st1 !! id member = Some u).
    { unfold st1, handleNewUser, upsertUser. cbn [negb users].
      destruct (users st !! id member); rewrite lookup_insert_eq; eauto. }
    destruct Hstored as [u ->].
    unfold awardWelcomeBonus. rewrite lookup_insert_eq.
    destruct (TaxConfig.enableWelcomeBonus config); cbn [negb fst snd].
    + eexists _, _. split; [reflexivity|]. unfold save.
      rewrite lookup_insert_eq. split; [reflexivity|]. by split.
    + eexists _, _. split; [reflexivity|].
      rewrite lookup_insert_eq. split; [reflexivity|]. by split.
  - intros Hlate. apply Z.ltb_lt in Hlate.
    by rewrite Hrun, Hchain, Hlate.
  - intros other Hother. rewrite Hrun. unfold processVerification.
    apply String.eqb_neq in Hnonempty. rewrite Hnonempty, Hparts.
    cbn [length Nat.ltb Nat.leb nth]. rewrite Hreadu, Hreadg.
    by rewrite bool_decide_eq_false_2.
Qed.

(** User 42 joins group 7 at instant 1000 and follows the link at instant
    2000. *)
Lemma issued_link_verifies_in_time_witness :
  exists welcomePoints v,
    (handleVerificationStart Example.decode Example.parseDecimal 2000
       Example.config true (Some 42) "/start verify_42_7_1000"
       (handleNewUser exampleShow 1000 true (Some 7)
          (mkMember 42 None "Ann" None) 5 (mkStore [] ∅))).1
    = Processed (VerificationComplete welcomePoints)
    /\ users
         (handleVerificationStart Example.decode Example.parseDecimal 2000
            Example.config true (Some 42) "/start verify_42_7_1000"
            (handleNewUser exampleShow 1000 true (Some 7)
               (mkMember 42 None "Ann" None) 5 (mkStore [] ∅))).2
         !! 42 = Some v
    /\ User.isVerified v = true
    /\ User.verificationDate v = Some 2000.
Proof.
  refine (proj1 (issued_link_verifies_in_time Example.decode
                   Example.parseDecimal exampleShow 1000 2000 Example.config
                   (mkMember 42 None "Ann" None) 7 5 (mkStore [] ∅)
                   "42_7_1000" _ eq_refl eq_refl _ eq_refl eq_refl _) _).
  - discriminate.
  - intros n. unfold exampleShow.
    destruct (n =? 42); [reflexivity|]. destruct (n =? 7); reflexivity.
  - intros s Hs. by apply elem_of_nil in Hs.
  - by_computation.
Defined.

(** ** The configuration: documents stay within the schema *)

Lemma inRange_numericField min max cur value :
  inRange min max cur = true ->
  inRange min max (default cur (numericField min max value)) = true.
Proof.
  intros Hcur. unfold numericField. destruct value as [v|]; [|exact Hcur].
  fold (inRange min max v). by destruct (inRange min max v) eqn:Hv.
Qed.

Lemma forallb_sortByKey {A : Type} (key : A -> Q) (f : A -> bool) l :
  forallb f l = true -> forallb f (sortByKey key l) = true.
Proof.
  assert (Hiff : forall l', forallb f l' = true <-> Forall (λ x, f x = true) l').
  { intros l'. rewrite forallb_forall, Forall_forall.
    split; intros H x Hx; apply H; by apply list_elem_of_In. }
  rewrite !Hiff. intros Hl.
  unfold sortByKey. induction Hl as [|x rest Hx Hrest IH]; cbn [foldr].
  - constructor.
  - by apply insertByKey_Forall.
Qed.

Lemma sortedBy_nil {A : Type} (key : A -> Q) : sortedBy key [].
Proof. intros a b xa xb Ha. by rewrite lookup_nil in Ha. Qed.

Lemma wellFormed_spread current updates :
  wellFormed current ->
  wellFormed (spread current (validateConfigUpdates updates)).
Proof.
  intros (Hvalid & Hstreak & Hmile). unfold wellFormed, schemaValid in *.
  rewrite !andb_true_iff in Hvalid.
  destruct Hvalid as (((((((((((((((((H1 & H2) & H3) & H4) & H5) & H6) & H7)
    & H8) & H9) & H10) & H11) & H12) & H13) & H14) & H15) & H16) & H17)
    & H18).
  cbn [spread validateConfigUpdates TaxConfig.welcomeBonus
       TaxConfig.baseMessagePoints TaxConfig.dailyFirstMessageBonus
       TaxConfig.minMessageLength TaxConfig.qualityMessageLength
       TaxConfig.qualityMultiplier TaxConfig.replyBonus
       TaxConfig.streakMultipliers TaxConfig.maxStreakMultiplier
       TaxConfig.cooldownSeconds TaxConfig.maxPointsPerHour
       TaxConfig.maxPointsPerDay TaxConfig.diminishingReturnsThreshold
       TaxConfig.diminishingReturnsFactor TaxConfig.milestoneRewards
       TaxConfig.weekendMultiplier TaxConfig.nightOwlBonus
       TaxConfig.notificationThreshold
       ConfigUpdates.welcomeBonus
       ConfigUpdates.baseMessagePoints ConfigUpdates.dailyFirstMessageBonus
       ConfigUpdates.minMessageLength ConfigUpdates.qualityMessageLength
       ConfigUpdates.qualityMultiplier ConfigUpdates.replyBonus
       ConfigUpdates.streakMultipliers ConfigUpdates.maxStreakMultiplier
       ConfigUpdates.cooldownSeconds ConfigUpdates.maxPointsPerHour
       ConfigUpdates.maxPointsPerDay ConfigUpdates.diminishingReturnsThreshold
       ConfigUpdates.diminishingReturnsFactor ConfigUpdates.milestoneRewards
       ConfigUpdates.weekendMultiplier ConfigUpdates.nightOwlBonus
       ConfigUpdates.notificationThreshold].
  split; [|split].
  - rewrite !andb_true_iff.
    repeat (split; [|first [by apply inRange_numericField | idtac]]);
      try (by apply inRange_numericField).
    + destruct (ConfigUpdates.streakMultipliers updates) as [t|]; [|done].
      destruct (forallb validStreakThreshold t) eqn:Ht; [|done].
      by apply forallb_sortByKey.
    + destruct (ConfigUpdates.milestoneRewards updates) as [t|]; [|done].
      destruct (forallb validMilestone t) eqn:Ht; [|done].
      by apply forallb_sortByKey.
    + destruct (ConfigUpdates.nightOwlBonus updates) as [b|]; [|done].
      by destruct (validNightOwl b) eqn:Hb.
  - destruct (ConfigUpdates.streakMultipliers updates) as [t|]; [|done].
    destruct (forallb validStreakThreshold t); [|done].
    apply sortByKey_sorted.
  - destruct (ConfigUpdates.milestoneRewards updates) as [t|]; [|done].
    destruct (forallb validMilestone t); [|done].
    apply sortByKey_sorted.
Qed.

Lemma wellFormed_stamp version now updatedBy c :
  wellFormed c -> wellFormed (stamp version now updatedBy c).
Proof. done. Qed.

Lemma wellFormed_set_isActive v c :
  wellFormed c -> wellFormed (set_isActive v c).
Proof. done. Qed.

Lemma wellFormed_created (store : Configs) (c : TaxConfig.t) :
  (forall d, d ∈ store -> wellFormed d) -> wellFormed c ->
  forall d, d ∈ deactivateOthers (length store) (store ++ [c]) ->
    wellFormed d.
Proof.
  intros Hstore Hc d. rewrite deactivateOthers_create.
  rewrite elem_of_app, list_elem_of_fmap, list_elem_of_singleton.
  intros [(e & -> & He)| ->]; [|done].
  by apply wellFormed_set_isActive, Hstore.
Qed.

(** X16. The stored configurations stay within the schema, and a value
    that fails the checks of an update is dropped.  When every stored
    document passes the validators of the schema and has its streak and
    milestone tables in increasing order, so does the document that a
    successful [updateConfig] or [revertToVersion] creates, and so do all
    documents stored afterwards.  In the document that [updateConfig]
    creates, each numeric field has the value of the update when that lies
    within the bounds of the field, and otherwise the value of the
    configuration that was active; the streak and milestone tables are
    those of the update, sorted, when all their rows are valid, and
    otherwise those of the active configuration; and the night-owl bonus
    is that of the update when it is valid, and otherwise that of the
    active configuration. *)
Theorem config_store_stays_well_formed (now : Z) (updatedBy : option Z)
    (store : Configs) :
  (forall c, c ∈ store -> wellFormed c) ->
  (forall updates newConfig store',
     updateConfig now updates updatedBy store = Ok (newConfig, store') ->
     wellFormed newConfig
     /\ (forall c, c ∈ store' -> wellFormed c)
     /\ exists current,
          findActiveLatest store = Some current
          /\ Forall (replacedOrKept current updates newConfig) numericFields
          /\ TaxConfig.streakMultipliers newConfig
             = match ConfigUpdates.streakMultipliers updates with
               | Some table =>
                   if forallb validStreakThreshold table
                   then sortByKey StreakThreshold.days table
                   else TaxConfig.streakMultipliers current
               | None => TaxConfig.streakMultipliers current
               end
          /\ TaxConfig.milestoneRewards newConfig
             = match ConfigUpdates.milestoneRewards updates with
               | Some table =>
                   if forallb validMilestone table
                   then sortByKey Milestone.points table
                   else TaxConfig.milestoneRewards current
               | None => TaxConfig.milestoneRewards current
               end
          /\ TaxConfig.nightOwlBonus newConfig
             = match ConfigUpdates.nightOwlBonus updates with
               | Some b =>
                   if validNightOwl b then b
                   else TaxConfig.nightOwlBonus current
               | None => TaxConfig.nightOwlBonus current
               end)
  /\ (forall version reverted store',
        revertToVersion now version updatedBy store = Ok (reverted, store') ->
        wellFormed reverted /\ forall c, c ∈ store' -> wellFormed c).
Proof.
  intros Hstore. split.
  - intros updates newConfig store'. unfold updateConfig.
    destruct (findActiveLatest store) as [current|] eqn:Hcur; [|done].
    cbv zeta. intros [= <- <-].
    apply findActiveLatest_Some in Hcur as [Hin _].
    assert (Hnew : wellFormed
                     (stamp (TaxConfig.version current + 1) now updatedBy
                        (spread current (validateConfigUpdates updates)))).
    { by apply wellFormed_stamp, wellFormed_spread, Hstore. }
    split; [exact Hnew|]. split; [by apply wellFormed_created|].
    exists current. split; [reflexivity|]. split; [|split; [|split]].
    + unfold numericFields.
      repeat (apply Forall_cons; split;
              [unfold replacedOrKept;
               cbn [stamp spread validateConfigUpdates
                    TaxConfig.welcomeBonus TaxConfig.baseMessagePoints
                    TaxConfig.dailyFirstMessageBonus
                    TaxConfig.minMessageLength TaxConfig.qualityMessageLength
                    TaxConfig.qualityMultiplier TaxConfig.replyBonus
                    TaxConfig.maxStreakMultiplier TaxConfig.cooldownSeconds
                    TaxConfig.maxPointsPerHour TaxConfig.maxPointsPerDay
                    TaxConfig.diminishingReturnsThreshold
                    TaxConfig.diminishingReturnsFactor
                    TaxConfig.weekendMultiplier
                    TaxConfig.notificationThreshold
                    ConfigUpdates.welcomeBonus ConfigUpdates.baseMessagePoints
                    ConfigUpdates.dailyFirstMessageBonus
                    ConfigUpdates.minMessageLength
                    ConfigUpdates.qualityMessageLength
                    ConfigUpdates.qualityMultiplier ConfigUpdates.replyBonus
                    ConfigUpdates.maxStreakMultiplier
                    ConfigUpdates.cooldownSeconds
                    ConfigUpdates.maxPointsPerHour
                    ConfigUpdates.maxPointsPerDay
                    ConfigUpdates.diminishingReturnsThreshold
                    ConfigUpdates.diminishingReturnsFactor
                    ConfigUpdates.weekendMultiplier
                    ConfigUpdates.notificationThreshold];
               unfold numericField, inRange;
               match goal with
               | |- context [match ?o with Some _ => _ | None => _ end] =>
                   destruct o as [v|]; [|reflexivity]
               end;
               by destruct (Qgeb v _ && Qle_bool v _)|]).
      apply Forall_nil_2.
    + cbn [stamp spread validateConfigUpdates TaxConfig.streakMultipliers
           ConfigUpdates.streakMultipliers].
      destruct (ConfigUpdates.streakMultipliers updates) as [t|]; [|done].
      by destruct (forallb validStreakThreshold t).
    + cbn [stamp spread validateConfigUpdates TaxConfig.milestoneRewards
           ConfigUpdates.milestoneRewards].
      destruct (ConfigUpdates.milestoneRewards updates) as [t|]; [|done].
      by destruct (forallb validMilestone t).
    + cbn [stamp spread validateConfigUpdates TaxConfig.nightOwlBonus
           ConfigUpdates.nightOwlBonus].
      destruct (ConfigUpdates.nightOwlBonus updates) as [b|]; [|done].
      by destruct (validNightOwl b).
  - intros version reverted store'. unfold revertToVersion.
    destruct (List.find _ store) as [target|] eqn:Htarget; [|done].
    cbv zeta. intros [= <- <-].
    apply find_some in Htarget as [Hin _].
    apply list_elem_of_In in Hin.
    assert (Hnew : forall v,
              wellFormed (set_isActive true (stamp v now updatedBy target))).
    { intros v. by apply wellFormed_set_isActive, wellFormed_stamp, Hstore. }
    split; [apply Hnew|]. by apply wellFormed_created.
Qed.

(** The default configuration is well formed; an update that asks for
    20000 welcome points and a cooldown of 10 seconds only changes the
    cooldown. *)
Lemma config_store_stays_well_formed_witness :
  wellFormed Example.config
  /\ exists c store',
       updateConfig 1000
         (ConfigUpdates.mk None None None None (Some 20000%Q) None None None
            None None None None None (Some 10%Q) None None None None None None
            None None None None None None None None None None None None)
         (Some 1) [Example.config] = Ok (c, store')
       /\ wellFormed c
       /\ TaxConfig.welcomeBonus c = 500%Q
       /\ TaxConfig.cooldownSeconds c = 10%Q.
Proof.
  assert (Hdefault : wellFormed Example.config).
  { split; [reflexivity|]. split.
    - intros a b xa xb Ha Hb Hab.
      destruct a as [|[|[|[|a]]]]; try discriminate Ha;
        destruct b as [|[|[|[|b]]]]; try discriminate Hb;
        try lia; injection Ha as <-; injection Hb as <-; by_computation.
    - intros a b xa xb Ha Hb Hab.
      destruct a as [|[|[|[|a]]]]; try discriminate Ha;
        destruct b as [|[|[|[|b]]]]; try discriminate Hb;
        try lia; injection Ha as <-; injection Hb as <-; by_computation. }
  split; [exact Hdefault|].
  eexists _, _. split; [reflexivity|].
  assert (Hstore : forall c, c ∈ [Example.config] -> wellFormed c).
  { intros c Hc. apply list_elem_of_singleton in Hc. by subst c. }
  destruct (proj1 (config_store_stays_well_formed 1000 (Some 1)
                     [Example.config] Hstore)
              (ConfigUpdates.mk None None None None (Some 20000%Q) None None
                 None None None None None None (Some 10%Q) None None None
                 None None None None None None None None None None None None
                 None None None)
              _ _ eq_refl)
    as (Hwf & _ & current & Hcurrent & Hfields & _).
  injection Hcurrent as <-.
  split; [exact Hwf|].
  apply Forall_cons in Hfields as [Hwelcome Hfields].
  do 7 (apply Forall_cons in Hfields as [_ Hfields]).
  apply Forall_cons in Hfields as [Hcooldown _].
  split; [exact Hwelcome | exact Hcooldown].
Defined.

(** ** The configuration service: the cache *)

Lemma findActiveLatest_created (store : Configs) (c : TaxConfig.t) :
  TaxConfig.isActive c = true ->
  findActiveLatest ((deactivate <$> store) ++ [c]) = Some c.
Proof.
  intros Hc. induction store as [|d rest IH].
  - cbn. by rewrite Hc.
  - cbn [fmap list_fmap app findActiveLatest]. exact IH.
Qed.

(** What a successful [updateConfig] or [revertToVersion] stores is found
    as the active configuration. *)
Lemma updateConfig_findActiveLatest now updates updatedBy store c store' :
  updateConfig now updates updatedBy store = Ok (c, store') ->
  findActiveLatest store' = Some c
  /\ exists current,
       findActiveLatest store = Some current
       /\ TaxConfig.version c = TaxConfig.version current + 1.
Proof.
  unfold updateConfig.
  destruct (findActiveLatest store) as [current|] eqn:Hcur; [|done].
  cbv zeta. intros [= <- <-]. rewrite deactivateOthers_create. split.
  - apply findActiveLatest_created.
    apply findActiveLatest_Some in Hcur as [_ Hactive]. exact Hactive.
  - by exists current.
Qed.

Lemma revertToVersion_findActiveLatest now version updatedBy store c store' :
  revertToVersion now version updatedBy store = Ok (c, store') ->
  findActiveLatest store' = Some c.
Proof.
  unfold revertToVersion.
  destruct (List.find _ store) as [target|]; [|done].
  cbv zeta. intros [= <- <-]. rewrite deactivateOthers_create.
  by apply findActiveLatest_created.
Qed.

Section ConfigCache.
Variable spreadOverrides : TaxConfig.t -> Mixed -> TaxConfig.t.

Lemma getConfig_cached now (svc : Service) store cached :
  cachedConfig svc = Some cached -> now < cacheExpiry svc ->
  getConfig spreadOverrides now None svc store = (cached, svc, store).
Proof.
  intros Hc Hfresh. unfold getConfig. rewrite Hc.
  apply Z.ltb_lt in Hfresh. by rewrite Hfresh.
Qed.

Lemma getConfig_loaded now (svc : Service) store config :
  cachedConfig svc = None \/ cacheExpiry svc <= now ->
  findActiveLatest store = Some config ->
  getConfig spreadOverrides now None svc store
  = (config, mkService (Some config) (now + CACHE_DURATION), store).
Proof.
  intros Hstale Hactive. unfold getConfig.
  assert (Hnone : match cachedConfig svc with
                  | Some cached =>
                      if now <? cacheExpiry svc then Some cached else None
                  | None => None
                  end = None).
  { destruct Hstale as [->|Hexp]; [done|].
    apply Z.ltb_ge in Hexp. rewrite Hexp. by destruct (cachedConfig svc). }
  by rewrite Hnone, Hactive.
Qed.

(** X17. The cache of a configuration service.  Let a [reader] service
    load the active configuration at [t0] (its cache empty or expired),
    and let a successful [updateConfig] or [revertToVersion] then go
    through another service, the [writer].  The writer reads the new
    configuration at once and at any time; the reader goes on returning the
    old one until [CACHE_DURATION] after [t0], and returns the new one from
    then on. *)
Theorem config_change_seen_after_cache_expiry (t0 t1 t2 : Z)
    (reader writer writer' : Service) (store store' : Configs)
    (old new : TaxConfig.t) (change : Z + ConfigUpdates.t)
    (updatedBy : option Z) :
  cachedConfig reader = None \/ cacheExpiry reader <= t0 ->
  findActiveLatest store = Some old ->
  match change with
  | inl version => revertToVersionWith t1 version updatedBy writer store
  | inr updates => updateConfigWith t1 updates updatedBy writer store
  end = (Ok new, writer', store') ->
  let reader' := (getConfig spreadOverrides t0 None reader store).1.2 in
  (getConfig spreadOverrides t0 None reader store).1.1 = old
  /\ (getConfig spreadOverrides t0 None reader store).2 = store
  /\ (getConfig spreadOverrides t2 None writer' store').1.1 = new
  /\ (t2 < t0 + CACHE_DURATION ->
      getConfig spreadOverrides t2 None reader' store'
      = (old, reader', store'))
  /\ (t0 + CACHE_DURATION <= t2 ->
      (getConfig spreadOverrides t2 None reader' store').1.1 = new).
Proof.
  intros Hstale Hold Hchange reader'.
  assert (Hnew : findActiveLatest store' = Some new
                 /\ cachedConfig writer' = None).
  { destruct change as [version|updates].
    - unfold revertToVersionWith in Hchange.
      destruct (revertToVersion t1 version updatedBy store) as [[c s]|]
        eqn:Hr; [|done].
      injection Hchange as <- <- <-. split; [|done].
      by eapply revertToVersion_findActiveLatest.
    - unfold updateConfigWith in Hchange.
      destruct (updateConfig t1 updates updatedBy store) as [[c s]|]
        eqn:Hr; [|done].
      injection Hchange as <- <- <-. split; [|done].
      by eapply updateConfig_findActiveLatest. }
  destruct Hnew as [Hnew Hflushed].
  unfold reader'. rewrite (getConfig_loaded t0 reader store old Hstale Hold).
  cbn [fst snd]. split; [done|]. split; [done|]. split; [|split].
  - by rewrite (getConfig_loaded t2 writer' store' new (or_introl Hflushed)
                  Hnew).
  - intros Hfresh. by apply getConfig_cached.
  - intros Hexpired.
    by rewrite (getConfig_loaded t2
                  (mkService (Some old) (t0 + CACHE_DURATION)) store' new
                  (or_intror Hexpired) Hnew).
Qed.
End ConfigCache.

(** Two services on the default configuration: one loads it at instant 0,
    the other turns milestone rewards off at instant 1000. *)
Lemma config_change_seen_after_cache_expiry_witness :
  let reader' :=
    (getConfig (λ c _, c) 0 None newService [Example.config]).1.2 in
  let store' := [deactivate Example.config; Example.configNoMilestones] in
  (getConfig (λ c _, c) 2000 None reader' store').1.1 = Example.config
  /\ (getConfig (λ c _, c) 300000 None reader' store').1.1
     = Example.configNoMilestones.
Proof.
  pose proof (config_change_seen_after_cache_expiry (λ c _, c) 0 1000 2000
                newService newService (mkService None 0) [Example.config]
                [deactivate Example.config; Example.configNoMilestones]
                Example.config Example.configNoMilestones
                (inr Example.milestonesOff) (Some 1)
                (or_introl eq_refl) eq_refl eq_refl) as H1.
  pose proof (config_change_seen_after_cache_expiry (λ c _, c) 0 1000 300000
                newService newService (mkService None 0) [Example.config]
                [deactivate Example.config; Example.configNoMilestones]
                Example.config Example.configNoMilestones
                (inr Example.milestonesOff) (Some 1)
                (or_introl eq_refl) eq_refl eq_refl) as H2.
  cbv zeta in H1, H2 |- *.
  destruct H1 as (_ & _ & _ & Hstale & _).
  destruct H2 as (_ & _ & _ & _ & Hseen).
  split.
  - rewrite Hstale by by_computation. reflexivity.
  - apply Hseen. by_computation.
Defined.

(** ** The configuration service: group overrides *)











Section GroupOverrideProperties.
Variable spreadOverrides : TaxConfig.t -> Mixed -> TaxConfig.t.


End GroupOverrideProperties.


(** ** Statistics *)

Lemma filter_ahead_mono (p q : Q) (db : Users) :
  (p <= q)%Q -> filter (ahead q) db ⊆ filter (ahead p) db.
Proof.
  intros Hpq. apply map_filter_subseteq_ext. intros k w _.
  unfold ahead. rewrite !Qltb_lt. cbn. lra.
Qed.

(** X19. The rank of [getUserStats].  For two stored users: the rank is
    at least 1 and at most the number of stored users; it is 1 exactly
    when no stored user has a greater balance; and a user with at least
    the balance of another has at most the other's rank, so that equal
    balances share a rank. *)
Theorem rank_follows_balance (db : Users) (uid vid : Z) (su sv : Stats) :
  getUserStats uid db = Some su ->
  getUserStats vid db = Some sv ->
  1 <= stats_rank su <= Z.of_nat (size db)
  /\ (stats_rank su = 1
      <-> forall k w, db !! k = Some w ->
            (User.taxPoints w <= stats_taxPoints su)%Q)
  /\ ((stats_taxPoints su <= stats_taxPoints sv)%Q ->
      stats_rank sv <= stats_rank su).
Proof.
  unfold getUserStats.
  destruct (db !! uid) as [u|] eqn:Hu; [|done].
  destruct (db !! vid) as [v|] eqn:Hv; [|done].
  intros [= <-] [= <-]. cbn [stats_rank stats_taxPoints].
  split; [|split].
  - split; [lia|].
    assert (Hsub : filter (ahead (User.taxPoints u)) db ⊆ delete uid db).
    { apply map_subseteq_spec. intros k w Hk.
      apply map_lookup_filter_Some in Hk as [Hk Hahead].
      destruct (decide (k = uid)) as [->|Hne].
      - rewrite Hu in Hk. injection Hk as <-.
        unfold ahead in Hahead. apply Qltb_lt in Hahead. cbn in Hahead. lra.
      - by rewrite lookup_delete_ne. }
    apply map_subseteq_size in Hsub.
    rewrite map_size_delete_Some in Hsub by done.
    assert (size db <> 0)%nat.
    { apply map_size_non_empty_iff. intros ->. by rewrite lookup_empty in Hu. }
    lia.
  - split.
    + intros Hrank k w Hk.
      assert (Hempty : filter (ahead (User.taxPoints u)) db = ∅).
      { apply map_size_empty_iff. lia. }
      apply Qltb_ge. destruct (Qltb _ _) eqn:Hlt; [|done].
      assert (Hin : filter (ahead (User.taxPoints u)) db !! k = Some w).
      { by apply map_lookup_filter_Some. }
      by rewrite Hempty, lookup_empty in Hin.
    + intros Hmax.
      assert (Hempty : filter (ahead (User.taxPoints u)) db = ∅).
      { apply map_empty. intros k.
        destruct (filter _ db !! k) as [w|] eqn:Hk; [|done].
        apply map_lookup_filter_Some in Hk as [Hk Hahead].
        unfold ahead in Hahead. apply Qltb_lt in Hahead. cbn in Hahead.
        specialize (Hmax k w Hk). lra. }
      by rewrite Hempty, map_size_empty.
  - intros Hle.
    pose proof (map_subseteq_size _ _
                  (filter_ahead_mono _ _ db Hle)). lia.
Qed.

Lemma rank_follows_balance_witness :
  exists su,
    getUserStats 42 (<[43 := Example.newcomer]> (Example.users 100 0 None))
    = Some su
    /\ stats_rank su = 1.
Proof.
  destruct (getUserStats 42
              (<[43 := Example.newcomer]> (Example.users 100 0 None)))
    as [su|] eqn:Hsu; [|vm_compute in Hsu; discriminate Hsu].
  destruct (getUserStats 43
              (<[43 := Example.newcomer]> (Example.users 100 0 None)))
    as [sv|] eqn:Hsv; [|vm_compute in Hsv; discriminate Hsv].
  exists su. split; [reflexivity|].
  apply (proj1 (proj2 (rank_follows_balance
                         (<[43 := Example.newcomer]>
                            (Example.users 100 0 None)) 42 43 su sv
                         Hsu Hsv))).
  assert (Hbalance : stats_taxPoints su = 100%Q).
  { vm_compute in Hsu. by injection Hsu as <-. }
  rewrite Hbalance. intros k w Hk.
  destruct (decide (k = 43)) as [->|H43].
  - rewrite lookup_insert_eq in Hk. injection Hk as <-. by_computation.
  - rewrite lookup_insert_ne in Hk by done.
    destruct (decide (k = 42)) as [->|H42].
    + injection Hk as <-. by_computation.
    + unfold Example.users in Hk. rewrite lookup_singleton_ne in Hk by done.
      discriminate Hk.
Defined.

(** ** The text handler of the bot *)

(** X20. The text handler.  A text that starts with [/] is skipped: no
    points, no answer, nothing written.  Any other text is handed to
    [processMessagePoints], and the users afterwards are the ones it
    leaves; an answer is sent exactly when 10 points or more were
    returned, whatever [enablePointNotifications] and
    [notificationThreshold] say, and it shows the points returned, the
    balance stored for the sender after the award (a milestone bonus
    included) and a rank of at least 1. *)
Theorem text_handler_answers_from_10_points (tz now : Z)
    (config : TaxConfig.t) (ctx : Context) (text : string) (db : Users) :
  (String.prefix "/" text = true ->
   onText tz now config ctx text db = (None, db))
  /\ (String.prefix "/" text = false ->
      (onText tz now config ctx text db).2
      = (processMessagePoints tz now config ctx text db).2
      /\ ((processMessagePoints tz now config ctx text db).1 < 10 ->
          (onText tz now config ctx text db).1 = None)
      /\ (10 <= (processMessagePoints tz now config ctx text db).1 ->
          exists uid v stats,
            from ctx = Some uid
            /\ (processMessagePoints tz now config ctx text db).2 !! uid
               = Some v
            /\ (onText tz now config ctx text db).1
               = Some ((processMessagePoints tz now config ctx text db).1,
                       stats)
            /\ stats_taxPoints stats = User.taxPoints v
            /\ 1 <= stats_rank stats)).
Proof.
  unfold onText. split; [by intros ->|]. intros ->.
  destruct (processMessagePoints tz now config ctx text db) as [p db']
    eqn:Hrun.
  cbn [fst snd]. split; [|split].
  - destruct (10 <=? p); [|done].
    destruct (from ctx) as [uid|]; [|done].
    by destruct (getUserStats uid db').
  - intros Hlt. apply Z.leb_gt in Hlt. by rewrite Hlt.
  - intros Hge.
    assert (Hpos : (processMessagePoints tz now config ctx text db).1 <> 0)
      by (rewrite Hrun; cbn; lia).
    destruct (processMessagePoints_stamps _ _ _ _ _ _ Hpos)
      as (uid & v & Hfrom & Hv & _).
    rewrite Hrun in Hv. cbn [snd] in Hv.
    apply Z.leb_le in Hge. rewrite Hge, Hfrom.
    unfold getUserStats. rewrite Hv.
    eexists uid, v, _. repeat (split; [reflexivity || done|]).
    cbn [stats_rank]. lia.
Qed.

Lemma text_handler_answers_from_10_points_witness :
  onText 0 Example.noon Example.config Example.message "/stats"
    (Example.users 100 0 None) = (None, Example.users 100 0 None)
  /\ (onText 0 Example.noon Example.config Example.message "hello"
        (Example.users 100 0 None)).1 = None.
Proof.
  split.
  - exact (proj1 (text_handler_answers_from_10_points 0 Example.noon
                    Example.config Example.message "/stats"
                    (Example.users 100 0 None)) eq_refl).
  - apply (proj2 (text_handler_answers_from_10_points 0 Example.noon
                    Example.config Example.message "hello"
                    (Example.users 100 0 None)) eq_refl).
    by_computation.
Defined.
